(** * QtPythonEmbed: the execution controller (CodeRunner), the
      interpreter handle (PythonInterpreterManager), the window, the editor
      and the configuration manager

    A shallow embedding of [CodeRunner.cpp], [CodeRunner.h] and of the
    execution half of [PythonInterpreterManager.cpp], followed by the
    editor ([PyEditor.cpp]), the slots of the window ([PyWindow.cpp]), the
    configuration and life cycle of the interpreter manager, and the
    setters of [ConfigManager.cpp], each in a module of its own.

    The C++ objects of the execution controller live in a store indexed by
    address, the process-wide [g_currentRunner] pointer is a field of the
    store, and so is the Python thread state of the worker thread, which
    [PyGILState_Ensure] creates and the matching [PyGILState_Release]
    destroys, the trace function and the error indicator with it.  Qt's
    queued invocations are a list of posted functors, and everything a run
    does that somebody outside can observe (signals, log messages, lock
    operations, executed statements) is appended to an event log.

    Member functions are computations of a small state-and-failure monad.
    Failure is the death of the process: a dereference of a null pointer
    (the thread state among them) or of a pointer to an object whose
    lifetime has ended; the state a failed computation returns is the one
    the process died in, and nothing runs after it. *)

From Stdlib Require Import FunInd Recdef.
From stdpp Require Import gmap strings list.

Open Scope Z_scope.

(** ** Data model *)

(** [CodeRunner::DebugState] (CodeRunner.h). *)
Inductive DebugState : Set :=
| Running
| Paused
| StepInto
| StepOver
| StepOut.

#[global] Instance DebugState_eq_dec : EqDecision DebugState.
Proof. solve_decision. Defined.

(** Addresses of [CodeRunner] objects. *)
Abbreviation addr := positive.

(** The data members of [CodeRunner] (CodeRunner.h); [m_debugMutex] and
    [m_debugCondition] carry no data. *)
Record CodeRunner : Type := mkCodeRunner {
  m_isExecuting : bool;
  m_shouldAbort : bool;
  m_executionDelay : Z;
  m_currentLine : Z;
  m_debugState : DebugState;
  m_breakpoints : gset Z;
  m_callDepth : Z
}.

(** The default member initialisers of the class. *)
Definition CodeRunner_init : CodeRunner :=
  {| m_isExecuting := false; m_shouldAbort := false; m_executionDelay := 0;
     m_currentLine := -1; m_debugState := Running; m_breakpoints := ∅;
     m_callDepth := 0 |}.

Definition set_isExecuting (b : bool) (r : CodeRunner) : CodeRunner :=
  {| m_isExecuting := b; m_shouldAbort := m_shouldAbort r;
     m_executionDelay := m_executionDelay r; m_currentLine := m_currentLine r;
     m_debugState := m_debugState r; m_breakpoints := m_breakpoints r;
     m_callDepth := m_callDepth r |}.

Definition set_shouldAbort (b : bool) (r : CodeRunner) : CodeRunner :=
  {| m_isExecuting := m_isExecuting r; m_shouldAbort := b;
     m_executionDelay := m_executionDelay r; m_currentLine := m_currentLine r;
     m_debugState := m_debugState r; m_breakpoints := m_breakpoints r;
     m_callDepth := m_callDepth r |}.

Definition set_executionDelay (d : Z) (r : CodeRunner) : CodeRunner :=
  {| m_isExecuting := m_isExecuting r; m_shouldAbort := m_shouldAbort r;
     m_executionDelay := d; m_currentLine := m_currentLine r;
     m_debugState := m_debugState r; m_breakpoints := m_breakpoints r;
     m_callDepth := m_callDepth r |}.


Definition set_breakpoints (b : gset Z) (r : CodeRunner) : CodeRunner :=
  {| m_isExecuting := m_isExecuting r; m_shouldAbort := m_shouldAbort r;
     m_executionDelay := m_executionDelay r; m_currentLine := m_currentLine r;
     m_debugState := m_debugState r; m_breakpoints := b;
     m_callDepth := m_callDepth r |}.

(** The signals of [CodeRunner] (CodeRunner.h, [signals:]). *)
Inductive Signal : Type :=
| executionStarted
| executionFinished
| lineExecuted (lineNumber : Z)
| outputReceived (text : string)
| errorOccurred (error : string)
| progressUpdated (current total : Z)
| debugStateChanged (state : DebugState).

#[global] Instance Signal_eq_dec : EqDecision Signal.
Proof. solve_decision. Defined.

(** What the trace callback reads of a [PyFrameObject]: the line that
    [PyFrame_GetLineNumber] returns and [f_code->co_filename] when it is a
    unicode object. *)
Record PyFrame : Type := mkPyFrame {
  f_lineno : Z;
  co_filename : option string
}.

Definition PyFrame_GetLineNumber (frame : PyFrame) : Z := f_lineno frame.

(** A nullable [PyObject*] whose contents the code never inspects. *)
Abbreviation PyObject := (option positive).

(** The interpreter's error indicator as [PyErr_Fetch] hands it out: the
    exception type, and the text of the value when the value passes
    [PyUnicode_Check]. *)
Record PyErr : Type := mkPyErr {
  exc_type : string;
  exc_value : option string
}.

(** The functors handed to [QMetaObject::invokeMethod] with
    [Qt::QueuedConnection]. *)
Inductive Functor : Type :=
| CallExecute (code : string)
    (* [this, code]() { executePythonCodeSafely(code); }   (runCode) *)
| EmitLineExecuted (lineNumber : Z).
    (* [lineNumber]() { emit g_currentRunner->lineExecuted(lineNumber); } *)

(** Observable actions, in the order the worker thread performs them. *)
Inductive Event : Type :=
| Emit (sender : addr) (s : Signal)
| PythonError (msg : string)      (* emit pythonError(msg) of the manager *)
| QWarning (msg : string)
| QCritical (msg : string)
| QDebug (msg : string)
| GilAcquire                      (* PyGILState_Ensure, py::gil_scoped_acquire *)
| GilRelease                      (* PyGILState_Release, end of a gil scope *)
| SetTrace (installed : bool)     (* PyEval_SetTrace *)
| ErrSetString (exc msg : string) (* PyErr_SetString *)
| StatementExecuted (lineNumber : Z)
| ConsoleWrite (text : string).   (* a write that reaches the real stdout *)

(** The members of [PythonInterpreterManager] that execution touches.  The
    only [std::function] ever stored in [m_outputCallback] is the lambda of
    [executePythonCodeSafely], which captures [this]; it is represented by
    the captured address. *)
Record PythonInterpreterManager : Type := mkManager {
  m_initialized : bool;
  m_outputCallback : option addr
}.

(** The Python thread state of the worker thread, as far as the code uses
    it: the count of [PyGILState_Ensure] calls not yet released (at least
    one while the state exists), the C trace function installed with
    [PyEval_SetTrace] ([pythonTraceFunction] is the only one the code
    installs), and the error indicator. *)
Record PyThreadState : Type := mkPyThreadState {
  gilstate_counter : positive;
  c_tracefunc : bool;
  curexc : option PyErr
}.

Definition set_gilstate_counter (n : positive) (t : PyThreadState)
    : PyThreadState :=
  {| gilstate_counter := n; c_tracefunc := c_tracefunc t;
     curexc := curexc t |}.

Definition set_c_tracefunc (b : bool) (t : PyThreadState) : PyThreadState :=
  {| gilstate_counter := gilstate_counter t; c_tracefunc := b;
     curexc := curexc t |}.

Definition set_curexc (e : option PyErr) (t : PyThreadState)
    : PyThreadState :=
  {| gilstate_counter := gilstate_counter t; c_tracefunc := c_tracefunc t;
     curexc := e |}.

(** The process: the [static CodeRunner* g_currentRunner] of CodeRunner.cpp,
    the live [CodeRunner] objects, the manager singleton, whether
    [sys.stdout] and [sys.stderr] have been replaced, the Python thread
    state of the worker thread ([None] while it has none), the posted
    functors with their context object, and the event log. *)
Record World : Type := mkWorld {
  g_currentRunner : option addr;
  runners : gmap addr CodeRunner;
  pyManager : PythonInterpreterManager;
  sys_stdout_redirected : bool;
  tstate : option PyThreadState;
  posted : list (addr * Functor);
  log : list Event
}.

Definition set_g_currentRunner (g : option addr) (w : World) : World :=
  {| g_currentRunner := g; runners := runners w; pyManager := pyManager w;
     sys_stdout_redirected := sys_stdout_redirected w;
     tstate := tstate w; posted := posted w; log := log w |}.

Definition set_runners (m : gmap addr CodeRunner) (w : World) : World :=
  {| g_currentRunner := g_currentRunner w; runners := m;
     pyManager := pyManager w;
     sys_stdout_redirected := sys_stdout_redirected w;
     tstate := tstate w; posted := posted w; log := log w |}.

Definition set_pyManager (p : PythonInterpreterManager) (w : World) : World :=
  {| g_currentRunner := g_currentRunner w; runners := runners w;
     pyManager := p; sys_stdout_redirected := sys_stdout_redirected w;
     tstate := tstate w; posted := posted w; log := log w |}.

Definition set_sys_stdout_redirected (b : bool) (w : World) : World :=
  {| g_currentRunner := g_currentRunner w; runners := runners w;
     pyManager := pyManager w; sys_stdout_redirected := b;
     tstate := tstate w; posted := posted w; log := log w |}.

Definition set_tstate (t : option PyThreadState) (w : World) : World :=
  {| g_currentRunner := g_currentRunner w; runners := runners w;
     pyManager := pyManager w;
     sys_stdout_redirected := sys_stdout_redirected w;
     tstate := t; posted := posted w; log := log w |}.

Definition set_posted (q : list (addr * Functor)) (w : World) : World :=
  {| g_currentRunner := g_currentRunner w; runners := runners w;
     pyManager := pyManager w;
     sys_stdout_redirected := sys_stdout_redirected w;
     tstate := tstate w; posted := q; log := log w |}.

Definition set_log (l : list Event) (w : World) : World :=
  {| g_currentRunner := g_currentRunner w; runners := runners w;
     pyManager := pyManager w;
     sys_stdout_redirected := sys_stdout_redirected w;
     tstate := tstate w; posted := posted w; log := l |}.

(** ** The monad of member functions *)

(** A computation returns its result and the new state, or [None] and the
    state the process died in. *)
Definition M (A : Type) : Type := World -> option A * World.

Definition ret {A} (a : A) : M A := fun w => (Some a, w).

Definition bind {A B} (m : M A) (k : A -> M B) : M B :=
  fun w => match m w with
           | (Some a, w') => k a w'
           | (None, w') => (None, w')
           end.

Declare Scope runner_scope.
Delimit Scope runner_scope with runner.
Notation "x <- m ;; k" := (bind m (fun x => k))
  (at level 100, m at next level, right associativity) : runner_scope.
Notation "m ;; k" := (bind m (fun _ => k))
  (at level 100, right associativity) : runner_scope.
Open Scope runner_scope.

Definition fail {A} : M A := fun w => (None, w).
Definition gets {A} (f : World -> A) : M A := fun w => (Some (f w), w).
Definition modify (f : World -> World) : M unit := fun w => (Some tt, f w).

(** [*p] for a [CodeRunner* p]: defined only while the object is alive. *)
Definition deref (p : addr) : M CodeRunner :=
  fun w => match runners w !! p with
           | Some r => (Some r, w)
           | None => (None, w)
           end.

(** [p->field = v], through the setter [f]. *)
Definition assign (p : addr) (f : CodeRunner -> CodeRunner) : M unit :=
  r <- deref p ;;
  modify (fun w => set_runners (<[p := f r]> (runners w)) w).

Definition logE (e : Event) : M unit :=
  modify (fun w => set_log (log w ++ [e]) w).

(** [emit p->s]. *)
Definition emit (p : addr) (s : Signal) : M unit :=
  _ <- deref p ;; logE (Emit p s).

(** [QMetaObject::invokeMethod(p, f)] from the thread [p] lives in: with the
    default [Qt::AutoConnection] the functor runs at once. *)
Definition invokeDirect (p : addr) (f : M unit) : M unit :=
  _ <- deref p ;; f.

(** [QMetaObject::invokeMethod(p, f, Qt::QueuedConnection)]: the functor is
    appended to the event queue with [p] as its context object. *)
Definition invokeQueued (p : addr) (f : Functor) : M unit :=
  _ <- deref p ;; modify (fun w => set_posted (posted w ++ [(p, f)]) w).

(** ** CodeRunner.cpp *)

(** [CodeRunner::abortExecution]. *)
Definition abortExecution (this : addr) : M unit :=
  assign this (set_shouldAbort true).

(** [CodeRunner::setExecutionDelay]. *)
Definition setExecutionDelay (this : addr) (delayMs : Z) : M unit :=
  assign this (set_executionDelay delayMs).

(** [CodeRunner::runCode]. *)
Definition runCode (this : addr) (code : string) : M unit :=
  r <- deref this ;;
  if m_isExecuting r then
    logE (QWarning "Code execution already in progress")
  else
    assign this (set_shouldAbort false) ;;
    assign this (set_isExecuting true) ;;
    invokeQueued this (CallExecute code).

(** [CodeRunner::pythonTraceFunction]: [obj], [event] and [arg] are
    [Q_UNUSED]. *)
Definition pythonTraceFunction
    (obj : PyObject) (frame : option PyFrame) (event : Z) (arg : PyObject)
    : M Z :=
  g <- gets g_currentRunner ;;
  match g with
  | None => ret 0
  | Some p =>
      r <- deref p ;;
      if negb (m_shouldAbort r) then
        match frame with
        | Some f =>
            let lineNumber := PyFrame_GetLineNumber f in
            invokeQueued p (EmitLineExecuted lineNumber) ;;
            ret 0
        | None => ret 0
        end
      else ret 0
  end.

(** [CodeRunner::getLineNumber]. *)
Definition getLineNumber (frame : option PyFrame) : Z :=
  match frame with
  | None => -1
  | Some f => PyFrame_GetLineNumber f
  end.

(** [CodeRunner::getFileName]; the empty [QString] is the empty string. *)
Definition getFileName (frame : option PyFrame) : string :=
  match frame with
  | None => ""
  | Some f => match co_filename f with
              | Some name => name
              | None => ""
              end
  end.

(** Modelled from the spec: [CodeRunner::setBreakpoints] is declared in
    CodeRunner.h ("set the list of breakpoints") and connected to
    [PyEditor::breakpointsChanged] in PyWindow.cpp, but has no body under
    src/.  The spec's contract is an atomic replacement of the set. *)
Definition setBreakpoints (this : addr) (breakpoints : gset Z) : M unit :=
  assign this (set_breakpoints breakpoints).


(** ** The embedded interpreter *)

(** [PyGILState_Ensure] on the worker thread: a thread without a Python
    thread state gets a fresh one, with no trace function and no error
    set. *)
Definition PyGILState_Ensure : M unit :=
  modify (fun w =>
    set_tstate
      (Some match tstate w with
            | Some t => set_gilstate_counter (Pos.succ (gilstate_counter t)) t
            | None => {| gilstate_counter := 1; c_tracefunc := false;
                         curexc := None |}
            end) w) ;;
  logE GilAcquire.

(** [PyGILState_Release]: the call that matches the first
    [PyGILState_Ensure] of the thread clears and deletes the thread state.
    Without a thread state it is a fatal error of the interpreter. *)
Definition PyGILState_Release : M unit :=
  t <- gets tstate ;;
  match t with
  | None => fail
  | Some t =>
      modify (set_tstate
                (if decide (gilstate_counter t = 1%positive) then None
                 else Some (set_gilstate_counter
                              (Pos.pred (gilstate_counter t)) t))) ;;
      logE GilRelease
  end.

(** The constructor and the destructor of [py::gil_scoped_acquire]: pybind11
    finds the thread state of [PyGILState_Ensure] and counts in the same
    counter. *)
Definition gil_scoped_acquire : M unit := PyGILState_Ensure.
Definition gil_scoped_acquire_dtor : M unit := PyGILState_Release.

(** [_PyThreadState_GET()] followed by a use of the state, as in every
    function of the C API below: the interpreter (CPython 3.10, the version
    the repository configures) dereferences the pointer without a check. *)
Definition PyThreadState_GET : M PyThreadState :=
  t <- gets tstate ;;
  match t with
  | Some t => ret t
  | None => fail
  end.

Definition PyEval_SetTrace (installed : bool) : M unit :=
  t <- PyThreadState_GET ;;
  logE (SetTrace installed) ;;
  modify (set_tstate (Some (set_c_tracefunc installed t))).

Definition PyErr_SetString (exc msg : string) : M unit :=
  t <- PyThreadState_GET ;;
  logE (ErrSetString exc msg) ;;
  modify (set_tstate
            (Some (set_curexc
                     (Some {| exc_type := exc; exc_value := Some msg |}) t))).

Definition PyErr_Occurred : M bool :=
  t <- PyThreadState_GET ;;
  ret (match curexc t with Some _ => true | None => false end).

(** [PyErr_Fetch]: the indicator is handed out and cleared. *)
Definition PyErr_Fetch : M (option PyErr) :=
  t <- PyThreadState_GET ;;
  modify (set_tstate (Some (set_curexc None t))) ;;
  ret (curexc t).

(** What [py::exec(code)] does is the interpreter's business; a run is given
    by the steps the interpreter takes for the submitted text, interleaved
    with the calls the UI thread makes meanwhile ([abortExecution] is
    connected directly, PyWindow.cpp), and by the uncaught exception that
    ends it, if any.  The trace events of every Python frame the program
    enters are among the steps, those of [OutputRedirector.write] too. *)
Inductive PyStep : Type :=
| PyStmt (frame : PyFrame)
    (* a line event for [frame], then the statement on that line runs *)
| PyTrace (frame : option PyFrame) (event : Z)
    (* any other trace event: call, return, exception, and every event of
       a frame that is not the program's own *)
| PyWrite (text : string)
    (* sys.stdout.write(text) or sys.stderr.write(text) *)
| CallerAbort (p : addr).
    (* the UI thread calls p->abortExecution() *)

(** What happens while [redirectPythonOutput] runs its own Python code, the
    definition of the class [OutputRedirector] and the call of its
    constructor: the trace events of their frames, and the calls the UI
    thread makes meanwhile.  This code writes nothing. *)
Inductive SetupStep : Type :=
| SetupTrace (frame : option PyFrame) (event : Z)
| SetupAbort (p : addr).

Definition setup_step (s : SetupStep) : PyStep :=
  match s with
  | SetupTrace frame event => PyTrace frame event
  | SetupAbort p => CallerAbort p
  end.

(** An uncaught Python exception as pybind11 reports it: the text of
    [error_already_set::what()] and the error indicator left behind. *)
Record PyFault : Type := mkPyFault {
  what : string;
  pending : option PyErr
}.

(** What the interpreter and the UI thread do during a session. *)
Record PyRun : Type := mkPyRun {
  py_setup : list SetupStep;
  py_steps : list PyStep;
  py_uncaught : option PyFault
}.

Definition setup_steps (run : PyRun) : list PyStep :=
  map setup_step (py_setup run).

(** All the steps of a session, in order. *)
Definition session_steps (run : PyRun) : list PyStep :=
  setup_steps run ++ py_steps run.

Definition PyTrace_CALL : Z := 0.
Definition PyTrace_EXCEPTION : Z := 1.
Definition PyTrace_LINE : Z := 2.
Definition PyTrace_RETURN : Z := 3.

(** The interpreter calls the C trace function of the thread state; a
    result other than 0 makes it raise in the traced frame. *)
Definition call_trace (frame : option PyFrame) (event : Z) : M bool :=
  t <- PyThreadState_GET ;;
  if c_tracefunc t then
    result <- pythonTraceFunction None frame event None ;;
    ret (result =? 0)
  else ret true.

(** A write to [sys.stdout]: once redirected it goes through
    [OutputRedirector.write], the [py::cpp_function] of
    [redirectPythonOutput] and [m_outputCallback], that is the lambda
    [[this](const QString& text) { invokeMethod(this, [this, text]() { emit
    outputReceived(text); }); }] of [executePythonCodeSafely]. *)
Definition py_write (text : string) : M unit :=
  redirected <- gets sys_stdout_redirected ;;
  if redirected then
    callback <- gets (fun w => m_outputCallback (pyManager w)) ;;
    match callback with
    | Some p => invokeDirect p (emit p (outputReceived text))
    | None => ret tt
    end
  else logE (ConsoleWrite text).

(** One step; the result says whether the run goes on. *)
Definition py_step (s : PyStep) : M bool :=
  match s with
  | PyStmt frame =>
      ok <- call_trace (Some frame) PyTrace_LINE ;;
      if ok then
        logE (StatementExecuted (PyFrame_GetLineNumber frame)) ;; ret true
      else ret false
  | PyTrace frame event => call_trace frame event
  | PyWrite text => py_write text ;; ret true
  | CallerAbort p => abortExecution p ;; ret true
  end.

Fixpoint py_run_steps (l : list PyStep) : M bool :=
  match l with
  | [] => ret true
  | s :: l' =>
      ok <- py_step s ;;
      if ok then py_run_steps l' else ret false
  end.

Inductive PyResult : Type :=
| PyReturned
| PyRaised (msg : string).

(** [py::exec]. *)
Definition py_exec (run : PyRun) : M PyResult :=
  ok <- py_run_steps (py_steps run) ;;
  if ok then
    match py_uncaught run with
    | None => ret PyReturned
    | Some f =>
        t <- PyThreadState_GET ;;
        modify (set_tstate (Some (set_curexc (pending f) t))) ;;
        ret (PyRaised (what f))
    end
  else
    t <- PyThreadState_GET ;;
    ret (PyRaised match curexc t with
                  | Some x => exc_type x
                  | None => "SystemError"
                  end).

(** ** PythonInterpreterManager.cpp *)

Definition set_outputCallback (cb : option addr)
    (m : PythonInterpreterManager) : PythonInterpreterManager :=
  {| m_initialized := m_initialized m; m_outputCallback := cb |}.

(** [PythonInterpreterManager::isInitialized]. *)
Definition isInitialized : M bool :=
  gets (fun w => m_initialized (pyManager w)).

(** [PythonInterpreterManager::executeCode] with both dictionaries null;
    [inr what] is a [std::runtime_error(what)] leaving the function. *)
Definition executeCode (code : string) (run : PyRun) : M (unit + string) :=
  initialized <- isInitialized ;;
  if negb initialized then
    ret (inr "Python interpreter not initialized")
  else
    gil_scoped_acquire ;;
    result <- py_exec run ;;
    gil_scoped_acquire_dtor ;;
    match result with
    | PyReturned => ret (inl tt)
    | PyRaised msg =>
        let errorMsg := "Python execution error: " +:+ msg in
        logE (PythonError errorMsg) ;;
        ret (inr errorMsg)
    end.

(** [PythonInterpreterManager::redirectPythonOutput]; [setup] is what
    happens while the class is defined and its instance constructed, before
    [sys.stdout] and [sys.stderr] are assigned.  If the trace function made
    the interpreter raise there, the [catch] would log the failure. *)
Definition redirectPythonOutput (callback : addr) (setup : list SetupStep)
    : M unit :=
  modify (fun w =>
    set_pyManager (set_outputCallback (Some callback) (pyManager w)) w) ;;
  initialized <- isInitialized ;;
  if negb initialized then
    logE (QWarning "Cannot redirect output - Python not initialized")
  else
    gil_scoped_acquire ;;
    ok <- py_run_steps (map setup_step setup) ;;
    if ok then
      modify (set_sys_stdout_redirected true) ;;
      logE (QDebug "Python output redirection configured successfully") ;;
      gil_scoped_acquire_dtor
    else
      gil_scoped_acquire_dtor ;;
      logE (QCritical "Failed to redirect Python output").

(** ** CodeRunner.cpp, continued *)

(** The text [errorOccurred] carries for a fetched exception. *)
Definition fetched_message (e : option PyErr) : string :=
  match e with
  | Some {| exc_value := Some s |} => s
  | _ => "Unknown Python error"
  end.

(** [CodeRunner::executePythonCodeSafely]. *)
Definition executePythonCodeSafely
    (this : addr) (code : string) (run : PyRun) : M unit :=
  emit this executionStarted ;;
  initialized <- isInitialized ;;
  if negb initialized then
    (* throw std::runtime_error(...), caught by catch (const std::exception&) *)
    let errorMsg := "Execution error: " +:+ "Python interpreter not initialized" in
    invokeDirect this (emit this (errorOccurred errorMsg)) ;;
    assign this (set_isExecuting false)
  else
    PyGILState_Ensure ;;
    PyEval_SetTrace true ;;
    redirectPythonOutput this (py_setup run) ;;
    result <- executeCode code run ;;
    match result with
    | inl _ =>
        PyEval_SetTrace false ;;
        r <- deref this ;;
        (if m_shouldAbort r then
           PyErr_SetString "KeyboardInterrupt" "User aborted execution"
         else ret tt) ;;
        PyGILState_Release ;;
        invokeDirect this (emit this executionFinished) ;;
        assign this (set_isExecuting false)
    | inr _ =>
        (* catch (...) of the inner try *)
        PyGILState_Release ;;
        occurred <- PyErr_Occurred ;;
        (if occurred then
           e <- PyErr_Fetch ;;
           invokeDirect this (emit this (errorOccurred (fetched_message e)))
         else
           invokeDirect this
             (emit this (errorOccurred "Unknown error during execution"))) ;;
        assign this (set_isExecuting false) ;;
        emit this executionFinished
    end.

(** The constructor: the object gets an address no live runner has, its
    members their default values, and [g_currentRunner = this]. *)
Definition CodeRunner_ctor : M addr :=
  fun w =>
    let this := fresh (dom (runners w)) in
    (Some this,
     set_g_currentRunner (Some this)
       (set_runners (<[this := CodeRunner_init]> (runners w)) w)).

(** The body of the destructor. *)
Definition CodeRunner_dtor (this : addr) : M unit :=
  abortExecution this.

(** [delete p]: the destructor runs, then the object is gone, and with it
    (in [~QObject]) the functors posted to it. *)
Definition CodeRunner_delete (this : addr) : M unit :=
  CodeRunner_dtor this ;;
  modify (fun w =>
    set_posted (filter (fun e => e.1 <> this) (posted w))
      (set_runners (delete this (runners w)) w)).

(** ** The worker's event loop *)

(** The next posted functor runs; [run] is what the interpreter does if the
    functor is a submission. *)
Definition processEvent (run : PyRun) : M unit :=
  q <- gets posted ;;
  match q with
  | [] => ret tt
  | (p, f) :: q' =>
      modify (set_posted q') ;;
      match f with
      | CallExecute code => executePythonCodeSafely p code run
      | EmitLineExecuted lineNumber =>
          g <- gets g_currentRunner ;;
          match g with
          | Some c => emit c (lineExecuted lineNumber)
          | None => fail
          end
      end
  end.

(** The worker's event loop delivering [n] posted events in turn; [run] is
    the behaviour of the program of a posted submission. *)
Fixpoint processEvents (n : nat) (run : PyRun) : M unit :=
  match n with
  | O => ret tt
  | S n' => _ <- processEvent run ;; processEvents n' run
  end.

(** ** Reading the log *)

(** The signals [p] emitted, oldest first. *)
Fixpoint signals_of (p : addr) (l : list Event) : list Signal :=
  match l with
  | [] => []
  | Emit q s :: l' =>
      if decide (q = p) then s :: signals_of p l' else signals_of p l'
  | _ :: l' => signals_of p l'
  end.

(** How often [p] emitted [s]. *)
Definition count_signal (p : addr) (s : Signal) (l : list Event) : nat :=
  length (filter (fun x => x = s) (signals_of p l)).

(** The texts [p] delivered through [outputReceived], oldest first. *)
Fixpoint outputs_of (p : addr) (l : list Event) : list string :=
  match l with
  | [] => []
  | Emit q (outputReceived text) :: l' =>
      if decide (q = p) then text :: outputs_of p l' else outputs_of p l'
  | _ :: l' => outputs_of p l'
  end.

(** The chunks a program writes, in program order. *)
Fixpoint writes_of (steps : list PyStep) : list string :=
  match steps with
  | [] => []
  | PyWrite text :: l' => text :: writes_of l'
  | _ :: l' => writes_of l'
  end.

(** The lines of the statements of a program, in program order. *)
Fixpoint statements_of (steps : list PyStep) : list Z :=
  match steps with
  | [] => []
  | PyStmt frame :: l' => PyFrame_GetLineNumber frame :: statements_of l'
  | _ :: l' => statements_of l'
  end.

(** The lines of the statements that ran. *)
Fixpoint executed_of (l : list Event) : list Z :=
  match l with
  | [] => []
  | StatementExecuted n :: l' => n :: executed_of l'
  | _ :: l' => executed_of l'
  end.

(** The one event by which a runner announces a pause: the signal
    [debugStateChanged]. *)
Definition is_pause_event (e : Event) : bool :=
  match e with
  | Emit _ (debugStateChanged _) => true
  | _ => false
  end.

(** ** Well-formed processes *)

Definition live (w : World) (p : addr) : Prop := is_Some (runners w !! p).

(** [g_currentRunner] is null or points to a live runner. *)
Definition registration_valid (w : World) : Prop :=
  match g_currentRunner w with
  | Some p => live w p
  | None => True
  end.

(** The UI thread only calls runners that are alive. *)
Definition callers_valid (w : World) (steps : list PyStep) : Prop :=
  Forall (fun s => match s with
                   | CallerAbort p => live w p
                   | _ => True
                   end) steps.

(** Once the streams are redirected, the stored callback is empty or
    captures a live runner. *)
Definition callback_valid (w : World) : Prop :=
  sys_stdout_redirected w = true ->
  match m_outputCallback (pyManager w) with
  | Some p => live w p
  | None => True
  end.

(** What a step adds to the log, given the stored callback and whether the
    streams are redirected. *)
Definition step_events (callback : option addr) (redirected : bool)
    (s : PyStep) : list Event :=
  match s with
  | PyStmt frame => [StatementExecuted (PyFrame_GetLineNumber frame)]
  | PyWrite text =>
      if redirected then
        match callback with
        | Some p => [Emit p (outputReceived text)]
        | None => []
        end
      else [ConsoleWrite text]
  | _ => []
  end.

(** Whether the UI thread calls [p->abortExecution()] during the steps. *)
Definition aborts_of (p : addr) (steps : list PyStep) : bool :=
  existsb (fun s => match s with
                    | CallerAbort q => bool_decide (q = p)
                    | _ => false
                    end) steps.

(** The members of a runner after the UI thread's calls during the steps. *)
Definition after_aborts (p : addr) (steps : list PyStep) (r : CodeRunner)
    : CodeRunner :=
  if aborts_of p steps then set_shouldAbort true r else r.

(** The line notifications the trace callback posts to the registered
    runner [g] during the steps, [aborted] being the abort flag of [g] when
    they begin. *)
Fixpoint notifications (g : addr) (aborted : bool) (steps : list PyStep)
    : list (addr * Functor) :=
  match steps with
  | [] => []
  | PyStmt frame :: l =>
      (if aborted then []
       else [(g, EmitLineExecuted (PyFrame_GetLineNumber frame))])
      ++ notifications g aborted l
  | PyTrace (Some frame) _ :: l =>
      (if aborted then []
       else [(g, EmitLineExecuted (PyFrame_GetLineNumber frame))])
      ++ notifications g aborted l
  | PyTrace None _ :: l => notifications g aborted l
  | PyWrite _ :: l => notifications g aborted l
  | CallerAbort p :: l => notifications g (aborted || bool_decide (p = g)) l
  end.

(** The line notifications of a run that starts in [w] with the trace
    function installed. *)
Definition run_notifications (w : World) (steps : list PyStep)
    : list (addr * Functor) :=
  match g_currentRunner w with
  | Some g => match runners w !! g with
              | Some r => notifications g (m_shouldAbort r) steps
              | None => []
              end
  | None => []
  end.

(** Whether the worker has a Python thread state. *)
Definition has_tstate (w : World) : bool :=
  match tstate w with
  | Some _ => true
  | None => false
  end.

(** Whether the thread state has the trace function installed. *)
Definition traced (w : World) : bool :=
  match tstate w with
  | Some t => c_tracefunc t
  | None => false
  end.

(** What the interpreter steps [steps] do to a process [w], the process
    afterwards being [w']. *)
Record steps_effect (steps : list PyStep) (w w' : World) : Prop :=
  mkStepsEffect {
  eff_current : g_currentRunner w' = g_currentRunner w;
  eff_manager : pyManager w' = pyManager w;
  eff_stdout : sys_stdout_redirected w' = sys_stdout_redirected w;
  eff_tstate : tstate w' = tstate w;
  eff_posted :
    posted w' = posted w ++ (if traced w then run_notifications w steps
                             else []);
  eff_log :
    log w' = log w ++ flat_map (step_events (m_outputCallback (pyManager w))
                                  (sys_stdout_redirected w)) steps;
  eff_runners :
    forall p, runners w' !! p = after_aborts p steps <$> runners w !! p
}.

(** The message of [errorOccurred] in the inner [catch (...)], from the
    error indicator found there. *)
Definition fault_message (e : option PyErr) : string :=
  match e with
  | Some err => match exc_value err with
                | Some s => s
                | None => "Unknown Python error"
                end
  | None => "Unknown error during execution"
  end.

(** Whether a session comes back.  The handler of the inner [catch (...)]
    asks the interpreter for the error indicator after
    [PyGILState_Release]; when that release was the one matching the
    thread's first [PyGILState_Ensure], the thread state is gone. *)
Definition session_outcome (w : World) (run : PyRun) : option unit :=
  if m_initialized (pyManager w) then
    match py_uncaught run, tstate w with
    | Some _, None => None
    | _, _ => Some tt
    end
  else Some tt.

(** The events of a whole session of [this]; [aborted] is the abort flag
    when the program returns, [nested] whether the worker had a thread
    state before the session. *)
Definition session_events (this : addr) (initialized : bool) (run : PyRun)
    (aborted nested : bool) : list Event :=
  if initialized then
    [Emit this executionStarted; GilAcquire; SetTrace true; GilAcquire;
     QDebug "Python output redirection configured successfully";
     GilRelease; GilAcquire]
    ++ flat_map (step_events (Some this) true) (py_steps run)
    ++ [GilRelease]
    ++ match py_uncaught run with
       | None =>
           [SetTrace false]
           ++ (if aborted
               then [ErrSetString "KeyboardInterrupt" "User aborted execution"]
               else [])
           ++ [GilRelease; Emit this executionFinished]
       | Some f =>
           [PythonError ("Python execution error: " +:+ what f); GilRelease]
           ++ (if nested
               then [Emit this (errorOccurred (fault_message (pending f)));
                     Emit this executionFinished]
               else [])
       end
  else
    [Emit this executionStarted;
     Emit this (errorOccurred
                  "Execution error: Python interpreter not initialized")].

(** The signals a session of [this] emits, in order. *)
Definition session_signals_of (initialized : bool) (run : PyRun)
    (nested : bool) : list Signal :=
  executionStarted
  :: (if initialized then
        map outputReceived (writes_of (py_steps run))
        ++ match py_uncaught run with
           | None => [executionFinished]
           | Some f =>
               if nested
               then [errorOccurred (fault_message (pending f));
                     executionFinished]
               else []
           end
      else
        [errorOccurred "Execution error: Python interpreter not initialized"]).

(** The error indicator [PyErr_SetString] sets on an aborted run. *)
Definition KeyboardInterrupt_set : PyErr :=
  {| exc_type := "KeyboardInterrupt";
     exc_value := Some "User aborted execution" |}.

(** The thread state of the worker after a session on an initialised
    interpreter: none, if it had none before. *)
Definition session_tstate (ts : option PyThreadState) (run : PyRun)
    (aborted : bool) : option PyThreadState :=
  match ts with
  | None => None
  | Some t =>
      Some {| gilstate_counter := gilstate_counter t;
              c_tracefunc := (if py_uncaught run is Some _ then true
                              else false);
              curexc := match py_uncaught run with
                        | None => if aborted then Some KeyboardInterrupt_set
                                  else curexc t
                        | Some _ => None
                        end |}
  end.

(** The process after the trace callback ran for [frame] with
    [g_currentRunner] pointing to [p], whose members are [r]. *)
Definition trace_post (p : addr) (r : CodeRunner) (frame : option PyFrame)
    (w : World) : World :=
  match frame with
  | Some f =>
      if m_shouldAbort r then w
      else set_posted
             (posted w ++ [(p, EmitLineExecuted (PyFrame_GetLineNumber f))]) w
  | None => w
  end.

(** A pause between two states of the process: since [before] a runner
    announced a debug-state change, or some runner entered [Paused]. *)
Definition pause_observed (before after : World) : Prop :=
  Exists (fun e => is_pause_event e = true)
         (drop (length (log before)) (log after))
  \/ exists p r r',
       runners before !! p = Some r /\ runners after !! p = Some r'
       /\ m_debugState r <> Paused /\ m_debugState r' = Paused.

(** The depth of the interpreter lock after the events [l], [held] being
    the depth before them; [None] when a release finds the lock free. *)
Fixpoint gil_depth (held : nat) (l : list Event) : option nat :=
  match l with
  | [] => Some held
  | GilAcquire :: l' => gil_depth (S held) l'
  | GilRelease :: l' =>
      match held with
      | O => None
      | S h => gil_depth h l'
      end
  | _ :: l' => gil_depth held l'
  end.

(** The lines of the posted line notifications, oldest first. *)
Definition lines_of (q : list (addr * Functor)) : list Z :=
  omap (fun e => match e.2 with
                 | EmitLineExecuted n => Some n
                 | CallExecute _ => None
                 end) q.

(** Whether a posted event is a line notification. *)
Definition is_line (e : addr * Functor) : Prop :=
  match e.2 with EmitLineExecuted _ => True | CallExecute _ => False end.

(** The lines of the trace events of the steps that carry a frame. *)
Definition traced_lines (steps : list PyStep) : list Z :=
  flat_map (fun s => match s with
                     | PyStmt frame => [PyFrame_GetLineNumber frame]
                     | PyTrace (Some frame) _ => [PyFrame_GetLineNumber frame]
                     | _ => []
                     end) steps.

(** ** Sample processes and programs *)

(** A process with the single runner [r] at address 1, registered as the
    current runner, and an idle worker that has no Python thread state. *)
Definition one_runner (initialized : bool) (r : CodeRunner) : World :=
  {| g_currentRunner := Some 1%positive;
     runners := {[ 1%positive := r ]};
     pyManager := {| m_initialized := initialized; m_outputCallback := None |};
     sys_stdout_redirected := false; tstate := None;
     posted := []; log := [] |}.

(** A runner whose submission has been accepted. *)
Definition executing : CodeRunner := set_isExecuting true CodeRunner_init.

Definition line (n : Z) : PyFrame :=
  {| f_lineno := n; co_filename := Some "<string>" |}.

(** The trace events of the Python code of [redirectPythonOutput]: the
    class statement on line 2 of its text with the three [def]s of its body
    on lines 3, 6 and 9, then [__init__] (lines 3 and 4) for the call of the
    constructor. *)
Definition redirector_setup : list SetupStep :=
  [SetupTrace (Some (line 1)) PyTrace_CALL;
   SetupTrace (Some (line 2)) PyTrace_LINE;
   SetupTrace (Some (line 2)) PyTrace_CALL;
   SetupTrace (Some (line 2)) PyTrace_LINE;
   SetupTrace (Some (line 3)) PyTrace_LINE;
   SetupTrace (Some (line 6)) PyTrace_LINE;
   SetupTrace (Some (line 9)) PyTrace_LINE;
   SetupTrace (Some (line 9)) PyTrace_RETURN;
   SetupTrace (Some (line 2)) PyTrace_RETURN;
   SetupTrace (Some (line 3)) PyTrace_CALL;
   SetupTrace (Some (line 4)) PyTrace_LINE;
   SetupTrace (Some (line 4)) PyTrace_RETURN].

(** The statement [sys.stdout.write(text)] on line [n] of a program: its
    line event, then the frame of [OutputRedirector.write] (lines 6 and 7 of
    the text of [redirectPythonOutput]), in which the callback runs. *)
Definition write_statement (n : Z) (text : string) : list PyStep :=
  [PyStmt (line n);
   PyTrace (Some (line 6)) PyTrace_CALL;
   PyTrace (Some (line 7)) PyTrace_LINE;
   PyWrite text;
   PyTrace (Some (line 7)) PyTrace_RETURN].

(** Three statements, each of them a write. *)
Definition writes_ABC : PyRun :=
  {| py_setup := redirector_setup;
     py_steps := PyTrace (Some (line 1)) PyTrace_CALL
                 :: write_statement 1 "A" ++ write_statement 2 "B"
                 ++ write_statement 3 "C"
                 ++ [PyTrace (Some (line 3)) PyTrace_RETURN];
     py_uncaught := None |}.

(** The same program, with the UI thread aborting before its first line. *)
Definition aborted_ABC : PyRun :=
  {| py_setup := redirector_setup;
     py_steps := CallerAbort 1%positive :: py_steps writes_ABC;
     py_uncaught := None |}.

(** A program that writes, then dies of an uncaught exception: line 2 is
    [1/0].  pybind11 has fetched the exception into its
    [error_already_set], so the error indicator is clear. *)
Definition faulty : PyRun :=
  {| py_setup := redirector_setup;
     py_steps := PyTrace (Some (line 1)) PyTrace_CALL
                 :: write_statement 1 "A"
                 ++ [PyStmt (line 2);
                     PyTrace (Some (line 2)) PyTrace_EXCEPTION;
                     PyTrace (Some (line 2)) PyTrace_RETURN];
     py_uncaught := Some {| what := "ZeroDivisionError: division by zero";
                            pending := None |} |}.
(** * PyEditor.cpp *)

Module PyEditor.

(** A [QChar] is a UTF-16 code unit, a [QString] a sequence of them. *)
Abbreviation QChar := Z.
Abbreviation QString := (list Z).

(** The signals of [PyEditor] (PyEditor.h, [signals:]). *)
Inductive Signal : Type :=
| codeChanged
| currentLineChanged (lineNumber : Z)
| breakpointChanged (lineNumber : Z) (isSet : bool)
| breakpointsChanged (breakpoints : gset Z).

(** The document and the data members the functions below use, and the
    signals the editor has emitted, oldest first. *)
Record Editor : Type := mkEditor {
  plainText : QString;
  currentLine : Z;
  breakpoints : gset Z;
  emitted : list Signal
}.

(** [PyEditor::setCurrentLine]; [highlightCurrentLine] only repaints. *)
Definition setCurrentLine (line : Z) (e : Editor) : Editor :=
  if bool_decide (line <> currentLine e) && bool_decide (0 <= line) then
    {| plainText := plainText e; currentLine := line;
       breakpoints := breakpoints e;
       emitted := emitted e ++ [currentLineChanged line] |}
  else e.

(** The condition under which [PyEditor::updateExtraSelections] adds the
    selection of the line being executed. *)
Definition executionLineSelected (blockCount : Z) (e : Editor) : bool :=
  bool_decide (0 < currentLine e) && bool_decide (currentLine e <= blockCount).

(** [PyEditor::toggleBreakpoint]. *)
Definition toggleBreakpoint (lineNumber : Z) (e : Editor) : Editor :=
  let b := if decide (lineNumber ∈ breakpoints e)
           then breakpoints e ∖ {[ lineNumber ]}
           else breakpoints e ∪ {[ lineNumber ]} in
  {| plainText := plainText e; currentLine := currentLine e;
     breakpoints := b;
     emitted := emitted e
                ++ [breakpointChanged lineNumber
                      (if decide (lineNumber ∈ breakpoints e) then false else true);
                    breakpointsChanged b] |}.

(** The loop of [PyEditor::lineNumberAreaWidth]:
    [while (max >= 10) { max /= 10; ++digits; }]. *)
Function digits_loop (max : Z) (digits : Z) {measure Z.to_nat max} : Z :=
  if 10 <=? max then digits_loop (max ÷ 10) (digits + 1) else digits.
Proof.
  intros max _ Hmax. apply Z.leb_le in Hmax.
  assert (max ÷ 10 < max) by (apply Z.quot_lt; lia).
  assert (0 <= max ÷ 10) by (apply Z.quot_pos; lia).
  lia.
Defined.

(** [PyEditor::lineNumberAreaWidth]: [advance] is
    [fontMetrics().horizontalAdvance(QLatin1Char('9'))], [blockCount] the
    number of blocks of the document. *)
Definition lineNumberAreaWidth (advance blockCount : Z) : Z :=
  15 + 3 + advance * digits_loop (Z.max 1 blockCount) 1.

Section Text.

(** [QChar::isSpace]. *)
Variable isSpace : QChar -> bool.

(** [QString::trimmed]: whitespace removed from both ends. *)
Fixpoint skip (s : QString) : QString :=
  match s with
  | c :: s' => if isSpace c then skip s' else s
  | [] => []
  end.

Fixpoint chop (s : QString) : QString :=
  match s with
  | c :: s' =>
      match chop s' with
      | [] => if isSpace c then [] else [c]
      | t => c :: t
      end
  | [] => []
  end.

Definition trimmed (s : QString) : QString := chop (skip s).

(** [QString::split(sep)], empty parts kept. *)
Fixpoint split (sep : QChar) (s : QString) : list QString :=
  match s with
  | c :: s' =>
      if decide (c = sep) then [] :: split sep s'
      else match split sep s' with
           | l :: ls => (c :: l) :: ls
           | [] => [[c]]
           end
  | [] => [[]]
  end.

(** [QStringList::join(sep)]. *)
Definition join (sep : QChar) (ls : list QString) : QString :=
  match ls with
  | l :: ls' => l ++ flat_map (fun x => sep :: x) ls'
  | [] => []
  end.

(** The result of a 32-bit [int] operation. *)
Definition int (z : Z) : Z := (z + 2 ^ 31) `mod` 2 ^ 32 - 2 ^ 31.

(** The inner loop of [formatCode]: the width of the leading blanks, a
    tab counting as four. *)
Fixpoint indent_loop (line : QString) (indentLevel : Z) : Z :=
  match line with
  | c :: rest =>
      if decide (c = 32) then indent_loop rest (int (indentLevel + 1))
      else if decide (c = 9) then indent_loop rest (int (indentLevel + 4))
      else indentLevel
  | [] => indentLevel
  end.

(** [QString(n, ' ')]: empty when [n] is not positive. *)
Definition spaces (n : Z) : QString := replicate (Z.to_nat n) 32.

(** The line [formatCode] appends for a line that is not blank. *)
Definition indentedLine (line : QString) : QString :=
  let indentLevel := indent_loop line 0 in
  spaces (indentLevel ÷ 4)
  ++ (if decide (Z.rem indentLevel 4 <> 0)
      then spaces (Z.rem indentLevel 4) else [])
  ++ trimmed line.

Definition isEmpty (s : QString) : bool :=
  match s with [] => true | _ => false end.

(** One turn of the outer loop of [formatCode]. *)
Definition format_step (formattedLines : list QString) (line : QString)
    : list QString :=
  if negb (isEmpty (trimmed line)) then formattedLines ++ [indentedLine line]
  else
    match last formattedLines with
    | Some l => if negb (isEmpty l) then formattedLines ++ [[]]
                else formattedLines
    | None => formattedLines
    end.

Definition formatLines (lines : list QString) : list QString :=
  fold_left format_step lines [].

(** [PyEditor::formatCode]. *)
Definition formatCode (e : Editor) : Editor :=
  {| plainText := join 10 (formatLines (split 10 (plainText e)));
     currentLine := currentLine e; breakpoints := breakpoints e;
     emitted := emitted e ++ [codeChanged] |}.

(** A line is blank when trimming leaves nothing of it. *)
Definition blank (line : QString) : Prop := trimmed line = [].

(** A paragraph of a document: a line that is not blank and the blank
    lines that follow it. *)
Definition paragraph (p : QString * list QString) : Prop :=
  ~ blank p.1 /\ Forall blank p.2.

Definition paragraph_lines (p : QString * list QString) : list QString :=
  p.1 :: p.2.

(** A paragraph with its first line re-indented and the blank lines after
    it, if there are any, replaced by one empty line. *)
Definition squeezed (p : QString * list QString) : list QString :=
  indentedLine p.1 :: match p.2 with [] => [] | _ :: _ => [[]] end.

End Text.

(** The values one at a time, to [setCurrentLine]. *)
Definition setCurrentLines (lines : list Z) (e : Editor) : Editor :=
  fold_left (fun e line => setCurrentLine line e) lines e.

(** The payloads of the [currentLineChanged] signals. *)
Definition lines_changed (l : list Signal) : list Z :=
  omap (fun s => match s with currentLineChanged n => Some n | _ => None end) l.

(** No two neighbours of [prev :: l] are equal. *)
Fixpoint changes (prev : Z) (l : list Z) : Prop :=
  match l with
  | [] => True
  | x :: l' => x <> prev /\ changes x l'
  end.

(** The characters [QChar::isSpace] accepts among the first 256. *)
Definition isSpace_latin1 (c : QChar) : bool :=
  bool_decide (c = 32) || (bool_decide (9 <= c) && bool_decide (c <= 13))
  || bool_decide (c = 133) || bool_decide (c = 160).

End PyEditor.

(** * PyWindow.cpp *)

Module PyWindow.

Inductive Colour : Set := Black | Red.

(** The members and widget properties the slots below read or write: of
    the run button its text, of the four debug buttons (always switched
    together) whether they are enabled, of the output pane the paragraphs
    appended with their text colour. *)
Record Window : Type := mkWindow {
  m_isExecuting : bool;
  runButtonText : string;
  editorEnabled : bool;
  saveButtonEnabled : bool;
  debugButtonsEnabled : bool;
  logOutput : list (Colour * string);
  statusMessage : string;
  m_codeEditor : PyEditor.Editor
}.

(** What a slot asks of the world outside the window. *)
Inductive Action : Type :=
| AbortExecution                        (* m_runner->abortExecution() *)
| InvokeRunCode (code : PyEditor.QString) (* queued call of m_runner->runCode *)
| WarningBox (title text : string).

(** [PyWindow::updateExecutionButtons]. *)
Definition updateExecutionButtons (win : Window) : Window :=
  {| m_isExecuting := m_isExecuting win;
     runButtonText := if m_isExecuting win then "停止执行" else "运行代码 (F5)";
     editorEnabled := editorEnabled win;
     saveButtonEnabled := saveButtonEnabled win;
     debugButtonsEnabled := debugButtonsEnabled win;
     logOutput := logOutput win; statusMessage := statusMessage win;
     m_codeEditor := m_codeEditor win |}.

(** [PyWindow::onExecutionStart]. *)
Definition onExecutionStart (win : Window) : Window :=
  let win1 := updateExecutionButtons
                {| m_isExecuting := true; runButtonText := runButtonText win;
                   editorEnabled := editorEnabled win;
                   saveButtonEnabled := saveButtonEnabled win;
                   debugButtonsEnabled := debugButtonsEnabled win;
                   logOutput := logOutput win;
                   statusMessage := statusMessage win;
                   m_codeEditor := m_codeEditor win |} in
  {| m_isExecuting := m_isExecuting win1; runButtonText := runButtonText win1;
     editorEnabled := false; saveButtonEnabled := false;
     debugButtonsEnabled := debugButtonsEnabled win1;
     logOutput := logOutput win1;
     statusMessage := "正在执行Python代码...";
     m_codeEditor := m_codeEditor win1 |}.

(** [PyWindow::onExecutionFinish]. *)
Definition onExecutionFinish (win : Window) : Window :=
  let win1 := updateExecutionButtons
                {| m_isExecuting := false; runButtonText := runButtonText win;
                   editorEnabled := editorEnabled win;
                   saveButtonEnabled := saveButtonEnabled win;
                   debugButtonsEnabled := debugButtonsEnabled win;
                   logOutput := logOutput win;
                   statusMessage := statusMessage win;
                   m_codeEditor := m_codeEditor win |} in
  {| m_isExecuting := m_isExecuting win1; runButtonText := runButtonText win1;
     editorEnabled := true; saveButtonEnabled := true;
     debugButtonsEnabled := debugButtonsEnabled win1;
     logOutput := logOutput win1;
     statusMessage := "执行完成";
     m_codeEditor := m_codeEditor win1 |}.

Definition set_logOutput (l : list (Colour * string)) (win : Window) : Window :=
  {| m_isExecuting := m_isExecuting win; runButtonText := runButtonText win;
     editorEnabled := editorEnabled win;
     saveButtonEnabled := saveButtonEnabled win;
     debugButtonsEnabled := debugButtonsEnabled win;
     logOutput := l; statusMessage := statusMessage win;
     m_codeEditor := m_codeEditor win |}.

(** [PyWindow::appendOutput]. *)
Definition appendOutput (text : string) (win : Window) : Window :=
  set_logOutput (logOutput win ++ [(Black, text)]) win.

(** [PyWindow::appendError]. *)
Definition appendError (text : string) (win : Window) : Window :=
  set_logOutput (logOutput win ++ [(Red, "错误: " +:+ text)]) win.

(** [PyWindow::clearOutput]. *)
Definition clearOutput (win : Window) : Window := set_logOutput [] win.

(** [PyWindow::onDebugStateChanged]. *)
Definition onDebugStateChanged (state : DebugState) (win : Window) : Window :=
  let enabled := match state with Paused => true | _ => false end in
  {| m_isExecuting := m_isExecuting win; runButtonText := runButtonText win;
     editorEnabled := enabled;
     saveButtonEnabled := saveButtonEnabled win;
     debugButtonsEnabled := enabled;
     logOutput := logOutput win; statusMessage := statusMessage win;
     m_codeEditor := m_codeEditor win |}.

(** The slot [PyEditor::setCurrentLine] of the window's editor. *)
Definition editorSetCurrentLine (line : Z) (win : Window) : Window :=
  {| m_isExecuting := m_isExecuting win; runButtonText := runButtonText win;
     editorEnabled := editorEnabled win;
     saveButtonEnabled := saveButtonEnabled win;
     debugButtonsEnabled := debugButtonsEnabled win;
     logOutput := logOutput win; statusMessage := statusMessage win;
     m_codeEditor := PyEditor.setCurrentLine line (m_codeEditor win) |}.

(** [PyWindow::runPythonCode]: the window afterwards and what it asked
    for. *)
Definition runPythonCode (isSpace : PyEditor.QChar -> bool) (win : Window)
    : Window * list Action :=
  if m_isExecuting win then (win, [AbortExecution])
  else
    let code := PyEditor.trimmed isSpace (PyEditor.plainText (m_codeEditor win)) in
    if PyEditor.isEmpty code then
      (win, [WarningBox "警告" "请输入要执行的Python代码！"])
    else (clearOutput win, [InvokeRunCode code]).

(** The connections [PyWindow::connectSignals] makes to the window and its
    editor, applied to one event of the worker: the signals of the runner
    [m_runner] and [pythonError] of the interpreter manager. *)
Definition deliver (m_runner : addr) (e : Event) (win : Window) : Window :=
  match e with
  | Emit p s =>
      if decide (p = m_runner) then
        match s with
        | executionStarted => onExecutionStart win
        | executionFinished => onExecutionFinish win
        | outputReceived text => appendOutput text win
        | errorOccurred error => appendError error win
        | lineExecuted lineNumber => editorSetCurrentLine lineNumber win
        | debugStateChanged state => onDebugStateChanged state win
        | progressUpdated _ _ => win
        end
      else win
  | PythonError msg => appendError msg win
  | _ => win
  end.

(** The queued slot calls of a stretch of the worker's log, in order. *)
Definition deliver_all (m_runner : addr) (l : list Event) (win : Window)
    : Window :=
  fold_left (fun win e => deliver m_runner e win) l win.

End PyWindow.

(** A window as [PyWindow::initializeUI] leaves it, the editor holding one
    line of code. *)
Definition window_ready : PyWindow.Window :=
  {| PyWindow.m_isExecuting := false;
     PyWindow.runButtonText := "运行代码 (F5)";
     PyWindow.editorEnabled := true;
     PyWindow.saveButtonEnabled := true;
     PyWindow.debugButtonsEnabled := false;
     PyWindow.logOutput := [];
     PyWindow.statusMessage := "就绪";
     PyWindow.m_codeEditor :=
       {| PyEditor.plainText := [112; 97; 115; 115];
          PyEditor.currentLine := -1;
          PyEditor.breakpoints := ∅;
          PyEditor.emitted := [] |} |}.

(** * PythonInterpreterManager.cpp: configuration and life cycle *)

Module InterpreterManager.

(** [QByteArray::contains]: [needle] occurs somewhere in [s]. *)
Fixpoint contains (s needle : string) : bool :=
  String.prefix needle s
  || match s with
     | String _ s' => contains s' needle
     | EmptyString => false
     end.

(** The signals of the manager that concern its life cycle. *)
Inductive Signal : Set := initialized | cleaned.

#[global] Instance ManagerSignal_eq_dec : EqDecision Signal.
Proof. solve_decision. Defined.

(** The members of the manager the functions below use, the [PATH] of the
    process environment, the home the interpreter library was given last,
    and the life-cycle signals emitted so far. *)
Record Manager : Type := mkManager {
  m_initialized : bool;
  m_pythonHome : string;
  m_pythonPaths : list string;
  m_configFile : string;
  m_mainThreadState : bool;        (* whether the pointer is non-null *)
  PATH : string;
  Py_PythonHome : option string;
  emitted : list Signal
}.

(** The manager as its constructor leaves it, in an environment. *)
Definition Manager_init (path : string) : Manager :=
  {| m_initialized := false; m_pythonHome := ""; m_pythonPaths := [];
     m_configFile := ""; m_mainThreadState := false; PATH := path;
     Py_PythonHome := None; emitted := [] |}.

Definition set_pythonPaths (l : list string) (m : Manager) : Manager :=
  {| m_initialized := m_initialized m; m_pythonHome := m_pythonHome m;
     m_pythonPaths := l; m_configFile := m_configFile m;
     m_mainThreadState := m_mainThreadState m; PATH := PATH m;
     Py_PythonHome := Py_PythonHome m; emitted := emitted m |}.

Definition set_PATH (p : string) (m : Manager) : Manager :=
  {| m_initialized := m_initialized m; m_pythonHome := m_pythonHome m;
     m_pythonPaths := m_pythonPaths m; m_configFile := m_configFile m;
     m_mainThreadState := m_mainThreadState m; PATH := p;
     Py_PythonHome := Py_PythonHome m; emitted := emitted m |}.

Definition Py_SetPythonHome (home : string) (m : Manager) : Manager :=
  {| m_initialized := m_initialized m; m_pythonHome := m_pythonHome m;
     m_pythonPaths := m_pythonPaths m; m_configFile := m_configFile m;
     m_mainThreadState := m_mainThreadState m; PATH := PATH m;
     Py_PythonHome := Some home; emitted := emitted m |}.

(** [PythonInterpreterManager::setPythonHome]. *)
Definition setPythonHome (path : string) (m : Manager) : Manager :=
  let m1 := {| m_initialized := m_initialized m; m_pythonHome := path;
               m_pythonPaths := m_pythonPaths m;
               m_configFile := m_configFile m;
               m_mainThreadState := m_mainThreadState m; PATH := PATH m;
               Py_PythonHome := Py_PythonHome m; emitted := emitted m |} in
  if m_initialized m1 then Py_SetPythonHome path m1 else m1.

(** [PythonInterpreterManager::addPythonPath]. *)
Definition addPythonPath (path : string) (m : Manager) : Manager :=
  if decide (path ∈ m_pythonPaths m) then m
  else set_pythonPaths (m_pythonPaths m ++ [path]) m.

(** [PythonInterpreterManager::setupEnvironment]; each [insert(0, ...)]
    puts its directory in front of what is there. *)
Definition setupEnvironment (m : Manager) : Manager :=
  if decide (m_pythonHome m <> "") then
    let m1 := Py_SetPythonHome (m_pythonHome m) m in
    let path := PATH m1 in
    if negb (contains path (m_pythonHome m1)) then
      let path1 := (m_pythonHome m1 +:+ ";") +:+ path in
      let path2 := (m_pythonHome m1 +:+ "\Library\bin;") +:+ path1 in
      let path3 := (m_pythonHome m1 +:+ "\Scripts;") +:+ path2 in
      let path4 := (m_pythonHome m1 +:+ "\bin;") +:+ path3 in
      set_PATH path4 m1
    else m1
  else m.

(** What [loadConfiguration] finds outside the program: the two values of
    the settings file, the home directory, and whether the conda
    environment directory exists there. *)
Record Configuration : Type := mkConfiguration {
  cfg_pythonHome : string;
  cfg_pythonPaths : list string;
  homePath : string;
  conda_exists : bool
}.

(** [PythonInterpreterManager::loadConfiguration]. *)
Definition loadConfiguration (cfg : Configuration) (m : Manager) : Manager :=
  let home :=
    if decide (cfg_pythonHome cfg = "") then
      if conda_exists cfg then homePath cfg +:+ "/.conda/envs/py310"
      else cfg_pythonHome cfg
    else cfg_pythonHome cfg in
  {| m_initialized := m_initialized m; m_pythonHome := home;
     m_pythonPaths := cfg_pythonPaths cfg; m_configFile := m_configFile m;
     m_mainThreadState := m_mainThreadState m; PATH := PATH m;
     Py_PythonHome := Py_PythonHome m; emitted := emitted m |}.

(** [PythonInterpreterManager::initialize]; [throws] says whether
    [py::initialize_interpreter] throws. *)
Definition initialize (configFile : string) (cfg : Configuration)
    (throws : bool) (m : Manager) : bool * Manager :=
  if m_initialized m then (true, m)
  else
    let m1 := {| m_initialized := m_initialized m;
                 m_pythonHome := m_pythonHome m;
                 m_pythonPaths := m_pythonPaths m;
                 m_configFile := configFile;
                 m_mainThreadState := m_mainThreadState m; PATH := PATH m;
                 Py_PythonHome := Py_PythonHome m; emitted := emitted m |} in
    let m2 := setupEnvironment (loadConfiguration cfg m1) in
    if throws then (false, m2)
    else
      (true,
       {| m_initialized := true; m_pythonHome := m_pythonHome m2;
          m_pythonPaths := m_pythonPaths m2; m_configFile := m_configFile m2;
          m_mainThreadState := true; PATH := PATH m2;
          Py_PythonHome := Py_PythonHome m2;
          emitted := emitted m2 ++ [initialized] |}).

(** [PythonInterpreterManager::cleanup]; [throws] says whether
    [py::finalize_interpreter] throws. *)
Definition cleanup (throws : bool) (m : Manager) : Manager :=
  if negb (m_initialized m) then m
  else
    let m1 := {| m_initialized := m_initialized m;
                 m_pythonHome := m_pythonHome m;
                 m_pythonPaths := m_pythonPaths m;
                 m_configFile := m_configFile m;
                 m_mainThreadState := false; PATH := PATH m;
                 Py_PythonHome := Py_PythonHome m; emitted := emitted m |} in
    if throws then m1
    else
      {| m_initialized := false; m_pythonHome := m_pythonHome m1;
         m_pythonPaths := m_pythonPaths m1; m_configFile := m_configFile m1;
         m_mainThreadState := m_mainThreadState m1; PATH := PATH m1;
         Py_PythonHome := Py_PythonHome m1;
         emitted := emitted m1 ++ [cleaned] |}.

(** The calls a client can make on the life cycle. *)
Inductive Call : Type :=
| Initialize (configFile : string) (cfg : Configuration) (throws : bool)
| Cleanup (throws : bool)
| SetPythonHome (path : string)
| AddPythonPath (path : string).

Definition call (c : Call) (m : Manager) : Manager :=
  match c with
  | Initialize configFile cfg throws => (initialize configFile cfg throws m).2
  | Cleanup throws => cleanup throws m
  | SetPythonHome path => setPythonHome path m
  | AddPythonPath path => addPythonPath path m
  end.

Definition calls (cs : list Call) (m : Manager) : Manager :=
  fold_left (fun m c => call c m) cs m.

(** The signals in [l] alternate, the first being [initialized] exactly if
    [next] is [true]. *)
Fixpoint alternate (next : bool) (l : list Signal) : Prop :=
  match l with
  | [] => True
  | initialized :: l' => next = true /\ alternate false l'
  | cleaned :: l' => next = false /\ alternate true l'
  end.

End InterpreterManager.

(** * ConfigManager.cpp *)

Module ConfigManager.

(** The values the manager stores in its [QSettings]. *)
Inductive QVariant : Type :=
| VString (s : string)
| VInt (n : Z)
| VStringList (l : list string)
| VByteArray (b : string).

Inductive Signal : Set :=
| configurationChanged
| pythonPathsChanged
| editorSettingsChanged.

(** The configuration members of the class. *)
Record Members : Type := mkMembers {
  m_pythonHome : string;
  m_pythonPaths : list string;
  m_editorFont : string;
  m_theme : string;
  m_editorFontSize : Z;
  m_autoSaveInterval : Z;
  m_executionDelay : Z
}.

(** The manager: the store behind [m_settings] ([None] while the pointer
    is null), the configuration members, and the signals emitted so far. *)
Record Config : Type := mkConfig {
  m_settings : option (gmap string QVariant);
  members : Members;
  emitted : list Signal
}.

(** The member initialisers of the constructor. *)
Definition Members_init : Members :=
  {| m_pythonHome := ""; m_pythonPaths := []; m_editorFont := "Consolas";
     m_theme := "light"; m_editorFontSize := 12; m_autoSaveInterval := 30;
     m_executionDelay := 100 |}.

(** [m_settings->setValue(key, value)]; [None] is the dereference of a
    null [m_settings]. *)
Definition setValue (key : string) (value : QVariant) (c : Config)
    : option Config :=
  st ← m_settings c;
  Some {| m_settings := Some (<[key := value]> st); members := members c;
          emitted := emitted c |}.

Definition emit (s : Signal) (c : Config) : Config :=
  {| m_settings := m_settings c; members := members c;
     emitted := emitted c ++ [s] |}.

Definition set_members (m : Members) (c : Config) : Config :=
  {| m_settings := m_settings c; members := m; emitted := emitted c |}.

(** [ConfigManager::setPythonHome]. *)
Definition setPythonHome (path : string) (c : Config) : option Config :=
  let m := members c in
  if decide (m_pythonHome m <> path) then
    c1 ← setValue "Python/home" (VString path)
           (set_members
              {| m_pythonHome := path; m_pythonPaths := m_pythonPaths m;
                 m_editorFont := m_editorFont m; m_theme := m_theme m;
                 m_editorFontSize := m_editorFontSize m;
                 m_autoSaveInterval := m_autoSaveInterval m;
                 m_executionDelay := m_executionDelay m |} c);
    Some (emit pythonPathsChanged (emit configurationChanged c1))
  else Some c.

(** [ConfigManager::addPythonPath]. *)
Definition addPythonPath (path : string) (c : Config) : option Config :=
  let m := members c in
  if decide (path ∈ m_pythonPaths m) then Some c
  else
    c1 ← setValue "Python/paths" (VStringList (m_pythonPaths m ++ [path]))
           (set_members
              {| m_pythonHome := m_pythonHome m;
                 m_pythonPaths := m_pythonPaths m ++ [path];
                 m_editorFont := m_editorFont m; m_theme := m_theme m;
                 m_editorFontSize := m_editorFontSize m;
                 m_autoSaveInterval := m_autoSaveInterval m;
                 m_executionDelay := m_executionDelay m |} c);
    Some (emit pythonPathsChanged c1).

(** [ConfigManager::setEditorFont]. *)
Definition setEditorFont (font : string) (c : Config) : option Config :=
  let m := members c in
  if decide (m_editorFont m <> font) then
    c1 ← setValue "Editor/font" (VString font)
           (set_members
              {| m_pythonHome := m_pythonHome m;
                 m_pythonPaths := m_pythonPaths m;
                 m_editorFont := font; m_theme := m_theme m;
                 m_editorFontSize := m_editorFontSize m;
                 m_autoSaveInterval := m_autoSaveInterval m;
                 m_executionDelay := m_executionDelay m |} c);
    Some (emit editorSettingsChanged c1)
  else Some c.

(** [ConfigManager::setEditorFontSize]. *)
Definition setEditorFontSize (size : Z) (c : Config) : option Config :=
  let m := members c in
  if bool_decide (m_editorFontSize m <> size)
     && bool_decide (size > 5) && bool_decide (size < 72) then
    c1 ← setValue "Editor/fontSize" (VInt size)
           (set_members
              {| m_pythonHome := m_pythonHome m;
                 m_pythonPaths := m_pythonPaths m;
                 m_editorFont := m_editorFont m; m_theme := m_theme m;
                 m_editorFontSize := size;
                 m_autoSaveInterval := m_autoSaveInterval m;
                 m_executionDelay := m_executionDelay m |} c);
    Some (emit editorSettingsChanged c1)
  else Some c.

(** [ConfigManager::setAutoSaveInterval]. *)
Definition setAutoSaveInterval (seconds : Z) (c : Config) : option Config :=
  let m := members c in
  if bool_decide (m_autoSaveInterval m <> seconds)
     && bool_decide (seconds > 0) then
    c1 ← setValue "Editor/autoSaveInterval" (VInt seconds)
           (set_members
              {| m_pythonHome := m_pythonHome m;
                 m_pythonPaths := m_pythonPaths m;
                 m_editorFont := m_editorFont m; m_theme := m_theme m;
                 m_editorFontSize := m_editorFontSize m;
                 m_autoSaveInterval := seconds;
                 m_executionDelay := m_executionDelay m |} c);
    Some (emit configurationChanged c1)
  else Some c.

(** [ConfigManager::setExecutionDelay]. *)
Definition setExecutionDelay (delayMs : Z) (c : Config) : option Config :=
  let m := members c in
  if bool_decide (m_executionDelay m <> delayMs)
     && bool_decide (delayMs >= 0) then
    c1 ← setValue "Application/executionDelay" (VInt delayMs)
           (set_members
              {| m_pythonHome := m_pythonHome m;
                 m_pythonPaths := m_pythonPaths m;
                 m_editorFont := m_editorFont m; m_theme := m_theme m;
                 m_editorFontSize := m_editorFontSize m;
                 m_autoSaveInterval := m_autoSaveInterval m;
                 m_executionDelay := delayMs |} c);
    Some (emit configurationChanged c1)
  else Some c.

(** [ConfigManager::setTheme]. *)
Definition setTheme (theme : string) (c : Config) : option Config :=
  let m := members c in
  if decide (m_theme m <> theme) then
    c1 ← setValue "Application/theme" (VString theme)
           (set_members
              {| m_pythonHome := m_pythonHome m;
                 m_pythonPaths := m_pythonPaths m;
                 m_editorFont := m_editorFont m; m_theme := theme;
                 m_editorFontSize := m_editorFontSize m;
                 m_autoSaveInterval := m_autoSaveInterval m;
                 m_executionDelay := m_executionDelay m |} c);
    Some (emit configurationChanged c1)
  else Some c.

(** [ConfigManager::setWindowGeometry] and [ConfigManager::setWindowState]. *)
Definition setWindowGeometry (geometry : string) (c : Config) : option Config :=
  setValue "Window/geometry" (VByteArray geometry) c.

Definition setWindowState (state : string) (c : Config) : option Config :=
  setValue "Window/state" (VByteArray state) c.

(** [ConfigManager::autoDetectPython]; [conda] and [system] are what
    [detectCondaPython] and [detectSystemPython] find in the file system,
    empty when they find nothing. *)
Definition autoDetectPython (conda system : string) (c : Config)
    : option (string * Config) :=
  let detectedPath := if decide (conda = "") then system else conda in
  if decide (detectedPath <> "") then
    c1 ← setPythonHome detectedPath c; Some (detectedPath, c1)
  else Some (detectedPath, c).

(** [ConfigManager::createDefaultConfiguration]. *)
Definition createDefaultConfiguration (conda system : string) (c : Config)
    : option Config :=
  '(detectedPath, c1) ← autoDetectPython conda system c;
  let m := {| m_pythonHome := detectedPath; m_pythonPaths := [];
              m_editorFont := "Consolas"; m_theme := "light";
              m_editorFontSize := 12; m_autoSaveInterval := 30;
              m_executionDelay := 100 |} in
  c2 ← setValue "Python/home" (VString (m_pythonHome m)) (set_members m c1);
  c3 ← setValue "Python/paths" (VStringList (m_pythonPaths m)) c2;
  c4 ← setValue "Editor/font" (VString (m_editorFont m)) c3;
  c5 ← setValue "Editor/fontSize" (VInt (m_editorFontSize m)) c4;
  c6 ← setValue "Editor/autoSaveInterval" (VInt (m_autoSaveInterval m)) c5;
  c7 ← setValue "Application/executionDelay" (VInt (m_executionDelay m)) c6;
  setValue "Application/theme" (VString (m_theme m)) c7.

(** [ConfigManager::resetToDefaults]. *)
Definition resetToDefaults (conda system : string) (c : Config)
    : option Config :=
  c1 ← createDefaultConfiguration conda system c;
  Some (emit pythonPathsChanged
          (emit editorSettingsChanged (emit configurationChanged c1))).

(** The calls that change the configuration. *)
Inductive Call : Type :=
| SetPythonHome (path : string)
| AddPythonPath (path : string)
| SetEditorFont (font : string)
| SetEditorFontSize (size : Z)
| SetAutoSaveInterval (seconds : Z)
| SetExecutionDelay (delayMs : Z)
| SetTheme (theme : string)
| SetWindowGeometry (geometry : string)
| SetWindowState (state : string)
| ResetToDefaults (conda system : string).

Definition call (k : Call) (c : Config) : option Config :=
  match k with
  | SetPythonHome path => setPythonHome path c
  | AddPythonPath path => addPythonPath path c
  | SetEditorFont font => setEditorFont font c
  | SetEditorFontSize size => setEditorFontSize size c
  | SetAutoSaveInterval seconds => setAutoSaveInterval seconds c
  | SetExecutionDelay delayMs => setExecutionDelay delayMs c
  | SetTheme theme => setTheme theme c
  | SetWindowGeometry geometry => setWindowGeometry geometry c
  | SetWindowState state => setWindowState state c
  | ResetToDefaults conda system => resetToDefaults conda system c
  end.

Fixpoint calls (ks : list Call) (c : Config) : option Config :=
  match ks with
  | [] => Some c
  | k :: ks' => c1 ← call k c; calls ks' c1
  end.

(** The ranges the validating setters enforce. *)
Definition in_range (m : Members) : Prop :=
  5 < m_editorFontSize m < 72 /\ 0 < m_autoSaveInterval m
  /\ 0 <= m_executionDelay m.

(** Each validated member is what it was or within its range. *)
Definition kept_or_valid (m m' : Members) : Prop :=
  (m_editorFontSize m' = m_editorFontSize m \/ 5 < m_editorFontSize m' < 72)
  /\ (m_autoSaveInterval m' = m_autoSaveInterval m
      \/ 0 < m_autoSaveInterval m')
  /\ (m_executionDelay m' = m_executionDelay m \/ 0 <= m_executionDelay m').

(** A key of the store is absent or holds [v]. *)
Definition agrees (st : gmap string QVariant) (key : string) (v : QVariant)
    : Prop :=
  st !! key = None \/ st !! key = Some v.

(** No key of the store disagrees with the member it was written from. *)
Definition consistent (st : gmap string QVariant) (m : Members) : Prop :=
  agrees st "Python/home" (VString (m_pythonHome m))
  /\ agrees st "Python/paths" (VStringList (m_pythonPaths m))
  /\ agrees st "Editor/font" (VString (m_editorFont m))
  /\ agrees st "Editor/fontSize" (VInt (m_editorFontSize m))
  /\ agrees st "Editor/autoSaveInterval" (VInt (m_autoSaveInterval m))
  /\ agrees st "Application/executionDelay" (VInt (m_executionDelay m))
  /\ agrees st "Application/theme" (VString (m_theme m)).

End ConfigManager.

(** A manager as [ConfigManager::load] leaves it when the settings file
    holds a Python home and the font size 100: [load] copies the stored
    values into the members without checking them, and takes its defaults
    for the keys that are absent. *)
Definition config_loaded : ConfigManager.Config :=
  {| ConfigManager.m_settings :=
       Some (<["Editor/fontSize" := ConfigManager.VInt 100]>
               {["Python/home" := ConfigManager.VString "/usr"]});
     ConfigManager.members :=
       {| ConfigManager.m_pythonHome := "/usr";
          ConfigManager.m_pythonPaths := [];
          ConfigManager.m_editorFont := "Consolas";
          ConfigManager.m_theme := "light";
          ConfigManager.m_editorFontSize := 100;
          ConfigManager.m_autoSaveInterval := 30;
          ConfigManager.m_executionDelay := 100 |};
     ConfigManager.emitted := [] |}.

(** A manager whose store has been created and is still empty. *)
Definition config_fresh : ConfigManager.Config :=
  {| ConfigManager.m_settings := Some ∅;
     ConfigManager.members := ConfigManager.Members_init;
     ConfigManager.emitted := [] |}.

(** The breakpoint set the editor announces ([breakpointsChanged], which
    PyWindow.cpp connects to [CodeRunner::setBreakpoints]) after a click
    in the margin of line 3. *)
Definition breakpoint_on_3 : gset Z :=
  PyEditor.breakpoints
    (PyEditor.toggleBreakpoint 3 (PyWindow.m_codeEditor window_ready)).


(** * Properties of the execution controller *)

(** ** Lemmas on the monad and the primitives *)

Lemma bind_Some {A B} (m : M A) (k : A -> M B) w a w1 :
  m w = (Some a, w1) -> bind m k w = k a w1.
Proof. intros H. unfold bind. now rewrite H. Qed.

Lemma bind_None {A B} (m : M A) (k : A -> M B) w w1 :
  m w = (None, w1) -> bind m k w = (None, w1).
Proof. intros H. unfold bind. now rewrite H. Qed.

Lemma deref_live w p r :
  runners w !! p = Some r -> deref p w = (Some r, w).
Proof. intros H. unfold deref. now rewrite H. Qed.

Lemma assign_live w p r f :
  runners w !! p = Some r ->
  assign p f w = (Some tt, set_runners (<[p := f r]> (runners w)) w).
Proof.
  intros H. unfold assign.
  now rewrite (bind_Some _ _ _ _ _ (deref_live _ _ _ H)).
Qed.

Lemma emit_live w p r s :
  runners w !! p = Some r ->
  emit p s w = (Some tt, set_log (log w ++ [Emit p s]) w).
Proof.
  intros H. unfold emit.
  now rewrite (bind_Some _ _ _ _ _ (deref_live _ _ _ H)).
Qed.

Lemma invokeDirect_live w p r f :
  runners w !! p = Some r -> invokeDirect p f w = f w.
Proof.
  intros H. unfold invokeDirect.
  now rewrite (bind_Some _ _ _ _ _ (deref_live _ _ _ H)).
Qed.

Lemma invokeQueued_live w p r f :
  runners w !! p = Some r ->
  invokeQueued p f w = (Some tt, set_posted (posted w ++ [(p, f)]) w).
Proof.
  intros H. unfold invokeQueued.
  now rewrite (bind_Some _ _ _ _ _ (deref_live _ _ _ H)).
Qed.

Lemma logE_eq e w : logE e w = (Some tt, set_log (log w ++ [e]) w).
Proof. reflexivity. Qed.

Lemma modify_eq f w : modify f w = (Some tt, f w).
Proof. reflexivity. Qed.

Lemma gets_eq {A} (f : World -> A) w : gets f w = (Some (f w), w).
Proof. reflexivity. Qed.

Lemma isInitialized_eq w :
  isInitialized w = (Some (m_initialized (pyManager w)), w).
Proof. reflexivity. Qed.

(** ** The thread state *)

Lemma PyThreadState_GET_eq w t :
  tstate w = Some t -> PyThreadState_GET w = (Some t, w).
Proof. intros H. unfold PyThreadState_GET, bind, gets. now rewrite H. Qed.

Lemma PyThreadState_GET_null w :
  tstate w = None -> PyThreadState_GET w = (None, w).
Proof. intros H. unfold PyThreadState_GET, bind, gets. now rewrite H. Qed.

Lemma PyGILState_Ensure_eq w :
  PyGILState_Ensure w
  = (Some tt,
     set_log (log w ++ [GilAcquire])
       (set_tstate
          (Some match tstate w with
                | Some t =>
                    set_gilstate_counter (Pos.succ (gilstate_counter t)) t
                | None => {| gilstate_counter := 1; c_tracefunc := false;
                             curexc := None |}
                end) w)).
Proof. reflexivity. Qed.

Lemma PyGILState_Release_nested w t n :
  tstate w = Some t -> gilstate_counter t = Pos.succ n ->
  PyGILState_Release w
  = (Some tt,
     set_log (log w ++ [GilRelease])
       (set_tstate (Some (set_gilstate_counter n t)) w)).
Proof.
  intros Ht Hn. unfold PyGILState_Release, bind, gets. rewrite Ht, Hn.
  rewrite decide_False by apply Pos.succ_not_1.
  now rewrite Pos.pred_succ.
Qed.

Lemma PyGILState_Release_last w t :
  tstate w = Some t -> gilstate_counter t = 1%positive ->
  PyGILState_Release w
  = (Some tt, set_log (log w ++ [GilRelease]) (set_tstate None w)).
Proof.
  intros Ht Hn. unfold PyGILState_Release, bind, gets. rewrite Ht, Hn.
  now rewrite decide_True.
Qed.

Lemma PyEval_SetTrace_eq b w t :
  tstate w = Some t ->
  PyEval_SetTrace b w
  = (Some tt,
     set_tstate (Some (set_c_tracefunc b t))
       (set_log (log w ++ [SetTrace b]) w)).
Proof.
  intros Ht. unfold PyEval_SetTrace.
  now rewrite (bind_Some _ _ _ _ _ (PyThreadState_GET_eq _ _ Ht)).
Qed.

Lemma PyErr_SetString_eq exc msg w t :
  tstate w = Some t ->
  PyErr_SetString exc msg w
  = (Some tt,
     set_tstate
       (Some (set_curexc (Some {| exc_type := exc; exc_value := Some msg |}) t))
       (set_log (log w ++ [ErrSetString exc msg]) w)).
Proof.
  intros Ht. unfold PyErr_SetString.
  now rewrite (bind_Some _ _ _ _ _ (PyThreadState_GET_eq _ _ Ht)).
Qed.

Lemma PyErr_Occurred_null w :
  tstate w = None -> PyErr_Occurred w = (None, w).
Proof.
  intros Ht. unfold PyErr_Occurred.
  now rewrite (bind_None _ _ _ _ (PyThreadState_GET_null _ Ht)).
Qed.

(** ** The trace callback *)

Lemma pythonTraceFunction_null obj frame event arg w :
  g_currentRunner w = None ->
  pythonTraceFunction obj frame event arg w = (Some 0, w).
Proof.
  intros H. unfold pythonTraceFunction, bind, gets. now rewrite H.
Qed.

Lemma pythonTraceFunction_live obj frame event arg w p r :
  g_currentRunner w = Some p ->
  runners w !! p = Some r ->
  pythonTraceFunction obj frame event arg w = (Some 0, trace_post p r frame w).
Proof.
  intros Hg Hr. unfold pythonTraceFunction, bind, gets. rewrite Hg.
  rewrite (deref_live _ _ _ Hr). unfold trace_post.
  destruct (m_shouldAbort r), frame as [f | ]; cbn; try reflexivity.
  now rewrite (invokeQueued_live _ _ _ _ Hr).
Qed.

Lemma pythonTraceFunction_result obj frame event arg w result w' :
  pythonTraceFunction obj frame event arg w = (Some result, w') ->
  result = 0.
Proof.
  destruct (g_currentRunner w) as [p | ] eqn:Hg.
  - destruct (runners w !! p) as [r | ] eqn:Hr.
    + rewrite (pythonTraceFunction_live _ _ _ _ _ _ _ Hg Hr). congruence.
    + unfold pythonTraceFunction, bind, gets, deref. rewrite Hg, Hr.
      discriminate.
  - rewrite (pythonTraceFunction_null _ _ _ _ _ Hg). congruence.
Qed.

Lemma trace_post_fields p r frame w :
  log (trace_post p r frame w) = log w
  /\ runners (trace_post p r frame w) = runners w
  /\ tstate (trace_post p r frame w) = tstate w
  /\ g_currentRunner (trace_post p r frame w) = g_currentRunner w
  /\ pyManager (trace_post p r frame w) = pyManager w
  /\ sys_stdout_redirected (trace_post p r frame w) = sys_stdout_redirected w.
Proof.
  unfold trace_post. now destruct frame; [ destruct (m_shouldAbort r) | ].
Qed.

Lemma trace_post_aborted p r frame w :
  m_shouldAbort r = true -> trace_post p r frame w = w.
Proof. intros H. unfold trace_post. rewrite H. now destruct frame. Qed.

Lemma pythonTraceFunction_valid obj frame event arg w :
  registration_valid w ->
  exists w', pythonTraceFunction obj frame event arg w = (Some 0, w')
             /\ log w' = log w /\ tstate w' = tstate w
             /\ runners w' = runners w.
Proof.
  unfold registration_valid. intros Hreg.
  destruct (g_currentRunner w) as [p | ] eqn:Hg.
  - destruct Hreg as [r Hr].
    rewrite (pythonTraceFunction_live _ _ _ _ _ _ _ Hg Hr).
    destruct (trace_post_fields p r frame w) as (Hl & Hrs & Ht & _).
    eauto.
  - rewrite (pythonTraceFunction_null _ _ _ _ _ Hg). eauto.
Qed.

(** ** The UI thread's calls and the line notifications of a run *)

Lemma aborts_of_app p l1 l2 :
  aborts_of p (l1 ++ l2) = aborts_of p l1 || aborts_of p l2.
Proof. apply existsb_app. Qed.

Lemma after_aborts_app p l1 l2 r :
  after_aborts p (l1 ++ l2) r = after_aborts p l2 (after_aborts p l1 r).
Proof.
  unfold after_aborts. rewrite aborts_of_app.
  now destruct (aborts_of p l1), (aborts_of p l2), r.
Qed.

Lemma after_aborts_flag p l r :
  m_shouldAbort (after_aborts p l r) = m_shouldAbort r || aborts_of p l.
Proof.
  unfold after_aborts. destruct (aborts_of p l); cbn;
    [ now rewrite orb_true_r | now rewrite orb_false_r ].
Qed.

Lemma after_aborts_members p l r :
  after_aborts p l r
  = {| m_isExecuting := m_isExecuting r;
       m_shouldAbort := m_shouldAbort r || aborts_of p l;
       m_executionDelay := m_executionDelay r;
       m_currentLine := m_currentLine r;
       m_debugState := m_debugState r;
       m_breakpoints := m_breakpoints r;
       m_callDepth := m_callDepth r |}.
Proof.
  unfold after_aborts. destruct r, (aborts_of p l); cbn;
    now rewrite ?orb_true_r, ?orb_false_r.
Qed.

Lemma notifications_app g l1 : forall aborted l2,
  notifications g aborted (l1 ++ l2)
  = notifications g aborted l1
    ++ notifications g (aborted || aborts_of g l1) l2.
Proof.
  induction l1 as [ | s l1 IH]; intros aborted l2.
  - cbn. now rewrite orb_false_r.
  - destruct s as [f | [f | ] ev | t | p]; cbn [app notifications];
      rewrite IH; unfold aborts_of; cbn [existsb orb];
      rewrite <- ?app_assoc; try reflexivity.
    now rewrite orb_assoc.
Qed.

Lemma run_notifications_live w g r steps :
  g_currentRunner w = Some g -> runners w !! g = Some r ->
  run_notifications w steps = notifications g (m_shouldAbort r) steps.
Proof. intros Hg Hr. unfold run_notifications. now rewrite Hg, Hr. Qed.

Lemma run_notifications_null w steps :
  g_currentRunner w = None -> run_notifications w steps = [].
Proof. intros Hg. unfold run_notifications. now rewrite Hg. Qed.

Lemma run_notifications_nil w : run_notifications w [] = [].
Proof.
  unfold run_notifications.
  destruct (g_currentRunner w) as [g | ]; [ | reflexivity ].
  now destruct (runners w !! g).
Qed.

(** ** The effect of interpreter steps *)

Lemma steps_effect_nil w : steps_effect [] w w.
Proof.
  split; try reflexivity.
  - rewrite run_notifications_nil. now destruct (traced w); rewrite app_nil_r.
  - cbn. now rewrite app_nil_r.
  - intros p. now destruct (runners w !! p).
Qed.

Lemma steps_effect_trans l1 l2 w w1 w2 :
  steps_effect l1 w w1 -> steps_effect l2 w1 w2 ->
  steps_effect (l1 ++ l2) w w2.
Proof.
  intros [Hg1 Hm1 Hs1 Ht1 Hq1 Hl1 Hr1] [Hg2 Hm2 Hs2 Ht2 Hq2 Hl2 Hr2].
  split; try congruence.
  - rewrite Hq2, Hq1, <- app_assoc. f_equal.
    unfold traced. rewrite Ht1.
    destruct (tstate w) as [t | ]; [ | reflexivity ].
    destruct (c_tracefunc t); [ | reflexivity ].
    unfold run_notifications. rewrite Hg1.
    destruct (g_currentRunner w) as [g | ]; [ | reflexivity ].
    rewrite Hr1. destruct (runners w !! g) as [r | ]; [ | reflexivity ].
    cbn. now rewrite notifications_app, after_aborts_flag.
  - rewrite Hl2, Hl1, Hm1, Hs1, <- app_assoc. f_equal.
    now rewrite flat_map_app.
  - intros p. rewrite Hr2, Hr1.
    destruct (runners w !! p) as [r | ]; [ | reflexivity ].
    cbn. now rewrite after_aborts_app.
Qed.

Lemma steps_effect_live steps w w' p :
  steps_effect steps w w' -> live w p -> live w' p.
Proof.
  intros Heff [r Hr]. unfold live. rewrite (eff_runners _ _ _ Heff), Hr.
  cbn. eauto.
Qed.

Lemma steps_effect_registration steps w w' :
  steps_effect steps w w' -> registration_valid w -> registration_valid w'.
Proof.
  intros Heff. unfold registration_valid. rewrite (eff_current _ _ _ Heff).
  destruct (g_currentRunner w);
    [ now apply (steps_effect_live steps w) | trivial ].
Qed.

Lemma steps_effect_callers steps w w' l :
  steps_effect steps w w' -> callers_valid w l -> callers_valid w' l.
Proof.
  intros Heff Hc. unfold callers_valid in *.
  eapply Forall_impl; [ exact Hc | ].
  intros [ | | | p]; trivial. now apply (steps_effect_live steps w).
Qed.

Lemma steps_effect_callback steps w w' :
  steps_effect steps w w' -> callback_valid w -> callback_valid w'.
Proof.
  intros Heff. unfold callback_valid.
  rewrite (eff_stdout _ _ _ Heff), (eff_manager _ _ _ Heff).
  intros H Hr. specialize (H Hr).
  destruct (m_outputCallback (pyManager w));
    [ now apply (steps_effect_live steps w) | trivial ].
Qed.

Lemma call_trace_effect frame event w t :
  tstate w = Some t -> registration_valid w ->
  exists w', call_trace frame event w = (Some true, w')
             /\ steps_effect [PyTrace frame event] w w'.
Proof.
  intros Ht Hreg. unfold call_trace.
  rewrite (bind_Some _ _ _ _ _ (PyThreadState_GET_eq _ _ Ht)).
  assert (Htr : traced w = c_tracefunc t) by (unfold traced; now rewrite Ht).
  destruct (c_tracefunc t) eqn:Hc.
  - unfold registration_valid in Hreg.
    destruct (g_currentRunner w) as [g | ] eqn:Hg.
    + destruct Hreg as [r Hr].
      rewrite (bind_Some _ _ _ _ _
                 (pythonTraceFunction_live _ _ _ _ _ _ _ Hg Hr)).
      eexists. split; [ reflexivity | ].
      destruct (trace_post_fields g r frame w) as (Hl & Hrs & Hts & Hg' & Hm & Hs).
      split; try assumption.
      * rewrite Htr, (run_notifications_live _ _ _ _ Hg Hr).
        unfold trace_post.
        destruct frame as [f | ]; cbn [notifications];
          [ destruct (m_shouldAbort r) | ]; cbn; now rewrite ?app_nil_r.
      * cbn. now rewrite Hl, app_nil_r.
      * intros p. rewrite Hrs. now destruct (runners w !! p).
    + rewrite (bind_Some _ _ _ _ _ (pythonTraceFunction_null _ _ _ _ _ Hg)).
      eexists. split; [ reflexivity | ].
      split; try reflexivity.
      * rewrite (run_notifications_null _ _ Hg).
        now destruct (traced w); rewrite app_nil_r.
      * cbn. now rewrite app_nil_r.
      * intros p. now destruct (runners w !! p).
  - eexists. split; [ reflexivity | ].
    split; try reflexivity.
    + now rewrite Htr, app_nil_r.
    + cbn. now rewrite app_nil_r.
    + intros p. now destruct (runners w !! p).
Qed.

Lemma py_write_effect text w :
  callback_valid w ->
  exists w', py_write text w = (Some tt, w')
             /\ steps_effect [PyWrite text] w w'.
Proof.
  intros Hcb. unfold py_write, callback_valid in *.
  rewrite (bind_Some _ _ _ _ _ (gets_eq _ _)).
  assert (Hq : forall w0 : World,
             posted w0 ++ (if traced w0 then run_notifications w0 [PyWrite text]
                           else []) = posted w0).
  { intros w0. unfold run_notifications. cbn.
    destruct (traced w0), (g_currentRunner w0) as [g | ];
      rewrite ?app_nil_r; try reflexivity.
    destruct (runners w0 !! g); now rewrite app_nil_r. }
  assert (Hrs : forall p, runners w !! p
                          = after_aborts p [PyWrite text] <$> runners w !! p).
  { intros p. now destruct (runners w !! p). }
  destruct (sys_stdout_redirected w) eqn:Hred.
  - rewrite (bind_Some _ _ _ _ _ (gets_eq _ _)).
    destruct (m_outputCallback (pyManager w)) as [p | ] eqn:Hcall.
    + destruct (Hcb eq_refl) as [r Hr].
      rewrite (invokeDirect_live _ _ _ _ Hr), (emit_live _ _ _ _ Hr).
      eexists. split; [ reflexivity | ].
      split; try reflexivity; try exact Hrs.
      * cbn [posted set_log]. now rewrite Hq.
      * cbn. now rewrite Hred, Hcall.
    + eexists. split; [ reflexivity | ].
      split; try reflexivity; try exact Hrs.
      * now rewrite Hq.
      * cbn. now rewrite Hred, Hcall, app_nil_r.
  - eexists. split; [ reflexivity | ].
    split; try reflexivity; try exact Hrs.
    + cbn [posted set_log]. now rewrite Hq.
    + cbn. now rewrite Hred.
Qed.

Lemma insert_after_abort (m : gmap addr CodeRunner) p r q :
  m !! p = Some r ->
  <[p := set_shouldAbort true r]> m !! q
  = after_aborts q [CallerAbort p] <$> m !! q.
Proof.
  intros Hr. unfold after_aborts, aborts_of. cbn. rewrite orb_false_r.
  destruct (decide (p = q)) as [<- | Hne].
  - rewrite lookup_insert_eq, Hr, bool_decide_eq_true_2 by reflexivity.
    reflexivity.
  - rewrite lookup_insert_ne by assumption.
    rewrite bool_decide_eq_false_2 by assumption.
    now destruct (m !! q).
Qed.

Lemma abort_effect w p r :
  runners w !! p = Some r ->
  steps_effect [CallerAbort p] w
    (set_runners (<[p := set_shouldAbort true r]> (runners w)) w).
Proof.
  intros Hr. split; try reflexivity.
  - cbn [posted set_runners]. unfold run_notifications. cbn.
    destruct (traced w), (g_currentRunner w) as [g | ];
      rewrite ?app_nil_r; try reflexivity.
    destruct (runners w !! g); now rewrite app_nil_r.
  - cbn. now rewrite app_nil_r.
  - intros q. cbn [runners set_runners]. now apply insert_after_abort.
Qed.

Lemma py_step_effect s w t :
  tstate w = Some t ->
  registration_valid w -> callback_valid w -> callers_valid w [s] ->
  exists w', py_step s w = (Some true, w') /\ steps_effect [s] w w'.
Proof.
  intros Ht Hreg Hcb Hcall.
  destruct s as [frame | frame event | text | p]; cbn [py_step].
  - destruct (call_trace_effect (Some frame) PyTrace_LINE w t Ht Hreg)
      as (w1 & Hrun & [Hg Hm Hs Hts Hq Hl Hrs]).
    rewrite (bind_Some _ _ _ _ _ Hrun).
    eexists. split; [ reflexivity | ].
    split; try assumption.
    cbn in *. now rewrite Hl, app_nil_r.
  - now apply (call_trace_effect frame event w t).
  - destruct (py_write_effect text w Hcb) as (w1 & Hrun & Heff).
    rewrite (bind_Some _ _ _ _ _ Hrun). eauto.
  - apply Forall_cons in Hcall as [[r Hr] _].
    unfold abortExecution.
    rewrite (bind_Some _ _ _ _ _ (assign_live _ _ _ _ Hr)).
    eexists. split; [ reflexivity | ]. now apply abort_effect.
Qed.

Lemma py_run_steps_effect steps : forall w t,
  tstate w = Some t ->
  registration_valid w -> callback_valid w -> callers_valid w steps ->
  exists w', py_run_steps steps w = (Some true, w')
             /\ steps_effect steps w w'.
Proof.
  induction steps as [ | s steps IH]; intros w t Ht Hreg Hcb Hcall.
  - exists w. split; [ reflexivity | apply steps_effect_nil ].
  - apply Forall_cons in Hcall as [Hs Hcall].
    destruct (py_step_effect s w t Ht Hreg Hcb) as (w1 & Hrun & Heff).
    { now constructor. }
    destruct (IH w1 t) as (w2 & Hrun2 & Heff2);
      eauto using steps_effect_registration, steps_effect_callback,
        steps_effect_callers.
    { now rewrite (eff_tstate _ _ _ Heff). }
    exists w2. cbn [py_run_steps]. rewrite (bind_Some _ _ _ _ _ Hrun).
    split; [ exact Hrun2 | ].
    apply (steps_effect_trans [s] steps w w1 w2 Heff Heff2).
Qed.

(** ** The two phases of a session that run Python code *)

Lemma setup_events_nil callback redirected setup :
  flat_map (step_events callback redirected) (map setup_step setup) = [].
Proof.
  induction setup as [ | [frame event | p] setup IH]; [ reflexivity | | ];
    exact IH.
Qed.

Ltac unfold_setters :=
  unfold set_log, set_tstate, set_posted, set_sys_stdout_redirected,
    set_pyManager, set_runners, set_g_currentRunner in *.

Ltac wnorm :=
  unfold_setters;
  cbn [g_currentRunner runners pyManager sys_stdout_redirected tstate
       posted log m_initialized m_outputCallback set_outputCallback] in *.

Lemma redirectPythonOutput_effect this setup w t r :
  tstate w = Some t -> m_initialized (pyManager w) = true ->
  runners w !! this = Some r -> registration_valid w ->
  callers_valid w (map setup_step setup) ->
  exists w',
    redirectPythonOutput this setup w = (Some tt, w')
    /\ g_currentRunner w' = g_currentRunner w
    /\ pyManager w' = set_outputCallback (Some this) (pyManager w)
    /\ sys_stdout_redirected w' = true
    /\ tstate w' = Some t
    /\ posted w'
       = posted w ++ (if c_tracefunc t
                      then run_notifications w (map setup_step setup)
                      else [])
    /\ log w'
       = log w ++ [GilAcquire;
                   QDebug "Python output redirection configured successfully";
                   GilRelease]
    /\ forall p, runners w' !! p
                 = after_aborts p (map setup_step setup) <$> runners w !! p.
Proof.
  intros Ht Hinit Hr Hreg Hcall. unfold redirectPythonOutput.
  rewrite (bind_Some _ _ _ _ _ (modify_eq _ _)).
  rewrite (bind_Some _ _ _ _ _ (isInitialized_eq _)).
  cbn [pyManager set_pyManager m_initialized set_outputCallback].
  rewrite Hinit. cbn [negb].
  unfold gil_scoped_acquire, gil_scoped_acquire_dtor.
  rewrite (bind_Some _ _ _ _ _ (PyGILState_Ensure_eq _)).
  cbn [tstate set_pyManager]. rewrite Ht.
  match goal with |- context [bind (py_run_steps _) _ ?x] => set (w1 := x) end.
  destruct (py_run_steps_effect (map setup_step setup) w1
              (set_gilstate_counter (Pos.succ (gilstate_counter t)) t))
    as (w2 & Hrun & [Hg Hm Hs Hts Hq Hl Hrs]).
  { reflexivity. }
  { exact Hreg. }
  { intros _. cbn. exists r. exact Hr. }
  { exact Hcall. }
  rewrite (bind_Some _ _ _ _ _ Hrun).
  rewrite (bind_Some _ _ _ _ _ (modify_eq _ _)).
  rewrite (bind_Some _ _ _ _ _ (logE_eq _ _)).
  erewrite (PyGILState_Release_nested _ _ (gilstate_counter t));
    [ | cbn [tstate set_log set_sys_stdout_redirected]; exact Hts
      | reflexivity ].
  eexists. split; [ reflexivity | ].
  rewrite setup_events_nil, app_nil_r in Hl.
  unfold traced, run_notifications in Hq. subst w1. wnorm.
  rewrite Hg, Hm, Hq, Hl, <- !app_assoc.
  repeat (split; [ try reflexivity | ]).
  - now destruct t.
  - exact Hrs.
Qed.

Lemma py_exec_effect run w t :
  tstate w = Some t ->
  registration_valid w -> callback_valid w ->
  callers_valid w (py_steps run) ->
  exists w1,
    steps_effect (py_steps run) w w1
    /\ py_exec run w
       = match py_uncaught run with
         | None => (Some PyReturned, w1)
         | Some f =>
             (Some (PyRaised (what f)),
              set_tstate (Some (set_curexc (pending f) t)) w1)
         end.
Proof.
  intros Ht Hreg Hcb Hcall.
  destruct (py_run_steps_effect (py_steps run) w t Ht Hreg Hcb Hcall)
    as (w1 & Hrun & Heff).
  exists w1. split; [ exact Heff | ].
  unfold py_exec. rewrite (bind_Some _ _ _ _ _ Hrun).
  destruct (py_uncaught run) as [f | ]; [ | reflexivity ].
  assert (Hts : tstate w1 = Some t)
    by now rewrite (eff_tstate _ _ _ Heff).
  now rewrite (bind_Some _ _ _ _ _ (PyThreadState_GET_eq _ _ Hts)).
Qed.

Lemma executeCode_effect code run w t :
  tstate w = Some t -> m_initialized (pyManager w) = true ->
  registration_valid w -> callback_valid w ->
  callers_valid w (py_steps run) ->
  exists w',
    executeCode code run w
    = (Some match py_uncaught run with
            | None => inl tt
            | Some f => inr ("Python execution error: " +:+ what f)
            end, w')
    /\ g_currentRunner w' = g_currentRunner w
    /\ pyManager w' = pyManager w
    /\ sys_stdout_redirected w' = sys_stdout_redirected w
    /\ tstate w' = Some match py_uncaught run with
                        | None => t
                        | Some f => set_curexc (pending f) t
                        end
    /\ posted w'
       = posted w ++ (if c_tracefunc t
                      then run_notifications w (py_steps run) else [])
    /\ log w'
       = log w ++ [GilAcquire]
         ++ flat_map (step_events (m_outputCallback (pyManager w))
                        (sys_stdout_redirected w)) (py_steps run)
         ++ [GilRelease]
         ++ match py_uncaught run with
            | None => []
            | Some f => [PythonError ("Python execution error: " +:+ what f)]
            end
    /\ forall p, runners w' !! p
                 = after_aborts p (py_steps run) <$> runners w !! p.
Proof.
  intros Ht Hinit Hreg Hcb Hcall. unfold executeCode.
  rewrite (bind_Some _ _ _ _ _ (isInitialized_eq _)), Hinit. cbn [negb].
  unfold gil_scoped_acquire, gil_scoped_acquire_dtor.
  rewrite (bind_Some _ _ _ _ _ (PyGILState_Ensure_eq _)). rewrite Ht.
  match goal with |- context [bind (py_exec _) _ ?x] => set (w1 := x) end.
  destruct (py_exec_effect run w1
              (set_gilstate_counter (Pos.succ (gilstate_counter t)) t))
    as (w2 & [Hg Hm Hs Hts Hq Hl Hrs] & Hrun);
    try assumption; try reflexivity.
  unfold traced, run_notifications in Hq. subst w1. wnorm.
  destruct (py_uncaught run) as [f | ].
  - rewrite (bind_Some _ _ _ _ _ Hrun).
    erewrite bind_Some
      by (eapply (PyGILState_Release_nested _ _ (gilstate_counter t));
          reflexivity).
    rewrite (bind_Some _ _ _ _ _ (logE_eq _ _)).
    eexists. split; [ reflexivity | ]. wnorm.
    rewrite Hg, Hm, Hs, Hq, Hl, <- !app_assoc.
    repeat (split; [ first [ reflexivity | now destruct t ] | ]).
    exact Hrs.
  - rewrite (bind_Some _ _ _ _ _ Hrun).
    erewrite bind_Some
      by (eapply (PyGILState_Release_nested _ _ (gilstate_counter t));
          [ exact Hts | reflexivity ]).
    eexists. split; [ reflexivity | ]. wnorm.
    rewrite Hg, Hm, Hs, Hq, Hl, <- !app_assoc.
    repeat (split; [ first [ reflexivity | now destruct t ] | ]).
    exact Hrs.
Qed.

(** ** A whole session *)

Lemma bind_ret {A B} (a : A) (k : A -> M B) w : bind (ret a) k w = k a w.
Proof. reflexivity. Qed.

Lemma session_uninitialized this code run w r :
  runners w !! this = Some r ->
  m_initialized (pyManager w) = false ->
  executePythonCodeSafely this code run w
  = (Some tt,
     set_runners (<[this := set_isExecuting false r]> (runners w))
       (set_log
          (log w ++ [Emit this executionStarted;
                     Emit this (errorOccurred
                       "Execution error: Python interpreter not initialized")])
          w)).
Proof.
  intros Hr Hinit. unfold executePythonCodeSafely.
  rewrite (bind_Some _ _ _ _ _ (emit_live _ _ _ _ Hr)).
  rewrite (bind_Some _ _ _ _ _ (isInitialized_eq _)).
  cbn [pyManager set_log]. rewrite Hinit. cbn [negb].
  erewrite bind_Some
    by (erewrite invokeDirect_live by exact Hr; eapply emit_live; exact Hr).
  erewrite assign_live by exact Hr.
  unfold_setters. cbn. now rewrite <- app_assoc.
Qed.

Lemma fmap_live (f : CodeRunner -> CodeRunner) (o : option CodeRunner) :
  is_Some o -> is_Some (f <$> o).
Proof. intros [r ->]. cbn. eauto. Qed.

(** The rest of a session once its interpreter calls have been computed. *)
Ltac session_run H :=
  repeat first
    [ progress unfold bind, ret, gets, modify, logE, invokeDirect, emit,
        assign, deref, PyErr_Occurred, PyErr_Fetch, PyThreadState_GET
    | progress unfold_setters
    | progress cbn
    | rewrite H
    | rewrite lookup_insert_eq ].

Ltac session_fields Hthis Hothers :=
  eexists; (split; [ reflexivity | ]);
  cbn [g_currentRunner runners pyManager sys_stdout_redirected tstate
       posted log];
  repeat (split;
          [ first [ reflexivity
                  | repeat first [ rewrite <- app_assoc | progress cbn [app] ];
                    reflexivity ]
          | ]);
  let p := fresh "p" in
  let Hp := fresh "Hp" in
  intros p; case_decide as Hp;
  [ subst p; first [ apply lookup_insert_eq | exact Hthis ]
  | first [ rewrite lookup_insert_ne by congruence; now apply Hothers
          | now apply Hothers ] ].

Lemma session_exact this code run w r :
  runners w !! this = Some r ->
  registration_valid w -> callers_valid w (session_steps run) ->
  m_initialized (pyManager w) = true ->
  exists w',
    executePythonCodeSafely this code run w = (session_outcome w run, w')
    /\ g_currentRunner w' = g_currentRunner w
    /\ pyManager w' = set_outputCallback (Some this) (pyManager w)
    /\ sys_stdout_redirected w' = true
    /\ tstate w'
       = session_tstate (tstate w) run
           (m_shouldAbort r || aborts_of this (session_steps run))
    /\ posted w' = posted w ++ run_notifications w (session_steps run)
    /\ log w'
       = log w ++ session_events this true run
                    (m_shouldAbort r || aborts_of this (session_steps run))
                    (has_tstate w)
    /\ forall p,
         runners w' !! p
         = if decide (p = this)
           then Some match session_outcome w run with
                     | Some _ =>
                         set_isExecuting false
                           (after_aborts this (session_steps run) r)
                     | None => after_aborts this (session_steps run) r
                     end
           else after_aborts p (session_steps run) <$> runners w !! p.
Proof.
  intros Hr Hreg Hcall Hinit.
  unfold session_steps, setup_steps in *.
  apply Forall_app in Hcall as [Hcall1 Hcall2].
  unfold executePythonCodeSafely.
  rewrite (bind_Some _ _ _ _ _ (emit_live _ _ _ _ Hr)).
  rewrite (bind_Some _ _ _ _ _ (isInitialized_eq _)).
  cbn [pyManager set_log]. rewrite Hinit. cbn [negb].
  rewrite (bind_Some _ _ _ _ _ (PyGILState_Ensure_eq _)).
  cbn [tstate set_log].
  set (t1 := match tstate w with
             | Some t => set_gilstate_counter (Pos.succ (gilstate_counter t)) t
             | None => _
             end).
  erewrite bind_Some by (apply (PyEval_SetTrace_eq _ _ t1); reflexivity).
  match goal with
  | |- context [bind (redirectPythonOutput _ _) _ ?x] => set (w2 := x)
  end.
  destruct (redirectPythonOutput_effect this (py_setup run) w2
              (set_c_tracefunc true t1) r)
    as (w3 & Hrun3 & Hg3 & Hm3 & Hs3 & Ht3 & Hq3 & Hl3 & Hrs3);
    [ reflexivity | exact Hinit | exact Hr | exact Hreg | exact Hcall1 | ].
  rewrite (bind_Some _ _ _ _ _ Hrun3).
  assert (Hlive3 : forall p, live w p -> live w3 p).
  { intros p Hp. unfold live. rewrite Hrs3. now apply fmap_live. }
  destruct (executeCode_effect code run w3 (set_c_tracefunc true t1))
    as (w4 & Hrun4 & Hg4 & Hm4 & Hs4 & Ht4 & Hq4 & Hl4 & Hrs4).
  { exact Ht3. }
  { rewrite Hm3. exact Hinit. }
  { unfold registration_valid in *. rewrite Hg3.
    change (g_currentRunner w2) with (g_currentRunner w).
    destruct (g_currentRunner w); [ now apply Hlive3 | exact I ]. }
  { intros _. rewrite Hm3. cbn. apply Hlive3. now exists r. }
  { eapply Forall_impl; [ exact Hcall2 | ].
    intros [ | | | p]; trivial. apply Hlive3. }
  rewrite (bind_Some _ _ _ _ _ Hrun4).
  set (steps1 := map setup_step (py_setup run)) in *.
  set (r4 := after_aborts this (steps1 ++ py_steps run) r).
  assert (Hr4 : runners w4 !! this = Some r4).
  { rewrite Hrs4, Hrs3. change (runners w2) with (runners w). rewrite Hr.
    cbn. unfold r4. now rewrite after_aborts_app. }
  assert (Hflag : m_shouldAbort r4
                  = m_shouldAbort r || aborts_of this (steps1 ++ py_steps run))
    by apply after_aborts_flag.
  assert (Hq : posted w4
               = posted w ++ run_notifications w (steps1 ++ py_steps run)).
  { rewrite Hq4, Hq3. cbn [c_tracefunc set_c_tracefunc].
    change (posted w2) with (posted w). rewrite <- app_assoc. f_equal.
    unfold run_notifications. rewrite Hg3.
    change (g_currentRunner w2) with (g_currentRunner w).
    change (runners w2) with (runners w).
    destruct (g_currentRunner w) as [g | ]; [ | reflexivity ].
    rewrite Hrs3. change (runners w2) with (runners w).
    destruct (runners w !! g) as [rg | ]; [ | reflexivity ].
    cbn. now rewrite notifications_app, after_aborts_flag. }
  assert (Hl : log w4
               = log w ++ [Emit this executionStarted; GilAcquire;
                           SetTrace true; GilAcquire;
                           QDebug "Python output redirection configured successfully";
                           GilRelease; GilAcquire]
                 ++ flat_map (step_events (Some this) true) (py_steps run)
                 ++ [GilRelease]
                 ++ match py_uncaught run with
                    | None => []
                    | Some f =>
                        [PythonError ("Python execution error: " +:+ what f)]
                    end).
  { rewrite Hl4, Hl3, Hm3, Hs3. subst w2. cbn [log set_tstate set_log].
    cbn [m_outputCallback set_outputCallback].
    now rewrite <- !app_assoc. }
  assert (Hrs : forall p, p <> this ->
             runners w4 !! p
             = after_aborts p (steps1 ++ py_steps run) <$> runners w !! p).
  { intros p _. rewrite Hrs4, Hrs3. change (runners w2) with (runners w).
    destruct (runners w !! p); [ | reflexivity ].
    cbn. now rewrite after_aborts_app. }
  assert (Hg : g_currentRunner w4 = g_currentRunner w)
    by now rewrite Hg4, Hg3.
  assert (Hm : pyManager w4 = set_outputCallback (Some this) (pyManager w))
    by now rewrite Hm4, Hm3.
  assert (Hs : sys_stdout_redirected w4 = true) by now rewrite Hs4.
  clearbody r4.
  clear Hrun3 Hrun4 Hg3 Hm3 Hs3 Ht3 Hq3 Hl3 Hrs3 Hg4 Hm4 Hs4 Hq4 Hl4 Hrs4
    Hlive3 w3 w2.
  unfold session_outcome, session_events, session_tstate, has_tstate.
  rewrite Hinit, <- Hflag.
  destruct (py_uncaught run) as [f | ].
  - (* the program raised: the handler of the inner catch *)
    destruct (tstate w) as [t0 | ] eqn:Hts0; subst t1.
    + erewrite bind_Some
        by (eapply (PyGILState_Release_nested _ _ (gilstate_counter t0));
            [ exact Ht4 | reflexivity ]).
      destruct w4 as [g4 rs4 m4 s4 ts4 q4 l4]. wnorm. subst.
      destruct (pending f) as [[ty [v | ]] | ]; session_run Hr4;
        session_fields Hr4 Hrs.
    + erewrite bind_Some
        by (eapply PyGILState_Release_last; [ exact Ht4 | reflexivity ]).
      erewrite bind_None by (apply PyErr_Occurred_null; reflexivity).
      destruct w4 as [g4 rs4 m4 s4 ts4 q4 l4]. wnorm. subst.
      session_fields Hr4 Hrs.
  - (* the program returned *)
    erewrite bind_Some by (apply PyEval_SetTrace_eq; exact Ht4).
    erewrite bind_Some by (apply deref_live; exact Hr4).
    destruct (m_shouldAbort r4) eqn:Hab.
    + erewrite bind_Some by (apply PyErr_SetString_eq; reflexivity).
      destruct (tstate w) as [t0 | ] eqn:Hts0; subst t1.
      * erewrite bind_Some
          by (eapply (PyGILState_Release_nested _ _ (gilstate_counter t0));
              reflexivity).
        destruct w4 as [g4 rs4 m4 s4 ts4 q4 l4]. wnorm. subst.
        session_run Hr4; session_fields Hr4 Hrs.
      * erewrite bind_Some
          by (eapply PyGILState_Release_last; reflexivity).
        destruct w4 as [g4 rs4 m4 s4 ts4 q4 l4]. wnorm. subst.
        session_run Hr4; session_fields Hr4 Hrs.
    + rewrite bind_ret.
      destruct (tstate w) as [t0 | ] eqn:Hts0; subst t1.
      * erewrite bind_Some
          by (eapply (PyGILState_Release_nested _ _ (gilstate_counter t0));
              reflexivity).
        destruct w4 as [g4 rs4 m4 s4 ts4 q4 l4]. wnorm. subst.
        session_run Hr4; session_fields Hr4 Hrs.
      * erewrite bind_Some
          by (eapply PyGILState_Release_last; reflexivity).
        destruct w4 as [g4 rs4 m4 s4 ts4 q4 l4]. wnorm. subst.
        session_run Hr4; session_fields Hr4 Hrs.
Qed.

(** ** Lemmas on the log *)

Lemma signals_of_app p l1 l2 :
  signals_of p (l1 ++ l2) = signals_of p l1 ++ signals_of p l2.
Proof.
  induction l1 as [ | e l1 IH]; [ reflexivity | ].
  destruct e; cbn; try assumption.
  case_decide; cbn; now rewrite IH.
Qed.

Lemma count_signal_app p s l1 l2 :
  count_signal p s (l1 ++ l2)
  = (count_signal p s l1 + count_signal p s l2)%nat.
Proof.
  unfold count_signal. now rewrite signals_of_app, filter_app, length_app.
Qed.

Lemma outputs_of_app p l1 l2 :
  outputs_of p (l1 ++ l2) = outputs_of p l1 ++ outputs_of p l2.
Proof.
  induction l1 as [ | e l1 IH]; [ reflexivity | ].
  destruct e as [q s | | | | | | | | | | ]; cbn; try assumption.
  destruct s; cbn; try assumption.
  case_decide; cbn; now rewrite IH.
Qed.

Lemma executed_of_app l1 l2 :
  executed_of (l1 ++ l2) = executed_of l1 ++ executed_of l2.
Proof.
  induction l1 as [ | e l1 IH]; [ reflexivity | ].
  destruct e; cbn; now rewrite ?IH.
Qed.

Lemma statements_of_app l1 l2 :
  statements_of (l1 ++ l2) = statements_of l1 ++ statements_of l2.
Proof.
  induction l1 as [ | s l1 IH]; [ reflexivity | ].
  destruct s; cbn; now rewrite ?IH.
Qed.

Lemma count_signal_emit_ne p s s' l :
  s' <> s -> count_signal p s (Emit p s' :: l) = count_signal p s l.
Proof.
  intros Hne. unfold count_signal. cbn. rewrite decide_True by reflexivity.
  now rewrite filter_cons_False.
Qed.

(** The interpreter steps of a session, seen through each reader. *)

Lemma steps_signals_of this steps :
  signals_of this (flat_map (step_events (Some this) true) steps)
  = map outputReceived (writes_of steps).
Proof.
  induction steps as [ | st steps IH]; [ reflexivity | ].
  cbn [flat_map]. rewrite signals_of_app, IH.
  destruct st as [frame | frame event | text | p]; try reflexivity.
  cbn. now rewrite decide_True.
Qed.

Lemma steps_outputs this steps :
  outputs_of this (flat_map (step_events (Some this) true) steps)
  = writes_of steps.
Proof.
  induction steps as [ | st steps IH]; [ reflexivity | ].
  cbn [flat_map]. rewrite outputs_of_app, IH.
  destruct st as [frame | frame event | text | p]; try reflexivity.
  cbn. now rewrite decide_True.
Qed.

Lemma steps_executed callback redirected steps :
  executed_of (flat_map (step_events callback redirected) steps)
  = statements_of steps.
Proof.
  induction steps as [ | st steps IH]; [ reflexivity | ].
  cbn [flat_map]. rewrite executed_of_app, IH.
  destruct st as [frame | frame event | text | p]; try reflexivity.
  cbn. now destruct redirected, callback.
Qed.

Lemma steps_no_pause callback redirected steps :
  Forall (fun e => is_pause_event e = false)
         (flat_map (step_events callback redirected) steps).
Proof.
  induction steps as [ | st steps IH]; [ constructor | ].
  cbn [flat_map]. apply Forall_app. split; [ | exact IH ].
  destruct st as [frame | frame event | text | p]; cbn;
    repeat first [ constructor | destruct redirected | destruct callback ].
Qed.

Lemma session_no_pause this initialized run aborted nested :
  Forall (fun e => is_pause_event e = false)
         (session_events this initialized run aborted nested).
Proof.
  unfold session_events. destruct initialized.
  - repeat (apply Forall_cons; split; [ reflexivity | ]).
    apply Forall_app. split; [ apply steps_no_pause | ].
    destruct (py_uncaught run), aborted, nested; repeat constructor.
  - repeat constructor.
Qed.

Lemma no_pause_not_Exists l :
  Forall (fun e => is_pause_event e = false) l ->
  ~ Exists (fun e => is_pause_event e = true) l.
Proof.
  intros Hall Hex. apply Exists_exists in Hex as (e & Hin & He).
  rewrite Forall_forall in Hall. specialize (Hall e Hin). congruence.
Qed.

Ltac session_prefix :=
  change (?a :: ?b :: ?c :: ?d :: ?e :: ?f :: ?g :: ?l ++ ?m)
    with ([a; b; c; d; e; f; g] ++ l ++ m).

Lemma session_events_signals this initialized run aborted nested :
  signals_of this (session_events this initialized run aborted nested)
  = session_signals_of initialized run nested.
Proof.
  unfold session_events, session_signals_of. destruct initialized.
  - session_prefix.
    rewrite !signals_of_app, steps_signals_of. cbn.
    rewrite decide_True by reflexivity. f_equal. f_equal.
    destruct (py_uncaught run), aborted, nested; cbn;
      rewrite ?decide_True by reflexivity; reflexivity.
  - cbn. now rewrite !decide_True.
Qed.

Lemma session_events_outputs this initialized run aborted nested :
  outputs_of this (session_events this initialized run aborted nested)
  = if initialized then writes_of (py_steps run) else [].
Proof.
  unfold session_events. destruct initialized; [ | reflexivity ].
  session_prefix. rewrite !outputs_of_app, steps_outputs.
  destruct (py_uncaught run), aborted, nested; cbn; now rewrite app_nil_r.
Qed.

Lemma session_events_executed this run aborted nested :
  executed_of (session_events this true run aborted nested)
  = statements_of (py_steps run).
Proof.
  unfold session_events. session_prefix.
  rewrite !executed_of_app, steps_executed.
  destruct (py_uncaught run), aborted, nested; cbn; now rewrite app_nil_r.
Qed.

Lemma count_outputs_other s texts :
  (forall text, s <> outputReceived text) ->
  length (filter (fun x => x = s) (map outputReceived texts)) = 0%nat.
Proof.
  intros Hs. induction texts as [ | t texts IH]; [ reflexivity | ].
  cbn [map]. rewrite filter_cons_False; [ exact IH | ].
  intros H. now apply (Hs t).
Qed.

(** How often a session emits a signal other than [outputReceived]. *)
Lemma session_signals this run aborted nested s :
  (forall text, s <> outputReceived text) ->
  count_signal this s (session_events this true run aborted nested)
  = length
      (filter (fun x => x = s)
         (executionStarted
          :: match py_uncaught run with
             | None => [executionFinished]
             | Some f =>
                 if nested
                 then [errorOccurred (fault_message (pending f));
                       executionFinished]
                 else []
             end)).
Proof.
  intros Hs. unfold count_signal.
  rewrite session_events_signals. unfold session_signals_of.
  change (executionStarted :: ?l ++ ?m) with ([executionStarted] ++ l ++ m).
  change (executionStarted :: ?m) with ([executionStarted] ++ m) at 2.
  rewrite !filter_app, !length_app, (count_outputs_other _ _ Hs).
  reflexivity.
Qed.

(** The log, the queue and the registration after a session, with or
    without an interpreter. *)
Lemma session_log this code run w r :
  runners w !! this = Some r ->
  registration_valid w -> callers_valid w (session_steps run) ->
  exists w',
    executePythonCodeSafely this code run w = (session_outcome w run, w')
    /\ log w'
       = log w ++ session_events this (m_initialized (pyManager w)) run
                    (m_shouldAbort r || aborts_of this (session_steps run))
                    (has_tstate w)
    /\ posted w'
       = posted w ++ (if m_initialized (pyManager w)
                      then run_notifications w (session_steps run) else [])
    /\ g_currentRunner w' = g_currentRunner w.
Proof.
  intros Hlive Hreg Hcall.
  destruct (m_initialized (pyManager w)) eqn:Hinit.
  - destruct (session_exact this code run w r Hlive Hreg Hcall Hinit)
      as (w' & Hrun & Hg & _ & _ & _ & Hq & Hl & _).
    exists w'. auto.
  - rewrite (session_uninitialized this code run w r Hlive Hinit).
    unfold session_outcome. rewrite Hinit.
    eexists. split; [ reflexivity | ].
    cbn [log posted g_currentRunner set_runners set_log].
    now rewrite app_nil_r.
Qed.

(** The members of the runners after a session. *)
Lemma session_runners this code run w r :
  runners w !! this = Some r ->
  registration_valid w -> callers_valid w (session_steps run) ->
  exists w',
    executePythonCodeSafely this code run w = (session_outcome w run, w')
    /\ runners w' !! this
       = Some {| m_isExecuting :=
                   match session_outcome w run with
                   | Some _ => false
                   | None => m_isExecuting r
                   end;
                 m_shouldAbort :=
                   m_shouldAbort r
                   || (m_initialized (pyManager w)
                       && aborts_of this (session_steps run));
                 m_executionDelay := m_executionDelay r;
                 m_currentLine := m_currentLine r;
                 m_debugState := m_debugState r;
                 m_breakpoints := m_breakpoints r;
                 m_callDepth := m_callDepth r |}
    /\ forall p, p <> this ->
         runners w' !! p
         = (if m_initialized (pyManager w) && aborts_of p (session_steps run)
            then set_shouldAbort true else id) <$> runners w !! p.
Proof.
  intros Hlive Hreg Hcall.
  destruct (m_initialized (pyManager w)) eqn:Hinit.
  - destruct (session_exact this code run w r Hlive Hreg Hcall Hinit)
      as (w' & Hrun & _ & _ & _ & _ & _ & _ & Hrs).
    exists w'. split; [ exact Hrun | ]. split.
    + rewrite Hrs. rewrite decide_True by reflexivity.
      rewrite after_aborts_members. cbn [andb].
      now destruct (session_outcome w run).
    + intros p Hp. rewrite Hrs. rewrite decide_False by exact Hp.
      unfold after_aborts. cbn [andb].
      destruct (aborts_of p (session_steps run)), (runners w !! p);
        reflexivity.
  - rewrite (session_uninitialized this code run w r Hlive Hinit).
    unfold session_outcome. rewrite Hinit.
    eexists. split; [ reflexivity | ]. cbn [runners set_runners set_log].
    split.
    + rewrite lookup_insert_eq. destruct r. cbn. now rewrite orb_false_r.
    + intros p Hp. rewrite lookup_insert_ne by congruence. cbn [andb].
      now destruct (runners w !! p).
Qed.

(** A session pauses nowhere: it announces no debug-state change and
    leaves the debug state of every runner alone. *)
Lemma session_no_pause_observed this code run w r :
  runners w !! this = Some r ->
  registration_valid w -> callers_valid w (session_steps run) ->
  exists w', executePythonCodeSafely this code run w
             = (session_outcome w run, w')
             /\ ~ pause_observed w w'.
Proof.
  intros Hlive Hreg Hcall.
  destruct (session_log this code run w r Hlive Hreg Hcall)
    as (w' & Hrun & Hlog & _).
  destruct (session_runners this code run w r Hlive Hreg Hcall)
    as (w'' & Hrun' & Hthis & Hothers).
  rewrite Hrun in Hrun'. injection Hrun' as <-.
  exists w'. split; [ exact Hrun | ].
  intros [Hex | (p & r0 & r0' & Hr0 & Hr0' & Hne & Hp)].
  - rewrite Hlog, drop_app_length in Hex.
    now apply (no_pause_not_Exists _ (session_no_pause _ _ _ _ _)) in Hex.
  - destruct (decide (p = this)) as [-> | Hpt].
    + rewrite Hthis in Hr0'. rewrite Hlive in Hr0.
      injection Hr0 as <-. injection Hr0' as <-. cbn in Hp. congruence.
    + rewrite (Hothers p Hpt), Hr0 in Hr0'. cbn in Hr0'.
      injection Hr0' as <-.
      destruct (_ && _) in Hp; cbn in Hp; congruence.
Qed.

(** ** Submitting code: [runCode] *)

Lemma runCode_accepted this code w r :
  runners w !! this = Some r ->
  m_isExecuting r = false ->
  runCode this code w
  = (Some tt,
     set_posted (posted w ++ [(this, CallExecute code)])
       (set_runners
          (<[this := set_isExecuting true (set_shouldAbort false r)]>
             (runners w)) w)).
Proof.
  intros Hr Hex. unfold runCode.
  rewrite (bind_Some _ _ _ _ _ (deref_live _ _ _ Hr)), Hex.
  rewrite (bind_Some _ _ _ _ _ (assign_live _ _ _ _ Hr)).
  erewrite bind_Some by (apply assign_live; apply lookup_insert_eq).
  erewrite invokeQueued_live by (apply lookup_insert_eq).
  unfold_setters. cbn. now rewrite insert_insert_eq.
Qed.

(** C4.  A [runCode] that arrives while [m_isExecuting] is set only logs the
    warning: the abort flag, the executing flag, the delay and every other
    member of every runner, the registered runner and the queue of posted
    runs are what they were. *)
Theorem runCode_rejected_while_executing this code w r :
  runners w !! this = Some r ->
  m_isExecuting r = true ->
  runCode this code w
  = (Some tt,
     set_log (log w ++ [QWarning "Code execution already in progress"]) w)
  /\ forall w', runCode this code w = (Some tt, w') ->
       runners w' = runners w /\ posted w' = posted w
       /\ g_currentRunner w' = g_currentRunner w
       /\ pyManager w' = pyManager w.
Proof.
  intros Hr Hex.
  assert (Heq : runCode this code w
                = (Some tt,
                   set_log (log w ++ [QWarning "Code execution already in progress"]) w)).
  { unfold runCode.
    now rewrite (bind_Some _ _ _ _ _ (deref_live _ _ _ Hr)), Hex. }
  split; [ exact Heq | ].
  intros w' Hw'. rewrite Heq in Hw'. injection Hw' as <-. now cbn.
Qed.

Lemma runCode_rejected_while_executing_witness :
  runCode 1 "print(2)" (one_runner true executing)
  = (Some tt,
     set_log [QWarning "Code execution already in progress"]
       (one_runner true executing)).
Proof.
  apply (runCode_rejected_while_executing 1 "print(2)"
           (one_runner true executing) executing); reflexivity.
Defined.

(** ** The worker's event loop *)

Lemma processEvent_run run w p code q :
  posted w = (p, CallExecute code) :: q ->
  processEvent run w = executePythonCodeSafely p code run (set_posted q w).
Proof.
  intros H. unfold processEvent, bind at 1, gets. rewrite H.
  now unfold bind at 1, modify.
Qed.

Lemma processEvent_line run w p n q c rc :
  posted w = (p, EmitLineExecuted n) :: q ->
  g_currentRunner w = Some c ->
  runners w !! c = Some rc ->
  processEvent run w
  = (Some tt, set_log (log w ++ [Emit c (lineExecuted n)]) (set_posted q w)).
Proof.
  intros H Hg Hc. unfold processEvent, bind at 1, gets. rewrite H.
  unfold bind at 1, modify. unfold bind, gets.
  cbn [g_currentRunner set_posted]. rewrite Hg.
  now erewrite emit_live by exact Hc.
Qed.

(** ** Sessions *)

(** C1.  With the interpreter not initialised, an accepted submission makes
    the worker emit [executionStarted] and [errorOccurred] and nothing
    else: no [executionFinished] follows, although a session of an
    initialised interpreter that comes back has emitted it exactly once
    ([finished_session_emits_executionFinished_once]). *)
Theorem uninitialized_run_emits_no_executionFinished this code run w r :
  runners w !! this = Some r ->
  m_isExecuting r = false ->
  posted w = [] ->
  m_initialized (pyManager w) = false ->
  exists w',
    (runCode this code ;; processEvent run) w = (Some tt, w')
    /\ log w' = log w ++ [Emit this executionStarted;
                          Emit this (errorOccurred
                            "Execution error: Python interpreter not initialized")]
    /\ count_signal this executionFinished (log w')
       = count_signal this executionFinished (log w)
    /\ posted w' = [].
Proof.
  intros Hr Hex Hq Hinit.
  rewrite (bind_Some _ _ _ _ _ (runCode_accepted _ _ _ _ Hr Hex)).
  erewrite processEvent_run by (cbn [posted set_posted]; now rewrite Hq).
  erewrite session_uninitialized;
    [ | cbn [runners set_posted set_runners]; apply lookup_insert_eq
      | exact Hinit ].
  eexists. split; [ reflexivity | ].
  cbn [log posted set_runners set_log set_posted].
  split; [ reflexivity | ]. split; [ | reflexivity ].
  rewrite count_signal_app.
  rewrite !count_signal_emit_ne by discriminate. cbn. lia.
Qed.

Lemma uninitialized_run_emits_no_executionFinished_witness :
  exists w',
    (runCode 1 "print(1)" ;; processEvent writes_ABC)
      (one_runner false CodeRunner_init) = (Some tt, w')
    /\ log w' = [Emit 1 executionStarted;
                 Emit 1 (errorOccurred
                   "Execution error: Python interpreter not initialized")]
    /\ count_signal 1 executionFinished (log w') = 0%nat
    /\ posted w' = [].
Proof.
  apply (uninitialized_run_emits_no_executionFinished 1 "print(1)" writes_ABC
           (one_runner false CodeRunner_init) CodeRunner_init); reflexivity.
Defined.

(** The worker runs [executePythonCodeSafely(code)] on the live runner
    [this]; [run] is what the interpreter makes of [code], and the process
    is well formed. *)
Section Session.

Variables (this : addr) (code : string) (run : PyRun).
Variables (w : World) (r : CodeRunner).
Hypothesis Hlive : runners w !! this = Some r.
Hypothesis Hreg : registration_valid w.
Hypothesis Hcall : callers_valid w (session_steps run).

(** A session of an initialised interpreter that comes back (the program
    returned, aborted or not) has emitted [executionFinished] exactly
    once. *)
Lemma finished_session_emits_executionFinished_once :
  m_initialized (pyManager w) = true ->
  py_uncaught run = None ->
  exists w',
    executePythonCodeSafely this code run w = (Some tt, w')
    /\ count_signal this executionFinished (log w')
       = S (count_signal this executionFinished (log w)).
Proof.
  intros Hinit Hunc.
  destruct (session_log this code run w r Hlive Hreg Hcall)
    as (w' & Hrun & Hlog & _).
  exists w'. split.
  - rewrite Hrun. unfold session_outcome. now rewrite Hinit, Hunc.
  - rewrite Hlog, Hinit, count_signal_app, session_signals by discriminate.
    rewrite Hunc, filter_cons_False by discriminate.
    rewrite filter_cons_True by reflexivity. cbn. lia.
Qed.

(** C8.  A session that comes back has cleared [m_isExecuting], and the
    next [runCode] is accepted: it logs no warning, sets the flag and posts
    the run.  A session whose program ends in an uncaught exception does
    not come back when the worker had no Python thread state of its own:
    the handler releases the lock, which destroys the thread state
    [PyGILState_Ensure] created, and then asks the interpreter for the
    error indicator.  The process dies there, before [errorOccurred], before
    [executionFinished] and with [m_isExecuting] as [runCode] left it. *)
Theorem uncaught_exception_ends_the_process :
  (session_outcome w run = Some tt ->
   exists w' r',
     executePythonCodeSafely this code run w = (Some tt, w')
     /\ runners w' !! this = Some r'
     /\ m_isExecuting r' = false
     /\ forall code', exists w'' r'',
          runCode this code' w' = (Some tt, w'')
          /\ log w'' = log w'
          /\ posted w'' = posted w' ++ [(this, CallExecute code')]
          /\ runners w'' !! this = Some r''
          /\ m_isExecuting r'' = true /\ m_shouldAbort r'' = false)
  /\ (m_initialized (pyManager w) = true ->
      tstate w = None ->
      is_Some (py_uncaught run) ->
      exists w' r',
        executePythonCodeSafely this code run w = (None, w')
        /\ runners w' !! this = Some r'
        /\ m_isExecuting r' = m_isExecuting r
        /\ tstate w' = None
        /\ count_signal this executionFinished (log w')
           = count_signal this executionFinished (log w)
        /\ forall error,
             count_signal this (errorOccurred error) (log w')
             = count_signal this (errorOccurred error) (log w)).
Proof.
  destruct (session_runners this code run w r Hlive Hreg Hcall)
    as (w' & Hrun & Hr' & _).
  split.
  - intros Hout. rewrite Hout in *.
    eexists w', _. split; [ exact Hrun | ]. split; [ exact Hr' | ].
    split; [ reflexivity | ].
    intros code'. rewrite (runCode_accepted _ _ _ _ Hr' eq_refl).
    eexists _, _. split; [ reflexivity | ]. cbn [log posted runners].
    split; [ reflexivity | ]. split; [ reflexivity | ].
    split; [ apply lookup_insert_eq | ]. split; reflexivity.
  - intros Hinit Hts [f Hunc].
    assert (Hout : session_outcome w run = None).
    { unfold session_outcome. now rewrite Hinit, Hunc, Hts. }
    rewrite Hout in *.
    destruct (session_exact this code run w r Hlive Hreg Hcall Hinit)
      as (w'' & Hrun' & _ & _ & _ & Ht' & _ & Hlog & _).
    rewrite Hout, Hrun in Hrun'. injection Hrun' as <-.
    eexists w', _. split; [ exact Hrun | ]. split; [ exact Hr' | ].
    split; [ reflexivity | ].
    split; [ now rewrite Ht', Hts | ].
    assert (Hcount : forall s, (forall text, s <> outputReceived text) ->
               s <> executionStarted ->
               count_signal this s (log w') = count_signal this s (log w)).
    { intros s Hs Hstart.
      rewrite Hlog, count_signal_app, (session_signals _ _ _ _ _ Hs).
      unfold has_tstate. rewrite Hunc, Hts.
      rewrite filter_cons_False by congruence. cbn. lia. }
    split; [ | intros error ]; apply Hcount; discriminate.
Qed.

(** C7.  The texts a session delivers through [outputReceived] are the
    chunks the program wrote, one signal per write, in the order of the
    writes; a session that finds the interpreter uninitialised runs nothing
    and delivers nothing. *)
Theorem outputReceived_in_emission_order :
  exists w',
    executePythonCodeSafely this code run w = (session_outcome w run, w')
    /\ outputs_of this (log w')
       = outputs_of this (log w)
         ++ (if m_initialized (pyManager w) then writes_of (py_steps run)
             else []).
Proof.
  destruct (session_log this code run w r Hlive Hreg Hcall)
    as (w' & Hrun & Hlog & _).
  exists w'. split; [ exact Hrun | ].
  now rewrite Hlog, outputs_of_app, session_events_outputs.
Qed.

(** C3.  The abort flag stops nothing.  With the flag set the trace callback
    returns 0 and leaves the process as it was, error indicator included: it
    raises no interrupt.  And in a session every statement of the program
    runs, those after a call of [abortExecution] too, however many they
    are. *)
Theorem abort_does_not_interrupt before after :
  m_initialized (pyManager w) = true ->
  py_steps run = before ++ CallerAbort this :: after ->
  (forall w0 r0 obj frame event arg,
      g_currentRunner w0 = Some this -> runners w0 !! this = Some r0 ->
      m_shouldAbort r0 = true ->
      pythonTraceFunction obj frame event arg w0 = (Some 0, w0))
  /\ exists w',
       executePythonCodeSafely this code run w = (session_outcome w run, w')
       /\ executed_of (log w')
          = executed_of (log w) ++ statements_of before ++ statements_of after.
Proof.
  intros Hinit Hsteps. split.
  - intros w0 r0 obj frame event arg Hg Hr0 Hab.
    rewrite (pythonTraceFunction_live _ _ _ _ _ _ _ Hg Hr0).
    now rewrite trace_post_aborted.
  - destruct (session_log this code run w r Hlive Hreg Hcall)
      as (w' & Hrun & Hlog & _).
    exists w'. split; [ exact Hrun | ].
    rewrite Hlog, Hinit, executed_of_app, session_events_executed.
    now rewrite Hsteps, statements_of_app.
Qed.

End Session.

Lemma uncaught_exception_ends_the_process_witness :
  exists w' r',
    executePythonCodeSafely 1 "1/0" faulty (one_runner true executing)
    = (None, w')
    /\ runners w' !! 1%positive = Some r'
    /\ m_isExecuting r' = true
    /\ tstate w' = None
    /\ count_signal 1 executionFinished (log w') = 0%nat
    /\ forall error, count_signal 1 (errorOccurred error) (log w') = 0%nat.
Proof.
  destruct (uncaught_exception_ends_the_process 1 "1/0" faulty
              (one_runner true executing) executing) as [_ Hdies].
  - reflexivity.
  - exists executing. reflexivity.
  - repeat constructor.
  - apply Hdies; [ reflexivity | reflexivity | ]. eexists. reflexivity.
Defined.

Lemma outputReceived_in_emission_order_witness :
  exists w',
    executePythonCodeSafely 1 "print(...)" writes_ABC
      (one_runner true executing) = (Some tt, w')
    /\ outputs_of 1 (log w') = ["A"; "B"; "C"].
Proof.
  apply (outputReceived_in_emission_order 1 "print(...)" writes_ABC
           (one_runner true executing) executing).
  - reflexivity.
  - exists executing. reflexivity.
  - repeat constructor.
Defined.

Lemma abort_does_not_interrupt_witness :
  exists w',
    executePythonCodeSafely 1 "print(...)" aborted_ABC
      (one_runner true executing) = (Some tt, w')
    /\ executed_of (log w') = [1; 2; 3].
Proof.
  assert (Hreg : registration_valid (one_runner true executing))
    by (exists executing; reflexivity).
  assert (Hcall : callers_valid (one_runner true executing)
                    (session_steps aborted_ABC))
    by (repeat constructor; exists executing; reflexivity).
  destruct (abort_does_not_interrupt 1 "print(...)" aborted_ABC
              (one_runner true executing) executing eq_refl Hreg Hcall
              [] (py_steps writes_ABC) eq_refl eq_refl) as [_ Hrun].
  exact Hrun.
Defined.

(** ** The trace callback and the registered runner *)

(** C6.  The trace callback returns 0 whenever it returns; it does return
    when [g_currentRunner] is null or points to a live runner, and then it
    logs nothing and leaves the thread state, the error indicator with it,
    alone; with a null [g_currentRunner] it changes nothing at all. *)
Theorem pythonTraceFunction_returns_0 obj frame event arg w :
  (forall result w',
      pythonTraceFunction obj frame event arg w = (Some result, w') ->
      result = 0)
  /\ (registration_valid w ->
      exists w', pythonTraceFunction obj frame event arg w = (Some 0, w')
                 /\ log w' = log w /\ tstate w' = tstate w
                 /\ runners w' = runners w)
  /\ (g_currentRunner w = None ->
      pythonTraceFunction obj frame event arg w = (Some 0, w)).
Proof.
  split; [ apply pythonTraceFunction_result | ].
  split; [ apply pythonTraceFunction_valid | apply pythonTraceFunction_null ].
Qed.

Lemma pythonTraceFunction_returns_0_witness :
  pythonTraceFunction None (Some (line 3)) PyTrace_LINE None
    (set_g_currentRunner None (one_runner true CodeRunner_init))
  = (Some 0, set_g_currentRunner None (one_runner true CodeRunner_init)).
Proof.
  apply (pythonTraceFunction_returns_0 None (Some (line 3)) PyTrace_LINE None
           (set_g_currentRunner None (one_runner true CodeRunner_init))).
  reflexivity.
Defined.

(** C10.  The constructor makes the new object the registered runner,
    whatever was registered before, so that the trace callback posts its
    line notifications to the new object; the destructor sets the abort flag
    of its object and nothing else, and after [delete] the registration is
    what it was, even when it points to the deleted object. *)
Theorem constructor_registers_destructor_does_not_unregister w :
  (exists this w',
      CodeRunner_ctor w = (Some this, w')
      /\ (forall first, live w first -> this <> first)
      /\ runners w' !! this = Some CodeRunner_init
      /\ g_currentRunner w' = Some this
      /\ forall obj f event arg,
           pythonTraceFunction obj (Some f) event arg w'
           = (Some 0,
              set_posted
                (posted w' ++ [(this, EmitLineExecuted (f_lineno f))]) w'))
  /\ (forall this r,
        runners w !! this = Some r ->
        CodeRunner_dtor this w
        = (Some tt,
           set_runners (<[this := set_shouldAbort true r]> (runners w)) w)
        /\ exists w',
             CodeRunner_delete this w = (Some tt, w')
             /\ g_currentRunner w' = g_currentRunner w
             /\ runners w' !! this = None).
Proof.
  split.
  - eexists _, _. split; [ reflexivity | ].
    split; [ | split; [ apply lookup_insert_eq | split; [ reflexivity | ] ] ].
    + intros first [r Hr] Heq.
      apply (is_fresh (dom (runners w))). rewrite Heq.
      apply elem_of_dom. eauto.
    + intros obj f event arg.
      erewrite pythonTraceFunction_live;
        [ | reflexivity | apply lookup_insert_eq ]; reflexivity.
  - intros this r Hr.
    assert (Hd : CodeRunner_dtor this w
                 = (Some tt,
                    set_runners
                      (<[this := set_shouldAbort true r]> (runners w)) w)).
    { unfold CodeRunner_dtor, abortExecution. now apply assign_live. }
    split; [ exact Hd | ].
    unfold CodeRunner_delete. rewrite (bind_Some _ _ _ _ _ Hd).
    eexists. split; [ reflexivity | ]. cbn. split; [ reflexivity | ].
    apply lookup_delete_eq.
Qed.

Lemma constructor_registers_destructor_does_not_unregister_witness :
  exists w',
    CodeRunner_delete 1 (one_runner true CodeRunner_init) = (Some tt, w')
    /\ g_currentRunner w' = Some 1%positive
    /\ runners w' !! 1%positive = None.
Proof.
  destruct (constructor_registers_destructor_does_not_unregister
              (one_runner true CodeRunner_init)) as [_ Hdestroy].
  destruct (Hdestroy 1%positive CodeRunner_init eq_refl) as [_ Hdelete].
  exact Hdelete.
Defined.

(** ** Breakpoints and stepping *)

Lemma no_pause_same w w' :
  log w' = log w -> runners w' = runners w -> ~ pause_observed w w'.
Proof.
  intros Hl Hrs [Hex | (p & r & r' & Hr & Hr' & Hne & Hp)].
  - rewrite Hl, drop_all in Hex. now apply Exists_nil in Hex.
  - rewrite Hrs, Hr in Hr'. congruence.
Qed.

Lemma pythonTraceFunction_no_pause obj frame event arg w :
  registration_valid w ->
  exists w', pythonTraceFunction obj frame event arg w = (Some 0, w')
             /\ runners w' = runners w /\ log w' = log w
             /\ ~ pause_observed w w'.
Proof.
  intros Hreg.
  destruct (pythonTraceFunction_valid obj frame event arg w Hreg)
    as (w' & Hrun & Hl & _ & Hrs).
  exists w'. auto using no_pause_same.
Qed.

(** Writing a member of a live runner keeps every runner alive. *)
Lemma update_live w this r r1 p :
  runners w !! this = Some r ->
  live w p -> live (set_runners (<[this := r1]> (runners w)) w) p.
Proof.
  intros Hr Hp. unfold live. cbn [runners set_runners].
  destruct (decide (p = this)) as [-> | Hne];
    [ rewrite lookup_insert_eq; eauto | now rewrite lookup_insert_ne ].
Qed.

Lemma update_registration w this r r1 :
  runners w !! this = Some r ->
  registration_valid w ->
  registration_valid (set_runners (<[this := r1]> (runners w)) w).
Proof.
  intros Hr. unfold registration_valid. cbn [g_currentRunner set_runners].
  destruct (g_currentRunner w); [ now apply update_live with r | trivial ].
Qed.

Lemma update_callers w this r r1 steps :
  runners w !! this = Some r ->
  callers_valid w steps ->
  callers_valid (set_runners (<[this := r1]> (runners w)) w) steps.
Proof.
  intros Hr Hc. eapply Forall_impl; [ exact Hc | ].
  intros [ | | | p]; trivial. now apply update_live with r.
Qed.

(** C2.  A breakpoint pauses nothing.  After [setBreakpoints(B)] on a
    runner in state [Running], the line event of a statement whose line is
    in [B] makes the trace callback return 0 with every runner and the log
    as they were, and a whole session runs every statement of its program
    without a pause: no debug-state change is announced, no runner enters
    [Paused], and the runner is still [Running] with breakpoint set [B]
    afterwards. *)
Theorem breakpoint_does_not_pause_the_session this code run w r B :
  runners w !! this = Some r ->
  registration_valid w -> callers_valid w (session_steps run) ->
  m_initialized (pyManager w) = true ->
  m_debugState r = Running ->
  exists w1,
    setBreakpoints this B w = (Some tt, w1)
    /\ (forall obj frame arg,
          PyFrame_GetLineNumber frame ∈ B ->
          exists w0,
            pythonTraceFunction obj (Some frame) PyTrace_LINE arg w1
            = (Some 0, w0)
            /\ runners w0 = runners w1 /\ log w0 = log w1
            /\ ~ pause_observed w1 w0)
    /\ exists w' r',
         executePythonCodeSafely this code run w1
         = (session_outcome w run, w')
         /\ executed_of (log w')
            = executed_of (log w) ++ statements_of (py_steps run)
         /\ ~ pause_observed w1 w'
         /\ runners w' !! this = Some r'
         /\ m_breakpoints r' = B
         /\ m_debugState r' = Running.
Proof.
  intros Hr Hreg Hcall Hinit Hstate.
  unfold setBreakpoints. rewrite (assign_live _ _ _ _ Hr).
  set (r1 := set_breakpoints B r).
  set (w1 := set_runners (<[this := r1]> (runners w)) w).
  assert (Hr1 : runners w1 !! this = Some r1) by apply lookup_insert_eq.
  assert (Hreg1 : registration_valid w1) by now apply update_registration with r.
  assert (Hcall1 : callers_valid w1 (session_steps run))
    by now apply update_callers with r.
  exists w1. split; [ reflexivity | ]. split.
  - intros obj frame arg _. now apply pythonTraceFunction_no_pause.
  - destruct (session_log this code run w1 r1 Hr1 Hreg1 Hcall1)
      as (w' & Hrun & Hlog & _).
    destruct (session_runners this code run w1 r1 Hr1 Hreg1 Hcall1)
      as (w'' & Hrun' & Hthis & _).
    rewrite Hrun in Hrun'. injection Hrun' as <-.
    destruct (session_no_pause_observed this code run w1 r1 Hr1 Hreg1 Hcall1)
      as (w'' & Hrun' & Hno).
    rewrite Hrun in Hrun'. injection Hrun' as <-.
    eexists w', _. split; [ exact Hrun | ].
    split; [ | split; [ exact Hno | split; [ exact Hthis | ] ] ].
    + rewrite Hlog. change (pyManager w1) with (pyManager w).
      now rewrite Hinit, executed_of_app, session_events_executed.
    + split; [ reflexivity | exact Hstate ].
Qed.

Lemma breakpoint_does_not_pause_the_session_witness :
  3 ∈ breakpoint_on_3
  /\ exists w1,
       setBreakpoints 1 breakpoint_on_3 (one_runner true executing)
       = (Some tt, w1)
       /\ (forall obj frame arg,
             PyFrame_GetLineNumber frame ∈ breakpoint_on_3 ->
             exists w0,
               pythonTraceFunction obj (Some frame) PyTrace_LINE arg w1
               = (Some 0, w0)
               /\ runners w0 = runners w1 /\ log w0 = log w1
               /\ ~ pause_observed w1 w0)
       /\ exists w' r',
            executePythonCodeSafely 1 "print(...)" writes_ABC w1
            = (Some tt, w')
            /\ executed_of (log w') = [1; 2; 3]
            /\ ~ pause_observed w1 w'
            /\ runners w' !! 1%positive = Some r'
            /\ m_breakpoints r' = breakpoint_on_3
            /\ m_debugState r' = Running.
Proof.
  split.
  - unfold breakpoint_on_3, PyEditor.toggleBreakpoint. cbn.
    apply elem_of_union_r, elem_of_singleton. reflexivity.
  - apply (breakpoint_does_not_pause_the_session 1 "print(...)" writes_ABC
             (one_runner true executing) executing breakpoint_on_3).
    + reflexivity.
    + exists executing. reflexivity.
    + repeat constructor.
    + reflexivity.
    + reflexivity.
Defined.




(** * Further properties of the code *)

(** ** The order of the signals of a session *)



(** ** The interpreter lock *)

Lemma gil_depth_app l1 l2 : forall held,
  gil_depth held (l1 ++ l2)
  = match gil_depth held l1 with
    | Some h => gil_depth h l2
    | None => None
    end.
Proof.
  induction l1 as [ | e l1 IH]; intros held; [ reflexivity | ].
  destruct e; cbn; try apply IH. destruct held; [ reflexivity | apply IH ].
Qed.

Lemma steps_gil_depth callback redirected steps held :
  gil_depth held (flat_map (step_events callback redirected) steps)
  = Some held.
Proof.
  induction steps as [ | st steps IH]; [ reflexivity | ].
  cbn [flat_map]. rewrite gil_depth_app.
  destruct st as [frame | frame event | text | p]; cbn; try exact IH.
  destruct redirected; [ destruct callback | ]; cbn; exact IH.
Qed.

Lemma session_events_gil_depth this initialized run aborted nested held :
  gil_depth held (session_events this initialized run aborted nested)
  = Some held.
Proof.
  unfold session_events. destruct initialized; [ | reflexivity ].
  cbn. rewrite gil_depth_app, steps_gil_depth.
  destruct (py_uncaught run), aborted, nested; reflexivity.
Qed.

(** X2.  Every acquisition of the interpreter lock in a session is followed
    by its release: whatever depth the lock has when the session starts,
    no release finds it free and the depth is the same after the last event
    of the session, whether the program returned or raised (the two
    releases of that path precede the handler's use of the interpreter) and
    without an interpreter, where the lock is not touched. *)
Theorem session_releases_the_lock this code run w r held :
  runners w !! this = Some r ->
  registration_valid w -> callers_valid w (session_steps run) ->
  exists w' events,
    executePythonCodeSafely this code run w = (session_outcome w run, w')
    /\ log w' = log w ++ events
    /\ gil_depth held events = Some held.
Proof.
  intros Hlive Hreg Hcall.
  destruct (session_log this code run w r Hlive Hreg Hcall)
    as (w' & Hrun & Hlog & _).
  eexists _, _. split; [ exact Hrun | ]. split; [ exact Hlog | ].
  apply session_events_gil_depth.
Qed.

Lemma session_releases_the_lock_witness :
  exists w' events,
    executePythonCodeSafely 1 "print(...)" writes_ABC
      (one_runner true executing) = (Some tt, w')
    /\ log w' = events
    /\ gil_depth 0 events = Some 0%nat.
Proof.
  apply (session_releases_the_lock 1 "print(...)" writes_ABC
           (one_runner true executing) executing 0%nat).
  - reflexivity.
  - exists executing. reflexivity.
  - repeat constructor.
Defined.

(** ** What a session leaves behind *)



(** X4.  When the program returns, the abort flag decides one thing only:
    whether [PyErr_SetString] puts [KeyboardInterrupt] into the error
    indicator after the trace function has been removed.  The flag at that
    moment is the flag at the start or an [abortExecution] during the
    session.  On a worker without a thread state of its own the
    [PyGILState_Release] that follows destroys the indicator with the
    thread state; nothing is thrown, and the signals are those of a run
    that was not aborted. *)
Theorem abort_indicator_dies_with_the_thread_state this code run w r :
  runners w !! this = Some r ->
  registration_valid w -> callers_valid w (session_steps run) ->
  m_initialized (pyManager w) = true ->
  py_uncaught run = None ->
  tstate w = None ->
  exists w' before,
    executePythonCodeSafely this code run w = (Some tt, w')
    /\ log w'
       = log w ++ before
         ++ [SetTrace false]
         ++ (if m_shouldAbort r || aborts_of this (session_steps run)
             then [ErrSetString "KeyboardInterrupt" "User aborted execution"]
             else [])
         ++ [GilRelease; Emit this executionFinished]
    /\ tstate w' = None
    /\ signals_of this (log w')
       = signals_of this (log w)
         ++ executionStarted
            :: map outputReceived (writes_of (py_steps run))
            ++ [executionFinished].
Proof.
  intros Hlive Hreg Hcall Hinit Hunc Hts.
  destruct (session_exact this code run w r Hlive Hreg Hcall Hinit)
    as (w' & Hrun & _ & _ & _ & Ht & _ & Hlog & _).
  assert (Hout : session_outcome w run = Some tt).
  { unfold session_outcome. now rewrite Hinit, Hunc. }
  rewrite Hout in Hrun.
  exists w',
    ([Emit this executionStarted; GilAcquire; SetTrace true; GilAcquire;
      QDebug "Python output redirection configured successfully";
      GilRelease; GilAcquire]
     ++ flat_map (step_events (Some this) true) (py_steps run)
     ++ [GilRelease]).
  split; [ exact Hrun | ].
  split; [ | split ].
  - rewrite Hlog. unfold session_events, has_tstate. rewrite Hunc.
    now rewrite <- !app_assoc.
  - now rewrite Ht, Hts.
  - rewrite Hlog, signals_of_app, session_events_signals.
    unfold session_signals_of. now rewrite Hunc.
Qed.

Lemma abort_indicator_dies_with_the_thread_state_witness :
  exists w' before,
    executePythonCodeSafely 1 "print(...)" aborted_ABC
      (one_runner true executing) = (Some tt, w')
    /\ log w'
       = before
         ++ [SetTrace false;
             ErrSetString "KeyboardInterrupt" "User aborted execution";
             GilRelease; Emit 1%positive executionFinished]
    /\ tstate w' = None
    /\ signals_of 1 (log w')
       = [executionStarted; outputReceived "A"; outputReceived "B";
          outputReceived "C"; executionFinished].
Proof.
  apply (abort_indicator_dies_with_the_thread_state 1 "print(...)"
           aborted_ABC (one_runner true executing) executing).
  - reflexivity.
  - exists executing. reflexivity.
  - repeat constructor. exists executing. reflexivity.
  - reflexivity.
  - reflexivity.
  - reflexivity.
Defined.

(** ** The line notifications *)

Lemma notifications_lines g steps : forall aborted,
  Forall is_line (notifications g aborted steps).
Proof.
  induction steps as [ | s steps IH]; intros aborted; [ constructor | ].
  destruct s as [f | [f | ] ev | t | p]; cbn [notifications]; auto;
    destruct aborted; cbn [app]; auto; constructor; auto; exact I.
Qed.

Lemma processEvents_lines run c rc q : forall w,
  posted w = q -> Forall is_line q ->
  g_currentRunner w = Some c -> runners w !! c = Some rc ->
  processEvents (length q) run w
  = (Some tt,
     set_log (log w ++ map (fun n => Emit c (lineExecuted n)) (lines_of q))
       (set_posted [] w)).
Proof.
  induction q as [ | [p [code | n]] q IH]; intros w Hq Hall Hg Hc.
  - destruct w. cbn in *. subst. now rewrite app_nil_r.
  - inversion Hall as [ | ? ? Hx ?]. exact (False_ind _ Hx).
  - inversion Hall as [ | ? ? _ Hall']; subst.
    cbn [length processEvents].
    rewrite (bind_Some _ _ _ _ _ (processEvent_line run w p n q c rc Hq Hg Hc)).
    rewrite IH; [ | reflexivity | exact Hall' | exact Hg | exact Hc ].
    destruct w. unfold_setters. cbn. now rewrite <- app_assoc.
Qed.

Lemma signals_of_lines p ls :
  signals_of p (map (fun n => Emit p (lineExecuted n)) ls) = map lineExecuted ls.
Proof.
  induction ls as [ | n ls IH]; [ reflexivity | ].
  cbn. case_decide; [ | congruence ]. now rewrite IH.
Qed.

(** X5.  The line notifications of a run are delivered after the run: from
    an idle registered runner, accepting a submission, running a program
    that returns and then delivering what the trace callback posted emits
    the session's signals up to [executionFinished] first and the
    [lineExecuted] signals afterwards, one for every trace event with a
    frame before an abort, in order: those of the Python code of
    [redirectPythonOutput] first, then those of the program and of the
    frames it enters. *)
Theorem lineExecuted_follows_executionFinished this code run w r :
  runners w !! this = Some r ->
  m_isExecuting r = false ->
  g_currentRunner w = Some this ->
  posted w = [] ->
  callers_valid w (session_steps run) ->
  m_initialized (pyManager w) = true ->
  py_uncaught run = None ->
  exists w',
    (runCode this code ;; processEvent run ;;
     processEvents (length (notifications this false (session_steps run))) run)
      w
    = (Some tt, w')
    /\ signals_of this (log w')
       = signals_of this (log w)
         ++ executionStarted
            :: map outputReceived (writes_of (py_steps run))
            ++ executionFinished
            :: map lineExecuted
                 (lines_of (notifications this false (session_steps run)))
    /\ posted w' = [].
Proof.
  intros Hr Hidle Hg Hq Hcall Hinit Hunc.
  rewrite (bind_Some _ _ _ _ _ (runCode_accepted this code w r Hr Hidle)).
  set (r1 := set_isExecuting true (set_shouldAbort false r)).
  unfold bind at 1.
  erewrite processEvent_run by (cbn [posted set_posted]; now rewrite Hq).
  match goal with |- context [executePythonCodeSafely this code run ?x] =>
    set (w1 := x) end.
  assert (Hr1 : runners w1 !! this = Some r1) by apply lookup_insert_eq.
  assert (Hreg1 : registration_valid w1).
  { unfold registration_valid.
    change (g_currentRunner w1) with (g_currentRunner w). rewrite Hg.
    exists r1. exact Hr1. }
  assert (Hcall1 : callers_valid w1 (session_steps run)).
  { eapply Forall_impl; [ exact Hcall | ]. intros [ | | | p]; auto.
    intros Hp. apply (update_live w this r r1 p Hr) in Hp. exact Hp. }
  destruct (session_log this code run w1 r1 Hr1 Hreg1 Hcall1)
    as (w2 & Hrun & Hlog & Hpost & Hg2).
  destruct (session_runners this code run w1 r1 Hr1 Hreg1 Hcall1)
    as (w2' & Hrun' & Hr2 & _).
  rewrite Hrun in Hrun'. injection Hrun' as <-.
  assert (Hout : session_outcome w1 run = Some tt).
  { unfold session_outcome. now rewrite Hunc; destruct (m_initialized _). }
  rewrite Hout in Hrun. rewrite Hrun.
  change (pyManager w1) with (pyManager w) in *. rewrite Hinit in *.
  assert (Hq2 : posted w2 = notifications this false (session_steps run)).
  { rewrite Hpost. unfold run_notifications.
    change (g_currentRunner w1) with (g_currentRunner w). rewrite Hg, Hr1.
    reflexivity. }
  change (g_currentRunner w1) with (g_currentRunner w) in Hg2.
  rewrite Hg in Hg2.
  rewrite (processEvents_lines run this _ _ w2 Hq2
             (notifications_lines _ _ _) Hg2 Hr2).
  eexists. split; [ reflexivity | ]. split; [ | reflexivity ].
  cbn [log set_log set_posted].
  rewrite Hlog, !signals_of_app, session_events_signals, signals_of_lines.
  unfold session_signals_of. rewrite Hunc.
  change (log w1) with (log w).
  repeat first [ rewrite <- app_assoc | progress cbn [app] ]. reflexivity.
Qed.

Lemma lineExecuted_follows_executionFinished_witness :
  exists w',
    (runCode 1 "print(...)" ;; processEvent writes_ABC ;;
     processEvents 26 writes_ABC) (one_runner true CodeRunner_init)
    = (Some tt, w')
    /\ signals_of 1 (log w')
       = [executionStarted; outputReceived "A"; outputReceived "B";
          outputReceived "C"; executionFinished]
         ++ map lineExecuted
              [1; 2; 2; 2; 3; 6; 9; 9; 2; 3; 4; 4;
               1; 1; 6; 7; 7; 2; 6; 7; 7; 3; 6; 7; 7; 3]
    /\ posted w' = [].
Proof.
  apply (lineExecuted_follows_executionFinished 1 "print(...)" writes_ABC
           (one_runner true CodeRunner_init) CodeRunner_init).
  - reflexivity.
  - reflexivity.
  - reflexivity.
  - reflexivity.
  - repeat constructor.
  - reflexivity.
  - reflexivity.
Defined.

(** ** The members of the runners across a session *)



(** X7.  The execution delay is stored and never read: a session run after
    [setExecutionDelay] with any value ends the same way, produces the same
    events and posts the same notifications as the session run without the
    call; the value is still stored in the runner afterwards. *)
Theorem execution_delay_does_not_pace_a_session this code run w r d :
  runners w !! this = Some r ->
  registration_valid w -> callers_valid w (session_steps run) ->
  exists w1 w' w1',
    setExecutionDelay this d w = (Some tt, w1)
    /\ executePythonCodeSafely this code run w
       = (session_outcome w run, w')
    /\ executePythonCodeSafely this code run w1
       = (session_outcome w run, w1')
    /\ log w1' = log w'
    /\ posted w1' = posted w'
    /\ m_executionDelay <$> runners w1' !! this = Some d.
Proof.
  intros Hlive Hreg Hcall.
  unfold setExecutionDelay. rewrite (assign_live _ _ _ _ Hlive).
  set (r1 := set_executionDelay d r).
  set (w1 := set_runners (<[this := r1]> (runners w)) w).
  assert (Hr1 : runners w1 !! this = Some r1) by apply lookup_insert_eq.
  assert (Hreg1 : registration_valid w1)
    by now apply update_registration with r.
  assert (Hcall1 : callers_valid w1 (session_steps run))
    by now apply update_callers with r.
  destruct (session_log this code run w r Hlive Hreg Hcall)
    as (w' & Hrun & Hlog & Hq & _).
  destruct (session_log this code run w1 r1 Hr1 Hreg1 Hcall1)
    as (w1' & Hrun1 & Hlog1 & Hq1 & _).
  destruct (session_runners this code run w1 r1 Hr1 Hreg1 Hcall1)
    as (w1'' & Hrun1' & Hd & _).
  rewrite Hrun1 in Hrun1'. injection Hrun1' as <-.
  exists w1, w', w1'. split; [ reflexivity | ]. split; [ exact Hrun | ].
  split; [ exact Hrun1 | ]. split; [ | split ].
  - rewrite Hlog1, Hlog. reflexivity.
  - rewrite Hq1, Hq. change (posted w1) with (posted w).
    change (m_initialized (pyManager w1)) with (m_initialized (pyManager w)).
    f_equal. destruct (m_initialized (pyManager w)); [ | reflexivity ].
    unfold run_notifications.
    change (g_currentRunner w1) with (g_currentRunner w).
    destruct (g_currentRunner w) as [g | ]; [ | reflexivity ].
    subst w1. cbn [runners set_runners].
    destruct (decide (g = this)) as [-> | Hne].
    + now rewrite lookup_insert_eq, Hlive.
    + now rewrite lookup_insert_ne by congruence.
  - now rewrite Hd.
Qed.

Lemma execution_delay_does_not_pace_a_session_witness :
  exists w1 w' w1',
    setExecutionDelay 1 500 (one_runner true executing) = (Some tt, w1)
    /\ executePythonCodeSafely 1 "print(...)" writes_ABC
         (one_runner true executing) = (Some tt, w')
    /\ executePythonCodeSafely 1 "print(...)" writes_ABC w1 = (Some tt, w1')
    /\ log w1' = log w'
    /\ posted w1' = posted w'
    /\ m_executionDelay <$> runners w1' !! 1%positive = Some 500.
Proof.
  apply (execution_delay_does_not_pace_a_session 1 "print(...)" writes_ABC
           (one_runner true executing) executing 500).
  - reflexivity.
  - exists executing. reflexivity.
  - repeat constructor.
Defined.
(** ** The editor *)

Lemma setCurrentLine_cases line e :
  (line <> PyEditor.currentLine e /\ 0 <= line
   /\ PyEditor.setCurrentLine line e
      = {| PyEditor.plainText := PyEditor.plainText e;
           PyEditor.currentLine := line;
           PyEditor.breakpoints := PyEditor.breakpoints e;
           PyEditor.emitted :=
             PyEditor.emitted e ++ [PyEditor.currentLineChanged line] |})
  \/ ((line = PyEditor.currentLine e \/ line < 0)
      /\ PyEditor.setCurrentLine line e = e).
Proof.
  unfold PyEditor.setCurrentLine.
  repeat case_bool_decide; cbn [andb negb];
    first [ left; now auto | right; split; [ lia | reflexivity ] ].
Qed.

(** X8.  Whatever lines are handed to [setCurrentLine], the
    [currentLineChanged] signals it emits carry no negative line and never
    the same line twice in a row (the first differs from the line current
    before); they are a subsequence of the lines handed in, and the current
    line afterwards is the last one announced, or the old one when nothing
    was announced.  The breakpoints and the text are not touched. *)
Theorem setCurrentLine_announces_changes lines : forall e,
  exists vs,
    PyEditor.emitted (PyEditor.setCurrentLines lines e)
    = PyEditor.emitted e ++ map PyEditor.currentLineChanged vs
    /\ sublist vs lines
    /\ Forall (fun v => 0 <= v) vs
    /\ PyEditor.changes (PyEditor.currentLine e) vs
    /\ PyEditor.currentLine (PyEditor.setCurrentLines lines e)
       = default (PyEditor.currentLine e) (last vs)
    /\ PyEditor.breakpoints (PyEditor.setCurrentLines lines e)
       = PyEditor.breakpoints e
    /\ PyEditor.plainText (PyEditor.setCurrentLines lines e)
       = PyEditor.plainText e.
Proof.
  induction lines as [ | x lines IH]; intros e.
  - exists []. cbn. rewrite app_nil_r. repeat split; constructor.
  - unfold PyEditor.setCurrentLines. cbn [fold_left].
    fold (PyEditor.setCurrentLines lines (PyEditor.setCurrentLine x e)).
    destruct (setCurrentLine_cases x e) as [(Hne & Hpos & ->) | [Hsame ->]].
    + destruct (IH {| PyEditor.plainText := PyEditor.plainText e;
                      PyEditor.currentLine := x;
                      PyEditor.breakpoints := PyEditor.breakpoints e;
                      PyEditor.emitted :=
                        PyEditor.emitted e ++ [PyEditor.currentLineChanged x] |})
        as (vs & Hem & Hsub & Hall & Hch & Hcur & Hbp & Htxt).
      cbn [PyEditor.emitted PyEditor.currentLine PyEditor.breakpoints
           PyEditor.plainText] in *.
      exists (x :: vs). repeat split; auto.
      * rewrite Hem, <- app_assoc. reflexivity.
      * now apply sublist_skip.
      * rewrite Hcur, (last_cons x vs). now destruct (last vs).
    + destruct (IH e) as (vs & Hem & Hsub & Hall & Hch & Hcur & Hbp & Htxt).
      exists vs. repeat split; auto. now apply sublist_cons.
Qed.

(** X9.  [toggleBreakpoint] flips the membership of its line and of no
    other, so toggling the same line twice restores the set; each call
    announces the line with its new membership and then the whole new
    set. *)
Theorem toggleBreakpoint_flips_one_line n e :
  (n ∈ PyEditor.breakpoints (PyEditor.toggleBreakpoint n e)
   <-> n ∉ PyEditor.breakpoints e)
  /\ (forall m, m <> n ->
        m ∈ PyEditor.breakpoints (PyEditor.toggleBreakpoint n e)
        <-> m ∈ PyEditor.breakpoints e)
  /\ PyEditor.breakpoints
       (PyEditor.toggleBreakpoint n (PyEditor.toggleBreakpoint n e))
     = PyEditor.breakpoints e
  /\ PyEditor.emitted (PyEditor.toggleBreakpoint n e)
     = PyEditor.emitted e
       ++ [PyEditor.breakpointChanged n
             (bool_decide
                (n ∈ PyEditor.breakpoints (PyEditor.toggleBreakpoint n e)));
           PyEditor.breakpointsChanged
             (PyEditor.breakpoints (PyEditor.toggleBreakpoint n e))].
Proof.
  unfold PyEditor.toggleBreakpoint.
  cbn [PyEditor.breakpoints PyEditor.emitted].
  destruct (decide (n ∈ PyEditor.breakpoints e)) as [Hin | Hout].
  - assert (Hn : n ∉ PyEditor.breakpoints e ∖ {[ n ]}).
    { rewrite elem_of_difference, elem_of_singleton. tauto. }
    split; [ tauto | ]. split; [ | split ].
    + intros m Hm. rewrite elem_of_difference, elem_of_singleton. tauto.
    + rewrite decide_False by exact Hn.
      apply set_eq. intros m. rewrite elem_of_union, elem_of_difference,
        elem_of_singleton. destruct (decide (m = n)) as [-> | ]; tauto.
    + now rewrite bool_decide_false by exact Hn.
  - assert (Hn : n ∈ PyEditor.breakpoints e ∪ {[ n ]}).
    { rewrite elem_of_union, elem_of_singleton. tauto. }
    split; [ tauto | ]. split; [ | split ].
    + intros m Hm. rewrite elem_of_union, elem_of_singleton. tauto.
    + rewrite decide_True by exact Hn.
      apply set_eq. intros m. rewrite elem_of_difference, elem_of_union,
        elem_of_singleton. destruct (decide (m = n)) as [-> | ]; tauto.
    + now rewrite bool_decide_true by exact Hn.
Qed.

Lemma digits_loop_spec max digits :
  1 <= max ->
  digits <= PyEditor.digits_loop max digits
  /\ 10 ^ (PyEditor.digits_loop max digits - digits) <= max
     < 10 ^ (PyEditor.digits_loop max digits - digits + 1).
Proof.
  functional induction (PyEditor.digits_loop max digits) as
    [max digits Hge IH | max digits Hlt]; intros Hmax.
  - apply Z.leb_le in Hge.
    assert (Hq : max ÷ 10 = max / 10) by (apply Z.quot_div_nonneg; lia).
    assert (Hdiv : 10 * (max / 10) <= max < 10 * (max / 10) + 10).
    { pose proof (Z.div_mod max 10 ltac:(lia)).
      pose proof (Z.mod_pos_bound max 10 ltac:(lia)). lia. }
    destruct IH as [Hd [Hlo Hhi]].
    { rewrite Hq. apply Z.div_le_lower_bound; lia. }
    set (d := PyEditor.digits_loop (max ÷ 10) (digits + 1)) in *.
    rewrite Hq in *.
    replace (d - digits) with (Z.succ (d - (digits + 1))) by lia.
    replace (Z.succ (d - (digits + 1)) + 1)
      with (Z.succ (d - (digits + 1) + 1)) by lia.
    rewrite !Z.pow_succ_r by lia. lia.
  - apply Z.leb_gt in Hlt. rewrite Z.sub_diag. cbn. lia.
Qed.

(** X10.  The width of the line-number area is 18 pixels plus one advance
    per decimal digit of the block count: the loop counts exactly the
    digits [d] of [max(1, blockCount)], that is
    [10^(d-1) <= max(1, blockCount) < 10^d]. *)
Theorem lineNumberAreaWidth_counts_digits advance blockCount :
  exists d,
    PyEditor.lineNumberAreaWidth advance blockCount = 18 + advance * d
    /\ 1 <= d
    /\ 10 ^ (d - 1) <= Z.max 1 blockCount < 10 ^ d.
Proof.
  exists (PyEditor.digits_loop (Z.max 1 blockCount) 1).
  destruct (digits_loop_spec (Z.max 1 blockCount) 1 ltac:(lia))
    as [Hd [Hlo Hhi]].
  unfold PyEditor.lineNumberAreaWidth. split; [ lia | ]. split; [ exact Hd | ].
  now replace (PyEditor.digits_loop (Z.max 1 blockCount) 1 - 1 + 1)
    with (PyEditor.digits_loop (Z.max 1 blockCount) 1) in Hhi by lia.
Qed.

(** ** [formatCode] *)

Section FormatCode.

Variable isSpace : Z -> bool.

Lemma skip_head s c t :
  PyEditor.skip isSpace s = c :: t -> isSpace c = false.
Proof.
  induction s as [ | x s IH]; [ discriminate | ].
  cbn [PyEditor.skip]. destruct (isSpace x) eqn:Hx; [ exact IH | ].
  now intros [= <- _].
Qed.

Lemma chop_head c s :
  isSpace c = false ->
  exists t, PyEditor.chop isSpace (c :: s) = c :: t.
Proof.
  intros Hc. cbn [PyEditor.chop]. rewrite Hc.
  destruct (PyEditor.chop isSpace s); eauto.
Qed.

Lemma trimmed_head s c t :
  PyEditor.trimmed isSpace s = c :: t -> isSpace c = false.
Proof.
  unfold PyEditor.trimmed.
  destruct (PyEditor.skip isSpace s) as [ | x s'] eqn:Hs; [ discriminate | ].
  pose proof (skip_head _ _ _ Hs) as Hx.
  destruct (chop_head x s' Hx) as [t' ->]. now intros [= <- _].
Qed.

Lemma indentedLine_not_empty line :
  PyEditor.trimmed isSpace line <> [] ->
  PyEditor.indentedLine isSpace line <> [].
Proof.
  intros Ht H. unfold PyEditor.indentedLine in H.
  apply app_eq_nil in H as [_ H]. apply app_eq_nil in H as [_ H]. auto.
Qed.

Lemma format_step_line acc line :
  ~ PyEditor.blank isSpace line ->
  PyEditor.format_step isSpace acc line
  = acc ++ [PyEditor.indentedLine isSpace line].
Proof.
  unfold PyEditor.blank, PyEditor.format_step. intros Hx.
  now destruct (PyEditor.trimmed isSpace line).
Qed.

Lemma format_step_blank acc line :
  PyEditor.blank isSpace line ->
  PyEditor.format_step isSpace acc line
  = match last acc with
    | Some (_ :: _) => acc ++ [[]]
    | _ => acc
    end.
Proof.
  unfold PyEditor.blank, PyEditor.format_step. intros ->.
  cbn [PyEditor.isEmpty negb]. now destruct (last acc) as [[ | c l] | ].
Qed.

Lemma fold_blank_empty lines :
  Forall (PyEditor.blank isSpace) lines ->
  fold_left (PyEditor.format_step isSpace) lines [] = [].
Proof.
  induction 1 as [ | line lines Hb _ IH]; [ reflexivity | ].
  cbn [fold_left]. now rewrite (format_step_blank [] line Hb).
Qed.

Lemma fold_blank_after_empty lines : forall acc,
  Forall (PyEditor.blank isSpace) lines ->
  last acc = Some [] ->
  fold_left (PyEditor.format_step isSpace) lines acc = acc.
Proof.
  induction lines as [ | line lines IH]; intros acc Hall Hacc;
    [ reflexivity | ].
  apply Forall_cons in Hall as [Hb Hall].
  cbn [fold_left]. rewrite (format_step_blank acc line Hb), Hacc.
  now apply IH.
Qed.

Lemma fold_blank_after_line lines acc x :
  Forall (PyEditor.blank isSpace) lines ->
  x <> [] ->
  fold_left (PyEditor.format_step isSpace) lines (acc ++ [x])
  = acc ++ x :: match lines with [] => [] | _ :: _ => [[]] end.
Proof.
  intros Hall Hx. destruct lines as [ | line lines]; [ reflexivity | ].
  apply Forall_cons in Hall as [Hb Hall].
  cbn [fold_left]. rewrite (format_step_blank _ line Hb), last_snoc.
  destruct x as [ | c x]; [ contradiction | ].
  rewrite fold_blank_after_empty;
    [ now rewrite <- app_assoc | exact Hall | apply last_snoc ].
Qed.

Lemma fold_paragraphs paragraphs : forall acc,
  Forall (PyEditor.paragraph isSpace) paragraphs ->
  fold_left (PyEditor.format_step isSpace)
    (flat_map PyEditor.paragraph_lines paragraphs) acc
  = acc ++ flat_map (PyEditor.squeezed isSpace) paragraphs.
Proof.
  induction paragraphs as [ | [x bs] paragraphs IH]; intros acc Hall.
  - cbn. now rewrite app_nil_r.
  - apply Forall_cons in Hall as [[Hx Hbs] Hall]. cbn [fst snd] in Hx, Hbs.
    cbn [flat_map]. rewrite fold_left_app.
    change (PyEditor.paragraph_lines (x, bs)) with (x :: bs).
    change (PyEditor.squeezed isSpace (x, bs))
      with (PyEditor.indentedLine isSpace x
            :: match bs with [] => [] | _ :: _ => [[]] end).
    cbn [fold_left].
    rewrite (format_step_line acc x Hx).
    rewrite fold_blank_after_line;
      [ | exact Hbs | now apply indentedLine_not_empty ].
    rewrite IH by exact Hall.
    now rewrite <- app_assoc.
Qed.

(** Every document is some blank lines followed by paragraphs. *)
Lemma lines_have_paragraphs lines :
  exists lead paragraphs,
    Forall (PyEditor.blank isSpace) lead
    /\ Forall (PyEditor.paragraph isSpace) paragraphs
    /\ lines = lead ++ flat_map PyEditor.paragraph_lines paragraphs.
Proof.
  induction lines as [ | line lines (lead & paragraphs & Hl & Hp & ->)].
  - exists [], []. repeat constructor.
  - destruct (decide (PyEditor.trimmed isSpace line = [])) as [Hb | Hb].
    + exists (line :: lead), paragraphs. repeat split; auto.
    + exists [], ((line, lead) :: paragraphs).
      repeat split; auto. constructor; [ split; assumption | exact Hp ].
Qed.

(** X11.  What [formatCode] makes of a document.  The lines of the text are
    some blank lines followed by paragraphs, a paragraph being a line that
    is not blank with the blank lines after it.  The new text has the
    paragraphs in their order, each with its first line re-indented and
    its blank lines, if it has any, replaced by one empty line; the blank
    lines at the top are gone and nothing else is added or removed.  The
    editor announces [codeChanged]; its current line and breakpoints are
    what they were. *)
Theorem formatCode_squeezes_blank_lines e :
  (forall lead paragraphs,
      Forall (PyEditor.blank isSpace) lead ->
      Forall (PyEditor.paragraph isSpace) paragraphs ->
      PyEditor.split 10 (PyEditor.plainText e)
      = lead ++ flat_map PyEditor.paragraph_lines paragraphs ->
      PyEditor.plainText (PyEditor.formatCode isSpace e)
      = PyEditor.join 10 (flat_map (PyEditor.squeezed isSpace) paragraphs))
  /\ (exists lead paragraphs,
        Forall (PyEditor.blank isSpace) lead
        /\ Forall (PyEditor.paragraph isSpace) paragraphs
        /\ PyEditor.split 10 (PyEditor.plainText e)
           = lead ++ flat_map PyEditor.paragraph_lines paragraphs)
  /\ PyEditor.emitted (PyEditor.formatCode isSpace e)
     = PyEditor.emitted e ++ [PyEditor.codeChanged]
  /\ PyEditor.currentLine (PyEditor.formatCode isSpace e)
     = PyEditor.currentLine e
  /\ PyEditor.breakpoints (PyEditor.formatCode isSpace e)
     = PyEditor.breakpoints e.
Proof.
  split; [ | split; [ apply lines_have_paragraphs | repeat split ] ].
  intros lead paragraphs Hlead Hpars Hsplit.
  cbn [PyEditor.formatCode PyEditor.plainText]. rewrite Hsplit.
  unfold PyEditor.formatLines.
  rewrite fold_left_app, (fold_blank_empty lead Hlead).
  now rewrite (fold_paragraphs paragraphs [] Hpars).
Qed.

Lemma int_small z : - 2 ^ 31 <= z < 2 ^ 31 -> PyEditor.int z = z.
Proof.
  intros Hz. unfold PyEditor.int.
  rewrite Z.mod_small by lia. lia.
Qed.

Lemma indent_loop_bound line : forall acc,
  0 <= acc -> acc + 4 * Z.of_nat (length line) < 2 ^ 31 ->
  acc <= PyEditor.indent_loop line acc <= acc + 4 * Z.of_nat (length line).
Proof.
  induction line as [ | c line IH]; intros acc Hacc Hlen; cbn [PyEditor.indent_loop].
  - cbn. lia.
  - cbn [length] in *. rewrite Nat2Z.inj_succ in *.
    repeat case_decide.
    + rewrite int_small by lia.
      specialize (IH (acc + 1) ltac:(lia) ltac:(lia)). lia.
    + rewrite int_small by lia.
      specialize (IH (acc + 4) ltac:(lia) ltac:(lia)). lia.
    + lia.
Qed.

Lemma indent_loop_spaces n rest : forall acc,
  0 <= acc -> acc + Z.of_nat n < 2 ^ 31 ->
  PyEditor.indent_loop (replicate n 32 ++ rest) acc
  = PyEditor.indent_loop rest (acc + Z.of_nat n).
Proof.
  induction n as [ | n IH]; intros acc Hacc Hlen.
  - cbn. now rewrite Z.add_0_r.
  - cbn [replicate app PyEditor.indent_loop].
    rewrite decide_True by reflexivity.
    rewrite int_small by lia. rewrite IH by lia. f_equal. lia.
Qed.

(** X12.  [formatCode] does not keep the indentation of a line: a line
    that is not blank and whose leading blanks are [k] columns wide (a
    tab counting as four) comes out with [k / 4 + k mod 4] leading
    spaces, so four spaces become one and eight become two. *)
Theorem formatCode_shrinks_indentation line :
  isSpace 32 = true -> isSpace 9 = true ->
  PyEditor.trimmed isSpace line <> [] ->
  4 * Z.of_nat (length line) < 2 ^ 31 ->
  0 <= PyEditor.indent_loop line 0
  /\ PyEditor.indent_loop (PyEditor.indentedLine isSpace line) 0
     = PyEditor.indent_loop line 0 / 4 + PyEditor.indent_loop line 0 `mod` 4.
Proof.
  intros Hsp Htab Ht Hlen.
  pose proof (indent_loop_bound line 0 ltac:(lia) ltac:(lia)) as Hk.
  split; [ lia | ].
  unfold PyEditor.indentedLine.
  set (k := PyEditor.indent_loop line 0) in *.
  rewrite Z.quot_div_nonneg, Z.rem_mod_nonneg by lia.
  pose proof (Z.div_mod k 4 ltac:(lia)) as Hdm.
  pose proof (Z.mod_pos_bound k 4 ltac:(lia)) as Hm.
  assert (Hd : 0 <= k / 4) by (apply Z.div_pos; lia).
  assert (Hrest : (if decide (k `mod` 4 <> 0)
                   then PyEditor.spaces (k `mod` 4) else [])
                  = PyEditor.spaces (k `mod` 4)).
  { case_decide as Hz; [ reflexivity | ].
    replace (k `mod` 4) with 0 by lia. reflexivity. }
  rewrite Hrest. unfold PyEditor.spaces.
  rewrite indent_loop_spaces by lia.
  rewrite indent_loop_spaces by lia.
  rewrite !Z2Nat.id by lia.
  destruct (PyEditor.trimmed isSpace line) as [ | c t] eqn:Htr;
    [ contradiction | ].
  pose proof (trimmed_head _ _ _ Htr) as Hc.
  cbn [PyEditor.indent_loop].
  rewrite decide_False by (intros ->; congruence).
  rewrite decide_False by (intros ->; congruence).
  lia.
Qed.

End FormatCode.

Lemma formatCode_squeezes_blank_lines_witness :
  PyEditor.plainText
    (PyEditor.formatCode PyEditor.isSpace_latin1
       {| PyEditor.plainText :=
            [10; 32; 32; 97; 10; 10; 32; 10; 9; 98; 10; 10];
          PyEditor.currentLine := 2; PyEditor.breakpoints := ∅;
          PyEditor.emitted := [] |})
  = [32; 32; 97; 10; 10; 32; 98; 10].
Proof.
  destruct (formatCode_squeezes_blank_lines PyEditor.isSpace_latin1
              {| PyEditor.plainText :=
                   [10; 32; 32; 97; 10; 10; 32; 10; 9; 98; 10; 10];
                 PyEditor.currentLine := 2; PyEditor.breakpoints := ∅;
                 PyEditor.emitted := [] |}) as [Htext _].
  apply (Htext [[]] [([32; 32; 97], [[]; [32]]); ([9; 98], [[]; []])]).
  - repeat constructor.
  - repeat constructor; discriminate.
  - reflexivity.
Defined.

Lemma formatCode_shrinks_indentation_witness :
  0 <= PyEditor.indent_loop [32; 32; 32; 32; 32; 32; 32; 32; 120; 32] 0
  /\ PyEditor.indent_loop
       (PyEditor.indentedLine PyEditor.isSpace_latin1
          [32; 32; 32; 32; 32; 32; 32; 32; 120; 32]) 0
     = PyEditor.indent_loop [32; 32; 32; 32; 32; 32; 32; 32; 120; 32] 0 / 4
       + PyEditor.indent_loop [32; 32; 32; 32; 32; 32; 32; 32; 120; 32] 0 `mod` 4.
Proof.
  apply (formatCode_shrinks_indentation PyEditor.isSpace_latin1).
  - reflexivity.
  - reflexivity.
  - discriminate.
  - reflexivity.
Defined.


(** ** The window *)

Lemma deliver_all_app m_runner l1 l2 win :
  PyWindow.deliver_all m_runner (l1 ++ l2) win
  = PyWindow.deliver_all m_runner l2 (PyWindow.deliver_all m_runner l1 win).
Proof. apply fold_left_app. Qed.

Lemma deliver_steps this steps : forall win,
  PyWindow.deliver_all this (flat_map (step_events (Some this) true) steps) win
  = PyWindow.set_logOutput
      (PyWindow.logOutput win
       ++ map (fun text => (PyWindow.Black, text)) (writes_of steps)) win.
Proof.
  induction steps as [ | s steps IH]; intros win.
  - destruct win. cbn. unfold PyWindow.set_logOutput. cbn.
    now rewrite app_nil_r.
  - cbn [flat_map]. rewrite deliver_all_app, IH.
    destruct s as [f | f ev | text | p]; cbn [step_events writes_of];
      try (destruct win; reflexivity).
    destruct win. cbn. rewrite decide_True by reflexivity.
    unfold PyWindow.appendOutput, PyWindow.set_logOutput. cbn.
    now rewrite <- app_assoc.
Qed.

(** What the events of a session whose program returned do to the
    window. *)
Lemma deliver_session_returned this run aborted nested win :
  py_uncaught run = None ->
  PyWindow.deliver_all this (session_events this true run aborted nested) win
  = {| PyWindow.m_isExecuting := false;
       PyWindow.runButtonText := "运行代码 (F5)";
       PyWindow.editorEnabled := true;
       PyWindow.saveButtonEnabled := true;
       PyWindow.debugButtonsEnabled := PyWindow.debugButtonsEnabled win;
       PyWindow.logOutput :=
         PyWindow.logOutput win
         ++ map (fun text => (PyWindow.Black, text)) (writes_of (py_steps run));
       PyWindow.statusMessage := "执行完成";
       PyWindow.m_codeEditor := PyWindow.m_codeEditor win |}.
Proof.
  intros Hunc. unfold session_events. rewrite Hunc.
  rewrite !deliver_all_app, deliver_steps.
  destruct win as [ex txt ed sv dbg out st editor].
  destruct aborted; cbn;
    rewrite ?decide_True by reflexivity; cbn;
    rewrite ?decide_True by reflexivity; cbn;
    unfold PyWindow.onExecutionFinish, PyWindow.set_logOutput; cbn;
    reflexivity.
Qed.

(** What the events of a session without an interpreter do to the
    window. *)
Lemma deliver_session_uninitialized this run aborted nested win :
  PyWindow.deliver_all this (session_events this false run aborted nested) win
  = {| PyWindow.m_isExecuting := true;
       PyWindow.runButtonText := "停止执行";
       PyWindow.editorEnabled := false;
       PyWindow.saveButtonEnabled := false;
       PyWindow.debugButtonsEnabled := PyWindow.debugButtonsEnabled win;
       PyWindow.logOutput :=
         PyWindow.logOutput win
         ++ [(PyWindow.Red,
              "错误: "
              +:+ "Execution error: Python interpreter not initialized")];
       PyWindow.statusMessage := "正在执行Python代码...";
       PyWindow.m_codeEditor := PyWindow.m_codeEditor win |}.
Proof.
  unfold session_events.
  destruct win as [ex txt ed sv dbg out st editor]. cbn.
  rewrite !decide_True by reflexivity. reflexivity.
Qed.

(** X13.  After a session of an initialised interpreter whose program
    returned, aborted or not, the window is ready again: it is not
    executing, the run button offers to run, the editor and the save button
    are enabled, and the output pane has received the writes of the program
    in black, in order, and nothing else.  The editor's current line has
    not moved during the session. *)
Theorem window_ready_after_session this code run w r win :
  runners w !! this = Some r ->
  registration_valid w -> callers_valid w (session_steps run) ->
  m_initialized (pyManager w) = true ->
  py_uncaught run = None ->
  exists w',
    executePythonCodeSafely this code run w = (Some tt, w')
    /\ PyWindow.deliver_all this (drop (length (log w)) (log w')) win
       = {| PyWindow.m_isExecuting := false;
            PyWindow.runButtonText := "运行代码 (F5)";
            PyWindow.editorEnabled := true;
            PyWindow.saveButtonEnabled := true;
            PyWindow.debugButtonsEnabled := PyWindow.debugButtonsEnabled win;
            PyWindow.logOutput :=
              PyWindow.logOutput win
              ++ map (fun text => (PyWindow.Black, text))
                   (writes_of (py_steps run));
            PyWindow.statusMessage := "执行完成";
            PyWindow.m_codeEditor := PyWindow.m_codeEditor win |}.
Proof.
  intros Hlive Hreg Hcall Hinit Hunc.
  destruct (session_log this code run w r Hlive Hreg Hcall)
    as (w' & Hrun & Hlog & _).
  exists w'. split.
  - rewrite Hrun. unfold session_outcome. now rewrite Hinit, Hunc.
  - rewrite Hlog, drop_app_length, Hinit.
    now apply deliver_session_returned.
Qed.

Lemma window_ready_after_session_witness :
  exists w',
    executePythonCodeSafely 1 "print(...)" writes_ABC
      (one_runner true executing) = (Some tt, w')
    /\ PyWindow.deliver_all 1
         (drop (length (log (one_runner true executing))) (log w'))
         window_ready
       = {| PyWindow.m_isExecuting := false;
            PyWindow.runButtonText := "运行代码 (F5)";
            PyWindow.editorEnabled := true;
            PyWindow.saveButtonEnabled := true;
            PyWindow.debugButtonsEnabled := false;
            PyWindow.logOutput :=
              [(PyWindow.Black, "A"); (PyWindow.Black, "B");
               (PyWindow.Black, "C")];
            PyWindow.statusMessage := "执行完成";
            PyWindow.m_codeEditor := PyWindow.m_codeEditor window_ready |}.
Proof.
  apply (window_ready_after_session 1 "print(...)" writes_ABC
           (one_runner true executing) executing window_ready).
  - reflexivity.
  - exists executing. reflexivity.
  - repeat constructor.
  - reflexivity.
  - reflexivity.
Defined.

(** X14.  After a session without an initialised interpreter the window
    stays in its executing state: the editor and the save button are
    disabled, the run button offers to stop, and a click on it only calls
    [abortExecution] and leaves the window as it is, so no further code can
    be submitted from it. *)
Theorem window_stuck_after_uninitialized_session this code run w r win :
  runners w !! this = Some r ->
  m_initialized (pyManager w) = false ->
  exists w' win',
    executePythonCodeSafely this code run w = (Some tt, w')
    /\ PyWindow.deliver_all this (drop (length (log w)) (log w')) win = win'
    /\ PyWindow.m_isExecuting win' = true
    /\ PyWindow.editorEnabled win' = false
    /\ PyWindow.saveButtonEnabled win' = false
    /\ PyWindow.runButtonText win' = "停止执行"
    /\ PyWindow.logOutput win'
       = PyWindow.logOutput win
         ++ [(PyWindow.Red,
              "错误: Execution error: Python interpreter not initialized")]
    /\ forall isSpace,
         PyWindow.runPythonCode isSpace win'
         = (win', [PyWindow.AbortExecution]).
Proof.
  intros Hlive Hinit.
  rewrite (session_uninitialized this code run w r Hlive Hinit).
  eexists _, _. split; [ reflexivity | ].
  cbn [log set_runners set_log]. rewrite drop_app_length.
  pose proof (deliver_session_uninitialized this run false false win) as Hd.
  unfold session_events in Hd. rewrite Hd.
  split; [ reflexivity | ]. cbn. repeat split.
Qed.

Lemma window_stuck_after_uninitialized_session_witness :
  exists w' win',
    executePythonCodeSafely 1 "print(1)" writes_ABC (one_runner false executing)
    = (Some tt, w')
    /\ PyWindow.deliver_all 1
         (drop (length (log (one_runner false executing))) (log w'))
         window_ready = win'
    /\ PyWindow.m_isExecuting win' = true
    /\ PyWindow.editorEnabled win' = false
    /\ PyWindow.saveButtonEnabled win' = false
    /\ PyWindow.runButtonText win' = "停止执行"
    /\ PyWindow.logOutput win'
       = PyWindow.logOutput window_ready
         ++ [(PyWindow.Red,
              "错误: Execution error: Python interpreter not initialized")]
    /\ forall isSpace,
         PyWindow.runPythonCode isSpace win'
         = (win', [PyWindow.AbortExecution]).
Proof.
  apply (window_stuck_after_uninitialized_session 1 "print(1)" writes_ABC
           (one_runner false executing) executing window_ready).
  - reflexivity.
  - reflexivity.
Defined.
(** ** The interpreter manager: paths, environment and life cycle *)

Lemma addPythonPath_paths path m :
  InterpreterManager.m_pythonPaths (InterpreterManager.addPythonPath path m)
  = if decide (path ∈ InterpreterManager.m_pythonPaths m)
    then InterpreterManager.m_pythonPaths m
    else InterpreterManager.m_pythonPaths m ++ [path].
Proof.
  unfold InterpreterManager.addPythonPath. now case_decide.
Qed.

(** X15.  [addPythonPath] never stores a path twice: after any number of
    calls the old list is a prefix of the new one, the new list holds
    exactly the old paths and the paths handed in, and it is free of
    duplicates if the old one was. *)
Theorem addPythonPath_keeps_paths_distinct paths : forall m,
  InterpreterManager.m_pythonPaths m
    `prefix_of` InterpreterManager.m_pythonPaths
                  (InterpreterManager.calls
                     (map InterpreterManager.AddPythonPath paths) m)
  /\ (forall p,
        p ∈ InterpreterManager.m_pythonPaths
              (InterpreterManager.calls
                 (map InterpreterManager.AddPythonPath paths) m)
        <-> p ∈ InterpreterManager.m_pythonPaths m \/ p ∈ paths)
  /\ (NoDup (InterpreterManager.m_pythonPaths m) ->
      NoDup (InterpreterManager.m_pythonPaths
               (InterpreterManager.calls
                  (map InterpreterManager.AddPythonPath paths) m))).
Proof.
  induction paths as [ | path paths IH]; intros m.
  - cbn. split; [ reflexivity | ]. split; [ | auto ].
    intros p. rewrite elem_of_nil. tauto.
  - unfold InterpreterManager.calls. cbn [map fold_left InterpreterManager.call].
    fold (InterpreterManager.calls
            (map InterpreterManager.AddPythonPath paths)
            (InterpreterManager.addPythonPath path m)).
    destruct (IH (InterpreterManager.addPythonPath path m)) as (Hpre & Hin & Hnd).
    rewrite addPythonPath_paths in Hpre, Hin, Hnd.
    split; [ | split ].
    + etransitivity; [ | exact Hpre ].
      case_decide; [ reflexivity | now apply prefix_app_r ].
    + intros p. rewrite Hin, elem_of_cons.
      case_decide as Hp.
      * split; [ tauto | ]. intros [ | [-> | ]]; auto.
      * rewrite elem_of_app, list_elem_of_singleton. tauto.
    + intros Hm. apply Hnd. case_decide as Hp; [ exact Hm | ].
      apply NoDup_app. split; [ exact Hm | ]. split.
      * intros x Hx. rewrite list_elem_of_singleton. now intros ->.
      * apply NoDup_singleton.
Qed.

Lemma prefix_app2 s x y : String.prefix s ((s +:+ x) +:+ y) = true.
Proof.
  induction s as [ | a s IH]; [ now destruct ((""%string +:+ x) +:+ y) | ].
  change ((String a s +:+ x) +:+ y) with (String a ((s +:+ x) +:+ y)).
  cbn [String.prefix].
  destruct (Ascii.ascii_dec a a); [ exact IH | congruence ].
Qed.

Lemma contains_prefix s needle :
  String.prefix needle s = true -> InterpreterManager.contains s needle = true.
Proof.
  intros H. destruct s; cbn [InterpreterManager.contains]; now rewrite H.
Qed.

Lemma string_app_assoc (a b c : string) : (a +:+ b) +:+ c = a +:+ (b +:+ c).
Proof.
  induction a as [ | x a IH]; [ reflexivity | ].
  change (String x ((a +:+ b) +:+ c) = String x (a +:+ (b +:+ c))).
  now rewrite IH.
Qed.

(** X16.  [setupEnvironment] only ever puts directories in front of
    [PATH]; once it has run with a home that is not empty, [PATH] contains
    the home, so running it again changes nothing. *)
Theorem setupEnvironment_extends_PATH_once m :
  (exists front,
     InterpreterManager.PATH (InterpreterManager.setupEnvironment m)
     = front +:+ InterpreterManager.PATH m)
  /\ (InterpreterManager.m_pythonHome m <> "" ->
      InterpreterManager.contains
        (InterpreterManager.PATH (InterpreterManager.setupEnvironment m))
        (InterpreterManager.m_pythonHome m) = true)
  /\ InterpreterManager.setupEnvironment (InterpreterManager.setupEnvironment m)
     = InterpreterManager.setupEnvironment m.
Proof.
  destruct m as [init home paths file ts path pyhome em].
  unfold InterpreterManager.setupEnvironment.
  cbn [InterpreterManager.m_pythonHome InterpreterManager.PATH
       InterpreterManager.Py_SetPythonHome InterpreterManager.set_PATH].
  destruct (decide (home <> "")) as [Hhome | Hhome].
  - destruct (InterpreterManager.contains path home) eqn:Hc; cbn [negb].
    + cbn [InterpreterManager.PATH InterpreterManager.m_pythonHome].
      split; [ now exists ""%string | ]. split; [ auto | ].
      rewrite decide_True by exact Hhome.
      cbn [InterpreterManager.m_pythonHome InterpreterManager.PATH
           InterpreterManager.Py_SetPythonHome].
      now rewrite Hc.
    + cbn [InterpreterManager.PATH InterpreterManager.m_pythonHome].
      assert (Hnew : InterpreterManager.contains
                       ((home +:+ "\bin;")
                        +:+ ((home +:+ "\Scripts;")
                             +:+ ((home +:+ "\Library\bin;")
                                  +:+ ((home +:+ ";") +:+ path)))) home = true)
        by (apply contains_prefix, prefix_app2).
      split; [ | split; [ auto | ] ].
      * eexists. rewrite <- !string_app_assoc. reflexivity.
      * rewrite decide_True by exact Hhome.
        cbn [InterpreterManager.m_pythonHome InterpreterManager.PATH
             InterpreterManager.Py_SetPythonHome InterpreterManager.set_PATH].
        now rewrite Hnew.
  - cbn [InterpreterManager.PATH]. split; [ now exists ""%string | ].
    split; [ contradiction | ].
    cbn [InterpreterManager.m_pythonHome]. now rewrite decide_False by exact Hhome.
Qed.

Lemma alternate_snoc l : forall next s s',
  s <> s' ->
  InterpreterManager.alternate next (l ++ [s]) ->
  InterpreterManager.alternate next ((l ++ [s]) ++ [s']).
Proof.
  induction l as [ | x l IH]; intros next s s' Hne H.
  - destruct s, s'; cbn in *; try contradiction; tauto.
  - destruct x; cbn in *; (split; [ tauto | ]); apply IH; tauto.
Qed.

Lemma alternate_init l : forall next s,
  InterpreterManager.alternate next (l ++ [s]) ->
  InterpreterManager.alternate next l
  /\ match last l with
     | Some x => x <> s
     | None => next = match s with
                      | InterpreterManager.initialized => true
                      | InterpreterManager.cleaned => false
                      end
     end.
Proof.
  induction l as [ | x l IH]; intros next s H.
  - destruct s; cbn in *; tauto.
  - assert (Hl : InterpreterManager.alternate
                   (match x with
                    | InterpreterManager.initialized => false
                    | InterpreterManager.cleaned => true
                    end) (l ++ [s])) by (destruct x; cbn in H; tauto).
    destruct (IH _ _ Hl) as [Hal Hlast].
    split; [ destruct x; cbn in *; tauto | ].
    rewrite last_cons. destruct (last l); [ exact Hlast | ].
    destruct x, s; cbn in *; congruence.
Qed.

Lemma setupEnvironment_frame m :
  InterpreterManager.m_initialized (InterpreterManager.setupEnvironment m)
  = InterpreterManager.m_initialized m
  /\ InterpreterManager.emitted (InterpreterManager.setupEnvironment m)
     = InterpreterManager.emitted m.
Proof.
  unfold InterpreterManager.setupEnvironment.
  case_decide; [ | auto ]. now destruct (negb _).
Qed.

Lemma call_keeps_alternation c m :
  InterpreterManager.alternate true
    (InterpreterManager.emitted m
     ++ [if InterpreterManager.m_initialized m
         then InterpreterManager.cleaned else InterpreterManager.initialized]) ->
  InterpreterManager.alternate true
    (InterpreterManager.emitted (InterpreterManager.call c m)
     ++ [if InterpreterManager.m_initialized (InterpreterManager.call c m)
         then InterpreterManager.cleaned else InterpreterManager.initialized]).
Proof.
  intros H. destruct c as [file cfg throws | throws | path | path];
    cbn [InterpreterManager.call].
  - unfold InterpreterManager.initialize.
    destruct (InterpreterManager.m_initialized m) eqn:Hinit;
      cbn [snd]; [ now rewrite Hinit | ].
    match goal with
    | |- context [InterpreterManager.setupEnvironment ?x] =>
        destruct (setupEnvironment_frame x) as [Hf He]
    end.
    cbn [InterpreterManager.loadConfiguration InterpreterManager.m_initialized
         InterpreterManager.emitted] in Hf, He.
    destruct throws; cbn [snd InterpreterManager.emitted
                            InterpreterManager.m_initialized].
    + rewrite Hf, He. exact H.
    + rewrite He. now apply alternate_snoc.
  - unfold InterpreterManager.cleanup.
    destruct (InterpreterManager.m_initialized m) eqn:Hinit; cbn [negb];
      [ | now rewrite Hinit ].
    destruct throws; cbn [InterpreterManager.emitted
                            InterpreterManager.m_initialized].
    + exact H.
    + now apply alternate_snoc.
  - unfold InterpreterManager.setPythonHome.
    cbn [InterpreterManager.m_initialized].
    now destruct (InterpreterManager.m_initialized m).
  - unfold InterpreterManager.addPythonPath. now case_decide.
Qed.

(** X17.  Whatever sequence of [initialize], [cleanup], [setPythonHome] and
    [addPythonPath] a fresh manager receives, and whichever of them fail,
    its signals [initialized] and [cleaned] alternate, starting with
    [initialized], and the manager is initialised exactly when the last
    signal it emitted is [initialized]. *)
Theorem initialized_and_cleaned_alternate path cs :
  InterpreterManager.alternate true
    (InterpreterManager.emitted
       (InterpreterManager.calls cs (InterpreterManager.Manager_init path)))
  /\ InterpreterManager.m_initialized
       (InterpreterManager.calls cs (InterpreterManager.Manager_init path))
     = bool_decide
         (last (InterpreterManager.emitted
                  (InterpreterManager.calls cs
                     (InterpreterManager.Manager_init path)))
          = Some InterpreterManager.initialized).
Proof.
  assert (Hinv : forall cs m,
    InterpreterManager.alternate true
      (InterpreterManager.emitted m
       ++ [if InterpreterManager.m_initialized m
           then InterpreterManager.cleaned else InterpreterManager.initialized]) ->
    InterpreterManager.alternate true
      (InterpreterManager.emitted (InterpreterManager.calls cs m)
       ++ [if InterpreterManager.m_initialized (InterpreterManager.calls cs m)
           then InterpreterManager.cleaned
           else InterpreterManager.initialized])).
  { clear. induction cs as [ | c cs IH]; intros m H; [ exact H | ].
    apply (IH (InterpreterManager.call c m)), call_keeps_alternation, H. }
  specialize (Hinv cs (InterpreterManager.Manager_init path)).
  set (m := InterpreterManager.calls cs (InterpreterManager.Manager_init path))
    in *.
  destruct (alternate_init _ _ _ (Hinv (conj eq_refl I))) as [Hal Hlast].
  split; [ exact Hal | ].
  destruct (InterpreterManager.m_initialized m);
    destruct (last (InterpreterManager.emitted m)) as [[ | ] | ];
    try discriminate; try (now contradiction Hlast); symmetry;
    first [ now apply bool_decide_eq_true
          | apply bool_decide_eq_false; discriminate ].
Qed.

(** ** The configuration manager *)

Ltac store_lookups :=
  repeat first
    [ rewrite lookup_insert_eq
    | rewrite lookup_insert_ne by discriminate ].

Ltac agrees_solve :=
  unfold ConfigManager.agrees in *;
  cbn [ConfigManager.m_pythonHome ConfigManager.m_pythonPaths
       ConfigManager.m_editorFont ConfigManager.m_theme
       ConfigManager.m_editorFontSize ConfigManager.m_autoSaveInterval
       ConfigManager.m_executionDelay] in *;
  store_lookups; tauto.

Ltac cfg_run :=
  unfold ConfigManager.setValue, ConfigManager.emit,
    ConfigManager.set_members;
  cbn [mbind option_bind ConfigManager.m_settings ConfigManager.members
       ConfigManager.emitted ConfigManager.m_pythonHome
       ConfigManager.m_pythonPaths ConfigManager.m_editorFont
       ConfigManager.m_theme ConfigManager.m_editorFontSize
       ConfigManager.m_autoSaveInterval ConfigManager.m_executionDelay].

Ltac cfg_cond :=
  let Hcond := fresh "Hcond" in
  match goal with
  | |- context [if ?b then _ else _] => destruct b eqn:Hcond
  end;
  [ repeat match goal with
           | H : _ && _ = true |- _ => apply andb_true_iff in H as [? ?]
           | H : bool_decide _ = true |- _ => apply bool_decide_eq_true in H
           end
  | ].

Ltac accept_call :=
  cfg_run; eexists _, _, _; (split; [ reflexivity | ]);
  (split;
   [ unfold ConfigManager.kept_or_valid;
     cbn [ConfigManager.m_editorFontSize ConfigManager.m_autoSaveInterval
          ConfigManager.m_executionDelay]; lia
   | ]);
  (split;
   [ unfold ConfigManager.in_range;
     cbn [ConfigManager.m_editorFontSize ConfigManager.m_autoSaveInterval
          ConfigManager.m_executionDelay]; lia
   | let Hc := fresh "Hc" in
     intros Hc; unfold ConfigManager.consistent in *; repeat split;
     agrees_solve ]).

Ltac reject_call :=
  eexists _, _, _; (split; [ reflexivity | ]);
  (split; [ unfold ConfigManager.kept_or_valid; lia | tauto ]).

Lemma setPythonHome_store path st m em :
  exists st',
    ConfigManager.setPythonHome path
      {| ConfigManager.m_settings := Some st; ConfigManager.members := m;
         ConfigManager.emitted := em |}
    = Some {| ConfigManager.m_settings := Some st';
              ConfigManager.members :=
                {| ConfigManager.m_pythonHome := path;
                   ConfigManager.m_pythonPaths := ConfigManager.m_pythonPaths m;
                   ConfigManager.m_editorFont := ConfigManager.m_editorFont m;
                   ConfigManager.m_theme := ConfigManager.m_theme m;
                   ConfigManager.m_editorFontSize :=
                     ConfigManager.m_editorFontSize m;
                   ConfigManager.m_autoSaveInterval :=
                     ConfigManager.m_autoSaveInterval m;
                   ConfigManager.m_executionDelay :=
                     ConfigManager.m_executionDelay m |};
              ConfigManager.emitted :=
                em ++ (if decide (ConfigManager.m_pythonHome m <> path)
                       then [ConfigManager.configurationChanged;
                             ConfigManager.pythonPathsChanged]
                       else []) |}
    /\ forall key, key <> "Python/home"%string -> st' !! key = st !! key.
Proof.
  unfold ConfigManager.setPythonHome. cbn [ConfigManager.members].
  destruct (decide (ConfigManager.m_pythonHome m = path)) as [<- | Hp].
  - rewrite !decide_False by (intros H; now apply H). destruct m.
    eexists. cfg_run. rewrite app_nil_r. split; [ reflexivity | auto ].
  - rewrite !decide_True by exact Hp.
    eexists. cfg_run. rewrite <- app_assoc. split; [ reflexivity | ].
    intros key Hk. now rewrite lookup_insert_ne.
Qed.

Lemma createDefaultConfiguration_store conda system st m em :
  exists st',
    ConfigManager.createDefaultConfiguration conda system
      {| ConfigManager.m_settings := Some st; ConfigManager.members := m;
         ConfigManager.emitted := em |}
    = Some {| ConfigManager.m_settings := Some st';
              ConfigManager.members :=
                {| ConfigManager.m_pythonHome :=
                     if decide (conda = "") then system else conda;
                   ConfigManager.m_pythonPaths := [];
                   ConfigManager.m_editorFont := "Consolas";
                   ConfigManager.m_theme := "light";
                   ConfigManager.m_editorFontSize := 12;
                   ConfigManager.m_autoSaveInterval := 30;
                   ConfigManager.m_executionDelay := 100 |};
              ConfigManager.emitted :=
                em ++ (if decide ((if decide (conda = "") then system else conda)
                                  <> ""
                                  /\ ConfigManager.m_pythonHome m
                                     <> (if decide (conda = "")
                                         then system else conda))
                       then [ConfigManager.configurationChanged;
                             ConfigManager.pythonPathsChanged]
                       else []) |}
    /\ st' !! "Python/home"
       = Some (ConfigManager.VString
                 (if decide (conda = "") then system else conda))
    /\ st' !! "Python/paths" = Some (ConfigManager.VStringList [])
    /\ st' !! "Editor/font" = Some (ConfigManager.VString "Consolas")
    /\ st' !! "Editor/fontSize" = Some (ConfigManager.VInt 12)
    /\ st' !! "Editor/autoSaveInterval" = Some (ConfigManager.VInt 30)
    /\ st' !! "Application/executionDelay" = Some (ConfigManager.VInt 100)
    /\ st' !! "Application/theme" = Some (ConfigManager.VString "light")
    /\ st' !! "Window/geometry" = st !! "Window/geometry"
    /\ st' !! "Window/state" = st !! "Window/state".
Proof.
  unfold ConfigManager.createDefaultConfiguration,
    ConfigManager.autoDetectPython.
  set (detectedPath := if decide (conda = "") then system else conda).
  destruct (decide (detectedPath <> "")) as [Hd | Hd].
  - destruct (setPythonHome_store detectedPath st m em) as (st1 & -> & Hst1).
    cfg_run. eexists. split.
    + f_equal. f_equal. f_equal.
      destruct (decide (ConfigManager.m_pythonHome m <> detectedPath));
        [ now rewrite decide_True by auto | now rewrite decide_False by tauto ].
    + store_lookups. repeat split; try (apply Hst1; discriminate).
  - cfg_run. eexists. split.
    + rewrite decide_False by tauto. now rewrite app_nil_r.
    + store_lookups. repeat split.
Qed.

Lemma call_sound k st m em :
  exists st' m' em',
    ConfigManager.call k
      {| ConfigManager.m_settings := Some st; ConfigManager.members := m;
         ConfigManager.emitted := em |}
    = Some {| ConfigManager.m_settings := Some st';
              ConfigManager.members := m'; ConfigManager.emitted := em' |}
    /\ ConfigManager.kept_or_valid m m'
    /\ (ConfigManager.in_range m -> ConfigManager.in_range m')
    /\ (ConfigManager.consistent st m -> ConfigManager.consistent st' m').
Proof.
  destruct k as [path | path | font | size | seconds | delayMs | theme
                | geometry | state | conda system];
    cbn [ConfigManager.call].
  - unfold ConfigManager.setPythonHome. cbn [ConfigManager.members].
    case_decide; [ accept_call | reject_call ].
  - unfold ConfigManager.addPythonPath. cbn [ConfigManager.members].
    case_decide; [ reject_call | accept_call ].
  - unfold ConfigManager.setEditorFont. cbn [ConfigManager.members].
    case_decide; [ accept_call | reject_call ].
  - unfold ConfigManager.setEditorFontSize. cbn [ConfigManager.members].
    cfg_cond; [ accept_call | reject_call ].
  - unfold ConfigManager.setAutoSaveInterval. cbn [ConfigManager.members].
    cfg_cond; [ accept_call | reject_call ].
  - unfold ConfigManager.setExecutionDelay. cbn [ConfigManager.members].
    cfg_cond; [ accept_call | reject_call ].
  - unfold ConfigManager.setTheme. cbn [ConfigManager.members].
    case_decide; [ accept_call | reject_call ].
  - unfold ConfigManager.setWindowGeometry. accept_call.
  - unfold ConfigManager.setWindowState. accept_call.
  - unfold ConfigManager.resetToDefaults.
    destruct (createDefaultConfiguration_store conda system st m em)
      as (st' & -> & H1 & H2 & H3 & H4 & H5 & H6 & H7 & _).
    cfg_run. eexists _, _, _. split; [ reflexivity | ].
    split; [ | split ].
    + unfold ConfigManager.kept_or_valid. cbn. lia.
    + unfold ConfigManager.in_range. cbn. lia.
    + intros _. unfold ConfigManager.consistent, ConfigManager.agrees. cbn.
      repeat split; now right.
Qed.

(** X18.  On a manager whose settings store exists, whatever its members
    hold ([load] copies them from the settings file unchecked), no sequence
    of setter calls and resets fails, and afterwards each validated member
    is either the value it had before the calls or within its range: the
    font size strictly between 5 and 72, the auto-save interval positive,
    the execution delay non-negative.  So members that were in range stay
    in range, and if no key of the store disagreed with the member it
    mirrors, none does afterwards. *)
Theorem setters_keep_configuration_sound ks : forall c st,
  ConfigManager.m_settings c = Some st ->
  exists c' st',
    ConfigManager.calls ks c = Some c'
    /\ ConfigManager.m_settings c' = Some st'
    /\ ConfigManager.kept_or_valid (ConfigManager.members c)
         (ConfigManager.members c')
    /\ (ConfigManager.in_range (ConfigManager.members c) ->
        ConfigManager.in_range (ConfigManager.members c'))
    /\ (ConfigManager.consistent st (ConfigManager.members c) ->
        ConfigManager.consistent st' (ConfigManager.members c')).
Proof.
  induction ks as [ | k ks IH]; intros c st Hst.
  - exists c, st. split; [ reflexivity | ]. split; [ exact Hst | ].
    split; [ unfold ConfigManager.kept_or_valid; lia | auto ].
  - destruct c as [s m em]. cbn in Hst. subst s.
    destruct (call_sound k st m em) as (st1 & m1 & em1 & Hk & Hv1 & Hr1 & Hc1).
    cbn [ConfigManager.calls]. rewrite Hk. cbn [mbind option_bind].
    destruct (IH {| ConfigManager.m_settings := Some st1;
                    ConfigManager.members := m1;
                    ConfigManager.emitted := em1 |} st1 eq_refl)
      as (c' & st' & Hrun & Hst' & Hv & Hr & Hc).
    exists c', st'. cbn [ConfigManager.members] in *.
    split; [ exact Hrun | ]. split; [ exact Hst' | ].
    split; [ unfold ConfigManager.kept_or_valid in *; lia | auto ].
Qed.

Lemma setters_keep_configuration_sound_witness :
  exists c' st',
    ConfigManager.calls
      [ConfigManager.SetEditorFontSize 4; ConfigManager.SetExecutionDelay (-1);
       ConfigManager.SetAutoSaveInterval 60; ConfigManager.AddPythonPath "lib";
       ConfigManager.AddPythonPath "lib"] config_loaded = Some c'
    /\ ConfigManager.m_settings c' = Some st'
    /\ ConfigManager.kept_or_valid (ConfigManager.members config_loaded)
         (ConfigManager.members c')
    /\ (ConfigManager.in_range (ConfigManager.members config_loaded) ->
        ConfigManager.in_range (ConfigManager.members c'))
    /\ (ConfigManager.consistent
          (<["Editor/fontSize" := ConfigManager.VInt 100]>
             {["Python/home" := ConfigManager.VString "/usr"]})
          (ConfigManager.members config_loaded) ->
        ConfigManager.consistent st' (ConfigManager.members c')).
Proof.
  exact (setters_keep_configuration_sound _ config_loaded _ eq_refl).
Defined.

(** X19.  [resetToDefaults] on a manager whose settings store exists puts
    the defaults into the members, with the detected interpreter (conda
    first, then the system's, possibly none) as home, writes all seven of
    them to the store and leaves the window keys alone.  It announces the
    new home first, if one was detected and differs from the old, and then
    emits [configurationChanged], [editorSettingsChanged] and
    [pythonPathsChanged]. *)
Theorem resetToDefaults_restores_defaults conda system c st :
  ConfigManager.m_settings c = Some st ->
  exists c' st',
    ConfigManager.resetToDefaults conda system c = Some c'
    /\ ConfigManager.m_settings c' = Some st'
    /\ ConfigManager.members c'
       = {| ConfigManager.m_pythonHome :=
              if decide (conda = "") then system else conda;
            ConfigManager.m_pythonPaths := [];
            ConfigManager.m_editorFont := "Consolas";
            ConfigManager.m_theme := "light";
            ConfigManager.m_editorFontSize := 12;
            ConfigManager.m_autoSaveInterval := 30;
            ConfigManager.m_executionDelay := 100 |}
    /\ st' !! "Python/home"
       = Some (ConfigManager.VString
                 (if decide (conda = "") then system else conda))
    /\ st' !! "Python/paths" = Some (ConfigManager.VStringList [])
    /\ st' !! "Editor/font" = Some (ConfigManager.VString "Consolas")
    /\ st' !! "Editor/fontSize" = Some (ConfigManager.VInt 12)
    /\ st' !! "Editor/autoSaveInterval" = Some (ConfigManager.VInt 30)
    /\ st' !! "Application/executionDelay" = Some (ConfigManager.VInt 100)
    /\ st' !! "Application/theme" = Some (ConfigManager.VString "light")
    /\ st' !! "Window/geometry" = st !! "Window/geometry"
    /\ st' !! "Window/state" = st !! "Window/state"
    /\ ConfigManager.emitted c'
       = ConfigManager.emitted c
         ++ (if decide ((if decide (conda = "") then system else conda) <> ""
                        /\ ConfigManager.m_pythonHome (ConfigManager.members c)
                           <> (if decide (conda = "") then system else conda))
             then [ConfigManager.configurationChanged;
                   ConfigManager.pythonPathsChanged]
             else [])
         ++ [ConfigManager.configurationChanged;
             ConfigManager.editorSettingsChanged;
             ConfigManager.pythonPathsChanged].
Proof.
  intros Hst. destruct c as [s m em]. cbn in Hst. subst s.
  unfold ConfigManager.resetToDefaults.
  destruct (createDefaultConfiguration_store conda system st m em)
    as (st' & -> & H1 & H2 & H3 & H4 & H5 & H6 & H7 & H8 & H9).
  cfg_run. eexists _, st'. split; [ reflexivity | ].
  cbn [ConfigManager.m_settings ConfigManager.members ConfigManager.emitted].
  repeat (split; [ first [ reflexivity | assumption ] | ]).
  now rewrite <- !app_assoc.
Qed.

Lemma resetToDefaults_restores_defaults_witness :
  exists c' st',
    ConfigManager.resetToDefaults "" "/usr/bin" config_fresh = Some c'
    /\ ConfigManager.m_settings c' = Some st'
    /\ ConfigManager.members c'
       = {| ConfigManager.m_pythonHome := "/usr/bin";
            ConfigManager.m_pythonPaths := [];
            ConfigManager.m_editorFont := "Consolas";
            ConfigManager.m_theme := "light";
            ConfigManager.m_editorFontSize := 12;
            ConfigManager.m_autoSaveInterval := 30;
            ConfigManager.m_executionDelay := 100 |}
    /\ st' !! "Python/home" = Some (ConfigManager.VString "/usr/bin")
    /\ st' !! "Python/paths" = Some (ConfigManager.VStringList [])
    /\ st' !! "Editor/font" = Some (ConfigManager.VString "Consolas")
    /\ st' !! "Editor/fontSize" = Some (ConfigManager.VInt 12)
    /\ st' !! "Editor/autoSaveInterval" = Some (ConfigManager.VInt 30)
    /\ st' !! "Application/executionDelay" = Some (ConfigManager.VInt 100)
    /\ st' !! "Application/theme" = Some (ConfigManager.VString "light")
    /\ st' !! "Window/geometry" = None
    /\ st' !! "Window/state" = None
    /\ ConfigManager.emitted c'
       = [ConfigManager.configurationChanged; ConfigManager.pythonPathsChanged;
          ConfigManager.configurationChanged;
          ConfigManager.editorSettingsChanged;
          ConfigManager.pythonPathsChanged].
Proof.
  exact (resetToDefaults_restores_defaults "" "/usr/bin" config_fresh ∅
           eq_refl).
Defined.

(** ** Sessions without an interpreter, and sessions of a runner that is
    not the registered one *)

(** X20.  A session without an initialised interpreter touches nothing but
    its own executing flag: it takes no lock, creates no thread state,
    installs no trace function, redirects nothing, executes no statement,
    posts nothing, and leaves the thread state (the error indicator with
    it), the interpreter manager, the registration and every other runner
    as they were; its only events are the two signals. *)
Theorem uninitialized_session_touches_nothing this code run w r :
  runners w !! this = Some r ->
  m_initialized (pyManager w) = false ->
  exists w',
    executePythonCodeSafely this code run w = (Some tt, w')
    /\ log w'
       = log w ++ [Emit this executionStarted;
                   Emit this (errorOccurred
                     "Execution error: Python interpreter not initialized")]
    /\ runners w' = <[this := set_isExecuting false r]> (runners w)
    /\ g_currentRunner w' = g_currentRunner w
    /\ pyManager w' = pyManager w
    /\ sys_stdout_redirected w' = sys_stdout_redirected w
    /\ tstate w' = tstate w
    /\ posted w' = posted w.
Proof.
  intros Hlive Hinit.
  rewrite (session_uninitialized this code run w r Hlive Hinit).
  eexists. split; [ reflexivity | ]. cbn. repeat split.
Qed.

Lemma uninitialized_session_touches_nothing_witness :
  exists w',
    executePythonCodeSafely 1 "print(1)" writes_ABC (one_runner false executing)
    = (Some tt, w')
    /\ log w'
       = [Emit 1%positive executionStarted;
          Emit 1%positive (errorOccurred
            "Execution error: Python interpreter not initialized")]
    /\ runners w' = <[1%positive := set_isExecuting false executing]>
                      (runners (one_runner false executing))
    /\ g_currentRunner w' = Some 1%positive
    /\ pyManager w' = pyManager (one_runner false executing)
    /\ sys_stdout_redirected w' = false
    /\ tstate w' = None
    /\ posted w' = [].
Proof.
  apply (uninitialized_session_touches_nothing 1 "print(1)" writes_ABC
           (one_runner false executing) executing).
  - reflexivity.
  - reflexivity.
Defined.

Lemma notifications_unaborted g steps :
  aborts_of g steps = false ->
  notifications g false steps
  = map (fun n => (g, EmitLineExecuted n)) (traced_lines steps).
Proof.
  induction steps as [ | s steps IH]; intros Hab; [ reflexivity | ].
  unfold aborts_of in Hab. cbn [existsb] in Hab.
  apply orb_false_iff in Hab as [Hs Hab]. specialize (IH Hab).
  destruct s as [f | [f | ] ev | t | p];
    cbn [notifications traced_lines flat_map app map];
    rewrite ?map_app; cbn [map app]; try (now rewrite IH).
  rewrite Hs. cbn [orb]. exact IH.
Qed.

Lemma aborts_of_dead w p steps :
  callers_valid w steps -> runners w !! p = None -> aborts_of p steps = false.
Proof.
  intros Hcall Hp. unfold aborts_of.
  induction Hcall as [ | s steps Hs _ IH]; [ reflexivity | ].
  cbn [existsb]. rewrite IH, orb_false_r.
  destruct s as [ | | | q]; try reflexivity.
  apply bool_decide_eq_false. intros ->. destruct Hs as [rq Hq]. congruence.
Qed.

(** X21.  The trace callback serves the runner constructed last, not the
    runner that runs: when a second runner is constructed and the first
    then runs a session, the line of every trace event with a frame, those
    of the Python code of [redirectPythonOutput] included, is posted to the
    second runner, whether or not the first one was aborted before or
    during the session, and however the session ends. *)
Theorem line_notifications_go_to_the_last_constructed_runner
    this code run w r :
  runners w !! this = Some r ->
  callers_valid w (session_steps run) ->
  m_initialized (pyManager w) = true ->
  exists other w1 w',
    CodeRunner_ctor w = (Some other, w1)
    /\ other <> this
    /\ executePythonCodeSafely this code run w1 = (session_outcome w run, w')
    /\ posted w'
       = posted w
         ++ map (fun n => (other, EmitLineExecuted n))
              (traced_lines (session_steps run)).
Proof.
  intros Hlive Hcall Hinit. unfold CodeRunner_ctor.
  set (other := fresh (dom (runners w))).
  assert (Hfresh : runners w !! other = None).
  { apply not_elem_of_dom. apply is_fresh. }
  assert (Hne : other <> this) by congruence.
  set (w1 := set_g_currentRunner (Some other)
               (set_runners (<[other := CodeRunner_init]> (runners w)) w)).
  assert (Hr1 : runners w1 !! this = Some r).
  { subst w1. cbn. now rewrite lookup_insert_ne. }
  assert (Hreg1 : registration_valid w1).
  { exists CodeRunner_init. subst w1. cbn. apply lookup_insert_eq. }
  assert (Hcall1 : callers_valid w1 (session_steps run)).
  { eapply Forall_impl; [ exact Hcall | ]. intros [ | | | p]; auto.
    intros [rp Hp]. exists rp. subst w1. cbn.
    rewrite lookup_insert_ne by congruence. exact Hp. }
  pose proof (aborts_of_dead w other (session_steps run) Hcall Hfresh) as Hab.
  destruct (session_exact this code run w1 r Hr1 Hreg1 Hcall1 Hinit)
    as (w' & Hrun & _ & _ & _ & _ & Hq & _).
  exists other, w1, w'. split; [ reflexivity | ]. split; [ exact Hne | ].
  split; [ exact Hrun | ].
  rewrite Hq. unfold run_notifications. subst w1. cbn.
  rewrite lookup_insert_eq. cbn.
  now rewrite notifications_unaborted.
Qed.

Lemma line_notifications_go_to_the_last_constructed_runner_witness :
  exists other w1 w',
    CodeRunner_ctor (one_runner true executing) = (Some other, w1)
    /\ other <> 1%positive
    /\ executePythonCodeSafely 1 "print(...)" aborted_ABC w1 = (Some tt, w')
    /\ posted w'
       = map (fun n => (other, EmitLineExecuted n))
           [1; 2; 2; 2; 3; 6; 9; 9; 2; 3; 4; 4;
            1; 1; 6; 7; 7; 2; 6; 7; 7; 3; 6; 7; 7; 3].
Proof.
  apply (line_notifications_go_to_the_last_constructed_runner 1 "print(...)"
           aborted_ABC (one_runner true executing) executing).
  - reflexivity.
  - repeat constructor. exists executing. reflexivity.
  - reflexivity.
Defined.
